(** * The flip-deal evaluation engine (engine.py)

    A shallow embedding of [headwind_index], [gaussian_copula_normals],
    [cvar5_empirical], [simulate_once], [decide], [autotune_bars] and
    [run_all], and the properties of the design document that concern them.

    Number model.  A binary64 value is represented by the rational it
    denotes.  Arithmetic is exact, the rounding error of the individual
    operations being outside the model, with one exception: the score of
    the autotuner, whose comparisons choose between candidates whose exact
    scores can tie, is evaluated with the rounding of binary64 ([F64]).
    The one NaN the engine produces on its own, the mean or median of an
    empty column, is kept explicit as [None].
    [exp], [log], [sqrt] and the pseudo-random generator are an interface
    ([Runtime]) the engine is parameterised by. *)

From Stdlib Require Import QArith Qround Qabs ZArith List String Ascii.
From Stdlib Require Import Lia Lqa Bool Sorting Permutation.
Import ListNotations.
Open Scope Q_scope.

(** ** Python: exceptions, results, builtins *)

Module Py.

Inductive exn : Type :=
| KeyError (key : string)
| StopIteration
| IndexError.

Inductive result (A : Type) : Type :=
| Ok (a : A)
| Raise (e : exn).
Arguments Ok {A} a.
Arguments Raise {A} e.

Definition bind {A B} (r : result A) (k : A -> result B) : result B :=
  match r with
  | Ok a => k a
  | Raise e => Raise e
  end.

(** [a < b] and [a <= b] on floats. *)
Definition ltb (a b : Q) : bool := negb (Qle_bool b a).
Definition leb (a b : Q) : bool := Qle_bool a b.

(** The builtins [min(a, b)] and [max(a, b)]: the first argument is kept
    unless the second is strictly smaller (larger). *)
Definition min (a b : Q) : Q := if ltb b a then b else a.
Definition max (a b : Q) : Q := if ltb a b then b else a.

(** [round(x, n)]: to [n] decimals, a half goes to the even neighbour.  The
    result is kept in lowest terms. *)
Definition round_half_even (y : Q) : Z :=
  let f := Qfloor y in
  match Qcompare (y - inject_Z f) (1 # 2) with
  | Lt => f
  | Gt => (f + 1)%Z
  | Eq => if Z.even f then f else (f + 1)%Z
  end.

Definition round (x : Q) (n : nat) : Q :=
  let scale := inject_Z (10 ^ Z.of_nat n) in
  Qred (inject_Z (round_half_even (x * scale)) / scale).

(** A [for] loop whose body may raise. *)
Fixpoint for_each {A S} (l : list A) (body : A -> S -> result S) (s : S)
  : result S :=
  match l with
  | [] => Ok s
  | x :: rest => bind (body x s) (for_each rest body)
  end.

End Py.

Notation "x <- r ;; k" := (Py.bind r (fun x => k))
  (at level 61, r at next level, right associativity).

(** ** Sorting: a stable insertion sort stands for the library sorts *)

Section Sort.
Context {A : Type} (le : A -> A -> bool).

Fixpoint insert (x : A) (l : list A) : list A :=
  match l with
  | [] => [x]
  | y :: t => if le x y then x :: y :: t else y :: insert x t
  end.

Fixpoint isort (l : list A) : list A :=
  match l with
  | [] => []
  | x :: t => insert x (isort t)
  end.

End Sort.

(** ** NumPy *)

Module Np.

(** [np.maximum] and [np.minimum]. *)
Definition maximum (x lo : Q) : Q := if Py.leb lo x then x else lo.
Definition minimum (x hi : Q) : Q := if Py.leb x hi then x else hi.

(** [np.clip(x, lo, hi)]; a bound given as [None] is not applied. *)
Definition clip (x : Q) (lo hi : option Q) : Q :=
  let y := match lo with Some l => maximum x l | None => x end in
  match hi with Some h => minimum y h | None => y end.

(** [np.arange(start, stop, step)]: [ceil((stop - start) / step)] values
    [start + i * step], each in lowest terms. *)
Definition arange (start stop step : Q) : list Q :=
  map (fun i => Qred (start + inject_Z (Z.of_nat i) * step))
      (seq 0 (Z.to_nat (Qceiling ((stop - start) / step)))).

Definition sort (a : list Q) : list Q := isort Py.leb a.

Definition sum (a : list Q) : Q := fold_right Qplus 0 a.

(** [a.mean()].  On an empty array NumPy gives NaN; the engine takes this
    mean of a non-empty array only (line 29 guards it, and line 56 is
    followed by a percentile that raises on an empty array). *)
Definition mean (a : list Q) : Q := sum a / inject_Z (Z.of_nat (List.length a)).

(** The linear interpolation of [np.percentile]'s default method. *)
Definition lerp (a b t : Q) : Q :=
  if Py.leb 0.5 t then b - (b - a) * (1 - t) else a + (b - a) * t.

(** [np.percentile(a, q)], method 'linear': the virtual index
    [(n - 1) * q / 100] between its two neighbours in sorted order. *)
Definition percentile (a : list Q) (q : Q) : Py.result Q :=
  match a with
  | [] => Py.Raise Py.IndexError
  | _ :: _ =>
      let s := sort a in
      let n := List.length a in
      let h := inject_Z (Z.of_nat n - 1) * (q / 100) in
      let lo := Z.to_nat (Qfloor h) in
      let hi := Nat.min (lo + 1) (n - 1) in
      Py.Ok (lerp (nth lo s 0) (nth hi s 0) (h - inject_Z (Qfloor h)))
  end.

End Np.

(** ** pandas *)

Module Pd.

(** A frame built from a list of row dicts has the columns of its rows:
    [pd.DataFrame([])] has none, and selecting a column of it raises. *)
Inductive DataFrame (R : Type) : Type :=
| NoColumns
| Frame (rows : list R).
Arguments NoColumns {R}.
Arguments Frame {R} rows.

Definition of_rows {R} (rows : list R) : DataFrame R :=
  match rows with
  | [] => NoColumns
  | _ :: _ => Frame rows
  end.

(** [df[name]]. *)
Definition column {R} (df : DataFrame R) (name : string) (f : R -> Q)
  : Py.result (list Q) :=
  match df with
  | NoColumns => Py.Raise (Py.KeyError name)
  | Frame rows => Py.Ok (map f rows)
  end.

(** The median of a non-empty column: the middle value in sorted order, or
    the mean of the two middle values. *)
Definition median_ne (x : Q) (l : list Q) : Q :=
  let s := Np.sort (x :: l) in
  let n := List.length (x :: l) in
  if Nat.even n
  then (nth (n / 2 - 1) s 0 + nth (n / 2) s 0) / 2
  else nth (n / 2) s 0.

(** [Series.median()] and [Series.mean()]: NaN ([None]) when empty. *)
Definition median (l : list Q) : option Q :=
  match l with
  | [] => None
  | x :: t => Some (median_ne x t)
  end.

Definition mean (l : list Q) : option Q :=
  match l with
  | [] => None
  | _ :: _ => Some (Np.mean l)
  end.

End Pd.

(** ** Regional profiles and the friction index *)

(** One entry of [regional_map['rings']]. *)
Record Profile : Type := mkProfile {
  inventory_months : Q;
  dom_days : Q;
  list_sale_ratio : Q;
  tax_rate : Q;
  permit_delay_days : Q
}.

(** A dict keeps its insertion order: an association list, first binding of
    a key found first. *)
Definition Rings : Type := list (string * Profile).

(** The JSON object read by [load_json]; the key ['rings'] may be absent
    (the loader's default is the empty object). *)
Record RegionalMap : Type := mkRegionalMap {
  rings : option Rings
}.

Fixpoint dict_get (region : string) (d : Rings) : option Profile :=
  match d with
  | [] => None
  | (k, v) :: rest => if String.eqb k region then Some v else dict_get region rest
  end.

(** [regional_map['rings']]. *)
Definition get_rings (regional_map : RegionalMap) : Py.result Rings :=
  match rings regional_map with
  | Some d => Py.Ok d
  | None => Py.Raise (Py.KeyError "rings")
  end.

(** [next(iter(d.values()))]. *)
Definition first_value (d : Rings) : Py.result Profile :=
  match d with
  | [] => Py.Raise Py.StopIteration
  | (_, v) :: _ => Py.Ok v
  end.

(** Lines 16-19: the score of one profile. *)
Definition profile_score (r : Profile) : Q :=
  let inv := inventory_months r in
  let dom := dom_days r in
  let ls := list_sale_ratio r in
  let tax := tax_rate r in
  let permit := permit_delay_days r in
  let inv_n := Py.min (inv / 6.0) 1.0 in
  let dom_n := Py.min (dom / 60.0) 1.0 in
  let tax_n := Py.min (tax / 0.025) 1.0 in
  let permit_n := Py.min (permit / 60.0) 1.0 in
  let hi := 100.0 * (0.30 * inv_n + 0.25 * dom_n + 0.20 * (1.0 - ls)
                     + 0.15 * tax_n + 0.10 * permit_n) in
  Np.clip hi (Some 0.0) (Some 100.0).

(** [headwind_index]: the default of [.get] is evaluated before the lookup,
    as every argument of a call is. *)
Definition headwind_index (region : string) (regional_map : RegionalMap)
  : Py.result Q :=
  d <- get_rings regional_map ;;
  fallback <- first_value d ;;
  let r := match dict_get region d with
           | Some v => v
           | None => fallback
           end in
  Py.Ok (profile_score r).

(** ** The numeric runtime: generator and transcendental functions *)

Class Runtime : Type := {
  Generator : Type;
  (** [np.random.default_rng(seed)] *)
  default_rng : Z -> Generator;
  (** one standard-normal variate, and the generator after it *)
  next_normal : Generator -> Q * Generator;
  (** one uniform variate of [[0, 1)], and the generator after it *)
  next_uniform : Generator -> Q * Generator;
  exp : Q -> Q;
  log : Q -> Q;
  sqrt : Q -> Q
}.

(** ** The world outside the process *)

(** Decision thresholds: the dict [{'risk_adj', 'ploss', 'cvar'}]. *)
Record Bars : Type := mkBars {
  risk_adj : Q;
  ploss : Q;
  cvar : Q
}.

Inductive FsOp : Type :=
| MkdirParents (of_path : string)
| WriteText (path : string) (tuned : Bars).

(** The operating system's entropy pool, read by an unseeded
    [default_rng()], and the file system: which operations it lets succeed,
    and the operations the process has attempted, latest first. *)
Record World : Type := mkWorld {
  os_entropy : nat -> Z;
  entropy_used : nat;
  fs_ok : FsOp -> bool;
  fs_log : list FsOp
}.

Definition M (A : Type) : Type := World -> Py.result A * World.

Definition ret {A} (a : A) : M A := fun w => (Py.Ok a, w).

Definition lift {A} (r : Py.result A) : M A := fun w => (r, w).

Definition mbind {A B} (m : M A) (k : A -> M B) : M B :=
  fun w =>
    match m w with
    | (Py.Ok a, w') => k a w'
    | (Py.Raise e, w') => (Py.Raise e, w')
    end.

Notation "x <~ m ;; k" := (mbind m (fun x => k))
  (at level 61, m at next level, right associativity).

(** [np.random.default_rng()] without a seed. *)
Definition fresh_rng `{Runtime} : M Generator :=
  fun w =>
    (Py.Ok (default_rng (os_entropy w (entropy_used w))),
     mkWorld (os_entropy w) (S (entropy_used w)) (fs_ok w) (fs_log w)).

(** One file-system operation inside a [try] whose handler passes: the
    result says whether it went through. *)
Definition fs_attempt (op : FsOp) : M bool :=
  fun w =>
    (Py.Ok (fs_ok w op),
     mkWorld (os_entropy w) (entropy_used w) (fs_ok w) (op :: fs_log w)).

(** ** Correlated shocks *)

Definition Vec3 : Type := (Q * Q * Q)%type.
Definition Mat3 : Type := (Vec3 * Vec3 * Vec3)%type.

(** Line 34: the correlation matrix of (sale, hold, rehab). *)
Definition R_corr : Mat3 :=
  ((1.0, -0.35, 0.20), (-0.35, 1.0, 0.15), (0.20, 0.15, 1.0)).

(** [R + 1e-12 * np.eye(3)]. *)
Definition add_jitter (R : Mat3) : Mat3 :=
  let '((a11, a12, a13), (a21, a22, a23), (a31, a32, a33)) := R in
  ((a11 + 1e-12, a12, a13), (a21, a22 + 1e-12, a23), (a31, a32, a33 + 1e-12)).

(** [np.linalg.cholesky]: the lower-triangular factor, read from the lower
    triangle of its argument. *)
Definition cholesky `{Runtime} (A : Mat3) : Mat3 :=
  let '((a11, _, _), (a21, a22, _), (a31, a32, a33)) := A in
  let l11 := sqrt a11 in
  let l21 := a21 / l11 in
  let l31 := a31 / l11 in
  let l22 := sqrt (a22 - l21 * l21) in
  let l32 := (a32 - l31 * l21) / l22 in
  let l33 := sqrt (a33 - l31 * l31 - l32 * l32) in
  ((l11, 0, 0), (l21, l22, 0), (l31, l32, l33)).

(** [rng.standard_normal((n, 3))]: the array is filled in row-major order. *)
Fixpoint standard_normal `{Runtime} (n : nat) (g : Generator)
  : list Vec3 * Generator :=
  match n with
  | O => ([], g)
  | S k =>
      let (a, g1) := next_normal g in
      let (b, g2) := next_normal g1 in
      let (c, g3) := next_normal g2 in
      let (rest, g') := standard_normal k g3 in
      ((a, b, c) :: rest, g')
  end.

(** One row of [Z @ L.T]. *)
Definition mul_LT (L : Mat3) (z : Vec3) : Vec3 :=
  let '((l11, l12, l13), (l21, l22, l23), (l31, l32, l33)) := L in
  let '(z1, z2, z3) := z in
  (z1 * l11 + z2 * l12 + z3 * l13,
   z1 * l21 + z2 * l22 + z3 * l23,
   z1 * l31 + z2 * l32 + z3 * l33).

Definition gaussian_copula_normals `{Runtime} (g : Generator) (n : nat)
  (R : Mat3) : list Vec3 * Generator :=
  let (Z, g') := standard_normal n g in
  let L := cholesky (add_jitter R) in
  (map (mul_LT L) Z, g').

(** [rng.choice([0, 1, 2], size=n, p=p)]: each index is the position of a
    uniform variate among the cumulative probabilities, searched from the
    right; a variate is below 1, so the index is at most 2. *)
Definition regime_index (p : Vec3) (u : Q) : nat :=
  let '(p0, p1, p2) := p in
  let total := p0 + p1 + p2 in
  if Py.ltb u (p0 / total) then 0%nat
  else if Py.ltb u ((p0 + p1) / total) then 1%nat
  else 2%nat.

Fixpoint choice `{Runtime} (n : nat) (p : Vec3) (g : Generator)
  : list nat * Generator :=
  match n with
  | O => ([], g)
  | S k =>
      let (u, g1) := next_uniform g in
      let (rest, g') := choice k p g1 in
      (regime_index p u :: rest, g')
  end.

(** ** Deals and the per-trial arithmetic *)

(** A row of the deal frame.  The columns read with [r.get(name, default)]
    may be absent. *)
Record Deal : Type := mkDeal {
  d_address : string;
  d_region_ring : string;
  d_purchase : Q;
  d_rehab : Q;
  d_carry : Q;
  d_selling_pct : Q;
  d_projected_sale : Q;
  d_hold_months : option Q;
  d_permit_delay_days : option Q;
  d_tax_drag : option Q;
  d_ltv : option Q;
  d_loan_rate_annual : option Q
}.

Definition get_or (field : option Q) (default : Q) : Q :=
  match field with
  | Some v => v
  | None => default
  end.

(** The lens parameters of lines 36 and 40. *)
Definition regimes_of (lens : string) : Vec3 :=
  if String.eqb lens "Engineer" then (0.2, 0.6, 0.2) else (0.15, 0.6, 0.25).

Definition sd_of (lens : string) : Vec3 :=
  if String.eqb lens "Engineer" then (0.30, 0.15, 1.40) else (0.15, 0.08, 0.70).

(** What one trial draws: its row of [Z] and its regime index. *)
Record Trial : Type := mkTrial {
  t_z : Vec3;
  t_idx : nat
}.

Definition z_arv (t : Trial) : Q := fst (fst (t_z t)).
Definition z_hold (t : Trial) : Q := snd (fst (t_z t)).
Definition z_rehab (t : Trial) : Q := snd (t_z t).
Definition arv_shift (t : Trial) : Q := nth (t_idx t) [-0.03; 0.0; 0.02] 0.
Definition hold_shift (t : Trial) : Q := nth (t_idx t) [0.6; 0.0; -0.3] 0.

Section Trial.
Context `{Runtime}.
Variable lens : string.
Variable r : Deal.
Variable t : Trial.

Let purchase := d_purchase r.
Let rehab := d_rehab r.
Let carry := d_carry r.
Let selling := d_selling_pct r.
Let arv := d_projected_sale r.
Let hold_m := get_or (d_hold_months r) 4.
Let permit := get_or (d_permit_delay_days r) 0.
Let tax := get_or (d_tax_drag r) 0.02.
Let ltv := get_or (d_ltv r) 0.8.
Let rate := get_or (d_loan_rate_annual r) 0.085.
Let rehab_sd := fst (fst (sd_of lens)).
Let arv_sd := snd (fst (sd_of lens)).
Let hold_sd := snd (sd_of lens).

(** Lines 48-55, for one trial. *)
Definition rehab_draw : Q :=
  exp (log (Py.max rehab 1.0) + rehab_sd * z_rehab t).

Definition sale_draw : Q :=
  Np.clip (arv * (1.0 + arv_sd * z_arv t + arv_shift t))
          (Some (0.5 * purchase)) None.

Definition hold_draw : Q :=
  Np.clip (hold_m + permit / 30.0 + hold_sd * z_hold t + hold_shift t)
          (Some 1.0) None.

Definition interest_cost : Q := (ltv * purchase) * rate * (hold_draw / 12.0).

Definition sell_cost : Q := Np.clip selling (Some 0.0) (Some 0.12) * sale_draw.

Definition carry_total : Q := (carry / Py.max 1.0 hold_m) * hold_draw.

Definition tax_drag_amt : Q := tax * purchase * (hold_draw / 12.0).

Definition tpc : Q :=
  purchase + rehab_draw + carry_total + interest_cost + tax_drag_amt
  + sell_cost.

Definition roi : Q := (sale_draw - tpc) / tpc.

End Trial.

(** The invariant of a deal record: no monetary or ratio field is
    negative (an absent optional column counts with its default). *)
Definition nonneg_fields (r : Deal) : Prop :=
  0 <= d_purchase r /\ 0 <= d_rehab r /\ 0 <= d_carry r
  /\ 0 <= d_selling_pct r /\ 0 <= d_projected_sale r
  /\ 0 <= get_or (d_hold_months r) 4
  /\ 0 <= get_or (d_permit_delay_days r) 0
  /\ 0 <= get_or (d_tax_drag r) 0.02
  /\ 0 <= get_or (d_ltv r) 0.8
  /\ 0 <= get_or (d_loan_rate_annual r) 0.085.

(** ** Result rows and the simulator *)

Record ResultRow : Type := mkRow {
  address : string;
  region_ring : string;
  HI : Q;
  P10_ROI : Q;
  P50_ROI : Q;
  P90_ROI : Q;
  VaR5_ROI : Q;
  CVaR5_ROI : Q;
  P_loss : Q;
  RiskAdj_ROI_P50 : Q
}.

(** [cvar5_empirical]. *)
Definition cvar5_empirical (roi : list Q) : Py.result Q :=
  p5 <- Np.percentile roi 5 ;;
  let tail := filter (fun x => Py.leb x p5) roi in
  Py.Ok (if (0 <? List.length tail)%nat then Np.mean tail else p5).

(** The unrounded statistics of lines 56-57. *)
Record Stats : Type := mkStats {
  st_p_loss : Q;
  st_p5 : Q;
  st_p10 : Q;
  st_p50 : Q;
  st_p90 : Q;
  st_cvar5 : Q
}.

Definition roi_stats (roi : list Q) : Py.result Stats :=
  let p_loss := Np.mean (map (fun x => if Py.ltb x 0 then 1 else 0) roi) in
  p5 <- Np.percentile roi 5 ;;
  p10 <- Np.percentile roi 10 ;;
  p50 <- Np.percentile roi 50 ;;
  p90 <- Np.percentile roi 90 ;;
  cvar5 <- cvar5_empirical roi ;;
  Py.Ok (mkStats p_loss p5 p10 p50 p90 cvar5).

(** Lines 58-61. *)
Definition result_row (r : Deal) (region : string) (hi : Q) (s : Stats)
  : ResultRow :=
  let risk_adj := (1.0 - hi / 100.0) * st_p50 s in
  mkRow (d_address r) region (Py.round hi 1)
        (Py.round (100 * st_p10 s) 2) (Py.round (100 * st_p50 s) 2)
        (Py.round (100 * st_p90 s) 2) (Py.round (100 * st_p5 s) 2)
        (Py.round (100 * st_cvar5 s) 2) (Py.round (100 * st_p_loss s) 2)
        (Py.round (100 * risk_adj) 2).

(** The body of the loop of line 42. *)
Definition simulate_deal `{Runtime} (regional_map : RegionalMap)
  (lens : string) (trials : list Trial) (r : Deal) : Py.result ResultRow :=
  let region := d_region_ring r in
  hi <- headwind_index region regional_map ;;
  s <- roi_stats (map (roi lens r) trials) ;;
  Py.Ok (result_row r region hi s).

Fixpoint simulate_rows `{Runtime} (regional_map : RegionalMap)
  (lens : string) (trials : list Trial) (df : list Deal)
  : Py.result (list ResultRow) :=
  match df with
  | [] => Py.Ok []
  | r :: rest =>
      row <- simulate_deal regional_map lens trials r ;;
      rows <- simulate_rows regional_map lens trials rest ;;
      Py.Ok (row :: rows)
  end.

(** Lines 34-37: the shocks, drawn once from [rng] and shared by all deals. *)
Definition draw_trials `{Runtime} (g : Generator) (sims : nat)
  (lens : string) : list Trial * Generator :=
  let (Z, g1) := gaussian_copula_normals g sims R_corr in
  let (idx, g2) := choice sims (regimes_of lens) g1 in
  (map (fun zi => mkTrial (fst zi) (snd zi)) (combine Z idx), g2).

(** [simulate_once] once [rng] is a generator: the frame, and the state the
    caller's generator object is left in. *)
Definition simulate_with `{Runtime} (g : Generator) (df : list Deal)
  (regional_map : RegionalMap) (sims : nat) (lens : string)
  : Py.result (Pd.DataFrame ResultRow) * Generator :=
  let (trials, g') := draw_trials g sims lens in
  (rows <- simulate_rows regional_map lens trials df ;; Py.Ok (Pd.of_rows rows),
   g').

(** [simulate_once(df, regional_map, sims, lens, rng=None)].  A generator
    the caller passes is advanced by the draws; no caller in the repository
    reads it afterwards, so only the frame is returned. *)
Definition simulate_once `{Runtime} (df : list Deal)
  (regional_map : RegionalMap) (sims : nat) (lens : string)
  (rng : option Generator) : M (Pd.DataFrame ResultRow) :=
  g <~ match rng with
       | Some g => ret g
       | None => fresh_rng
       end ;;
  lift (fst (simulate_with g df regional_map sims lens)).

(** ** The decision evaluator *)

Inductive Status : Type :=
| GO
| CAUTION.

(** The string a status is in the frames. *)
Definition status_str (s : Status) : string :=
  match s with
  | GO => "GO"
  | CAUTION => "CAUTION"
  end.

(** Comparisons of a possibly-NaN float with a float: false on NaN. *)
Definition nan_ge (x : option Q) (y : Q) : bool :=
  match x with
  | Some v => Py.leb y v
  | None => false
  end.

Definition nan_le (x : option Q) (y : Q) : bool :=
  match x with
  | Some v => Py.leb v y
  | None => false
  end.

Definition nan_gt (x : option Q) (y : Q) : bool :=
  match x with
  | Some v => Py.ltb y v
  | None => false
  end.

Definition default_bars : Bars := mkBars 8.5 15.0 (-10.0).

(** The dict [decide] returns. *)
Record Summary : Type := mkSummary {
  s_RiskAdj : option Q;
  s_Ploss : option Q;
  s_CVaR5 : option Q;
  s_Status : Status
}.

Definition decide (df : Pd.DataFrame ResultRow) (bars : option Bars)
  : Py.result Summary :=
  let bars := match bars with
              | None => default_bars
              | Some b => b
              end in
  rs <- Pd.column df "Risk-Adj ROI P50%" RiskAdj_ROI_P50 ;;
  ps <- Pd.column df "P(loss)%" P_loss ;;
  cs <- Pd.column df "CVaR5_ROI%" CVaR5_ROI ;;
  let r := Pd.median rs in
  let p := Pd.median ps in
  let c := Pd.median cs in
  Py.Ok (mkSummary r p c
           (if nan_ge r (risk_adj bars) && nan_le p (ploss bars)
               && nan_gt c (cvar bars)
            then GO else CAUTION)).

(** ** Binary64 rounding

    A binary64 operation is the exact operation followed by a rounding to
    the nearest value with 53 significant bits, a tie going to the even
    significand.  The values the autotuner computes are below 16 in
    magnitude, so overflow is not modelled. *)

Module F64.

(** [2 ^ e] for an exponent of either sign. *)
Definition pow2 (e : Z) : Q :=
  if (0 <=? e)%Z then inject_Z (2 ^ e) else 1 # Z.to_pos (2 ^ (- e)).

(** The exponent of a non-zero value: the [k] with [2^k <= |x| < 2^(k+1)]. *)
Definition ilog2 (x : Q) : Z :=
  let k := (Z.log2 (Z.abs (Qnum x)) - Z.log2 (Zpos (Qden x)))%Z in
  if Qle_bool (pow2 k) (Qabs x) then k else (k - 1)%Z.

(** The exponent of the last place of [x]: 53 significant bits, and no
    finer than [2^-1074]. *)
Definition ulp_exp (x : Q) : Z := Z.max (ilog2 x - 52) (-1074).

(** The binary64 value nearest to [x], in lowest terms. *)
Definition round (x : Q) : Q :=
  let x := Qred x in
  if Qeq_bool x 0 then 0
  else
    let e := ulp_exp x in
    Qred (inject_Z (Py.round_half_even (x / pow2 e)) * pow2 e).

Definition add (x y : Q) : Q := round (x + y).
Definition sub (x y : Q) : Q := round (x - y).
Definition mul (x y : Q) : Q := round (x * y).
Definition div (x y : Q) : Q := round (x / y).

(** A decimal literal of the source denotes the binary64 value nearest to
    it. *)
Definition lit (x : Q) : Q := round x.

(** The largest move of a rounding below 16 in magnitude: [2^-50]. *)
Definition eps : Q := 1 # 1125899906842624.

End F64.

(** ** The autotuner *)

Definition cand_r : list Q := Np.arange 6.0 12.5 0.5.
Definition cand_p : list Q := Np.arange 10.0 25.5 0.5.
Definition cand_c : list Q := Np.arange (-20.0) (-5.0) 1.0.

(** The three-condition test on one row. *)
Definition passes (b : Bars) (row : ResultRow) : bool :=
  Py.leb (risk_adj b) (RiskAdj_ROI_P50 row)
  && Py.leb (P_loss row) (ploss b)
  && Py.ltb (cvar b) (CVaR5_ROI row).

(** [go_rate]: the mean of the boolean mask, NaN on a frame without rows.
    The count of the rows that pass is exact, so the rate is kept as the
    exact quotient here; the binary64 quotient the code returns is its
    rounding, which [score] takes. *)
Definition go_rate (df : Pd.DataFrame ResultRow) (b : Bars)
  : Py.result (option Q) :=
  match df with
  | Pd.NoColumns => Py.Raise (Py.KeyError "Risk-Adj ROI P50%")
  | Pd.Frame rows =>
      Py.Ok (Pd.mean (map (fun row => if passes b row then 1 else 0) rows))
  end.

(** [float(mask.mean())]: the rate as a binary64 value, NaN kept. *)
Definition nan_round (x : option Q) : option Q :=
  match x with
  | Some v => Some (F64.round v)
  | None => None
  end.

(** Lines 79-82 in binary64, on possibly-NaN rates: NaN fails [ge <= 0.15]
    and then propagates through the arithmetic. *)
Definition penalty (ge : option Q) : option Q :=
  match ge with
  | Some v =>
      Some (if Py.leb v (F64.lit 0.15) then 0.0
            else F64.mul (-5.0) (F64.sub v (F64.lit 0.15)))
  | None => None
  end.

Definition reward (gc : option Q) : option Q :=
  match gc with
  | Some v => Some (F64.sub 1.0 (Qabs (F64.sub v (F64.lit 0.33))))
  | None => None
  end.

Definition safety (cc : Q) : Q := F64.div (F64.add cc 20.0) 10.0.

Definition nan_add (x y : option Q) : option Q :=
  match x, y with
  | Some a, Some b => Some (F64.add a b)
  | _, _ => None
  end.

(** [score = reward + safety + pen], added from the left. *)
Definition score_of (ge gc : option Q) (cc : Q) : option Q :=
  nan_add (nan_add (reward gc) (Some (safety cc))) (penalty ge).

(** The score of a candidate on the two batches. *)
Definition score (cons_df opp_df : Pd.DataFrame ResultRow) (b : Bars)
  : Py.result (option Q) :=
  ge <- go_rate cons_df b ;;
  gc <- go_rate opp_df b ;;
  Py.Ok (score_of (nan_round ge) (nan_round gc) (cvar b)).

(** Lines 77-84: the body of the innermost loop on [(best, best_score)]. *)
Definition tune_step (cons_df opp_df : Pd.DataFrame ResultRow) (b : Bars)
  (st : Bars * Q) : Py.result (Bars * Q) :=
  s <- score cons_df opp_df b ;;
  Py.Ok (if nan_gt s (snd st)
         then (b, match s with Some v => v | None => snd st end)
         else st).

(** [autotune_bars(cons_df, cons_sum, opp_df, opp_sum, defaults)]; the two
    summaries are not read. *)
Definition autotune_bars (cons_df : Pd.DataFrame ResultRow)
  (cons_sum : Summary) (opp_df : Pd.DataFrame ResultRow) (opp_sum : Summary)
  (defaults : Bars) : Py.result Bars :=
  st <- Py.for_each cand_r (fun rr =>
          Py.for_each cand_p (fun pp =>
            Py.for_each cand_c (fun cc =>
              tune_step cons_df opp_df (mkBars rr pp cc))))
        (defaults, -1) ;;
  Py.Ok (fst st).

(** The candidates in the order the three nested loops visit them:
    [rr] outermost, [pp] in the middle, [cc] innermost. *)
Definition candidates : list Bars :=
  flat_map (fun rr =>
    flat_map (fun pp => map (fun cc => mkBars rr pp cc) cand_c) cand_p)
    cand_r.

(** Membership of the grid [{lo, lo + step, ..., hi}], by value. *)
Definition in_grid (x lo hi step : Q) : Prop :=
  exists k : nat,
    x == lo + inject_Z (Z.of_nat k) * step
    /\ lo + inject_Z (Z.of_nat k) * step <= hi.

(** The declared grids of the three fields. *)
Definition on_grids (b : Bars) : Prop :=
  in_grid (risk_adj b) 6.0 12.0 0.5
  /\ in_grid (ploss b) 10.0 25.0 0.5
  /\ in_grid (cvar b) (-20.0) (-6.0) 1.0.

(** ** The orchestrator *)

(** A result row with the ['lens'] column. *)
Definition LensRow : Type := (ResultRow * string)%type.

(** [df['lens'] = lens]. *)
Definition with_lens (df : Pd.DataFrame ResultRow) (lens : string)
  : Pd.DataFrame LensRow :=
  match df with
  | Pd.NoColumns => Pd.NoColumns
  | Pd.Frame rows => Pd.Frame (map (fun row => (row, lens)) rows)
  end.

(** [pd.concat([a, b], ignore_index=True)]. *)
Definition concat {R} (a b : Pd.DataFrame R) : Pd.DataFrame R :=
  match a, b with
  | Pd.Frame x, Pd.Frame y => Pd.Frame (x ++ y)
  | Pd.Frame x, Pd.NoColumns => Pd.Frame x
  | Pd.NoColumns, Pd.Frame y => Pd.Frame y
  | Pd.NoColumns, Pd.NoColumns => Pd.NoColumns
  end.

(** The dict [sums]; the key ['defaults'] is there after autotuning. *)
Record Sums : Type := mkSums {
  sums_Engineer : Summary;
  sums_Consumer : Summary;
  sums_bars : Bars;
  sums_defaults : option Bars
}.

(** A row of [grp]: the group key and the medians of the numeric columns. *)
Record GroupRow : Type := mkGroupRow {
  g_region_ring : string;
  g_lens : string;
  g_HI : Q;
  g_P10 : Q;
  g_P50 : Q;
  g_P90 : Q;
  g_VaR5 : Q;
  g_CVaR5 : Q;
  g_P_loss : Q;
  g_RiskAdj : Q
}.

Definition key_of (row : LensRow) : string * string :=
  (region_ring (fst row), snd row).

Definition key_eqb (a b : string * string) : bool :=
  String.eqb (fst a) (fst b) && String.eqb (snd a) (snd b).

(** The order of tuples of strings. *)
Definition key_leb (a b : string * string) : bool :=
  match String.compare (fst a) (fst b) with
  | Lt => true
  | Gt => false
  | Eq => String.leb (snd a) (snd b)
  end.

Fixpoint distinct (keys : list (string * string)) : list (string * string) :=
  match keys with
  | [] => []
  | k :: rest => k :: filter (fun k' => negb (key_eqb k k')) (distinct rest)
  end.

(** One group: its rows are those of the key, in frame order. *)
Definition group_row (rows : list LensRow) (k : string * string)
  : list GroupRow :=
  match filter (fun row => key_eqb k (key_of row)) rows with
  | [] => []
  | x :: l =>
      let med (f : ResultRow -> Q) :=
        Pd.median_ne (f (fst x)) (map (fun row => f (fst row)) l) in
      [mkGroupRow (fst k) (snd k) (med HI) (med P10_ROI) (med P50_ROI)
                  (med P90_ROI) (med VaR5_ROI) (med CVaR5_ROI) (med P_loss)
                  (med RiskAdj_ROI_P50)]
  end.

(** [both.groupby(['region_ring', 'lens'], as_index=False)
        .median(numeric_only=True)]: one row per key, keys ascending. *)
Definition groupby_median (both : Pd.DataFrame LensRow)
  : Py.result (list GroupRow) :=
  match both with
  | Pd.NoColumns => Py.Raise (Py.KeyError "region_ring")
  | Pd.Frame rows =>
      Py.Ok (flat_map (group_row rows)
                      (isort key_leb (distinct (map key_of rows))))
  end.

(** A row of the opportunity table. *)
Record Opportunity : Type := mkOpp {
  o_region : string;
  o_lens : string;
  o_RiskAdj : Q;
  o_Ploss : Q;
  o_CVaR5 : Q;
  o_status : Status;
  o_nudge : string
}.

(** Lines 105-107. *)
Definition opportunity (b : Bars) (row : GroupRow) : Opportunity :=
  let status :=
    if Py.leb (risk_adj b) (g_RiskAdj row) && Py.leb (g_P_loss row) (ploss b)
       && Py.ltb (cvar b) (g_CVaR5 row)
    then GO else CAUTION in
  let nudge : string :=
    match status with
    | GO => "Pursue comps & financing quotes now"%string
    | CAUTION => "Renegotiate price 5–10% or trim rehab 10–15%"%string
    end in
  mkOpp (g_region_ring row) (g_lens row) (g_RiskAdj row) (g_P_loss row)
        (g_CVaR5 row) status nudge.

(** The order of [sort_values(['status', 'RiskAdj%'],
    ascending=[True, False])]: the status strings ascending, then the
    risk-adjusted ROI descending. *)
Definition opp_leb (a b : Opportunity) : bool :=
  match String.compare (status_str (o_status a)) (status_str (o_status b)) with
  | Lt => true
  | Gt => false
  | Eq => Py.leb (o_RiskAdj b) (o_RiskAdj a)
  end.

(** [pd.DataFrame(rows).sort_values(...)]; a frame without columns has no
    ['status'] to sort by. *)
Definition sort_values (rows : list Opportunity) : Py.result (list Opportunity) :=
  match rows with
  | [] => Py.Raise (Py.KeyError "status")
  | _ :: _ => Py.Ok (isort opp_leb rows)
  end.

(** Lines 97-101: the cache write, whose failure is passed over. *)
Definition save_tuned (save_path : string) (tuned : Bars) : M unit :=
  made <~ fs_attempt (MkdirParents save_path) ;;
  if made : bool
  then (_ <~ fs_attempt (WriteText save_path tuned) ;; ret tt)
  else ret tt.

(** [run_all(df, regional_map, sims, bars, autotune, save_path)]. *)
Definition run_all `{Runtime} (df : list Deal) (regional_map : RegionalMap)
  (sims : nat) (bars : option Bars) (autotune : bool) (save_path : string)
  : M (Pd.DataFrame LensRow * Sums * list Opportunity) :=
  eng <~ simulate_once df regional_map sims "Engineer" None ;;
  con <~ simulate_once df regional_map sims "Consumer" None ;;
  let both := concat (with_lens eng "Engineer") (with_lens con "Consumer") in
  let defaults := mkBars 8.5 15.0 (-10.0) in
  let bars := match bars with
              | None => defaults
              | Some b => b
              end in
  e0 <~ lift (decide eng (Some bars)) ;;
  c0 <~ lift (decide con (Some bars)) ;;
  sums <~ (if autotune
           then
             tuned <~ lift (autotune_bars eng e0 con c0 defaults) ;;
             e1 <~ lift (decide eng (Some tuned)) ;;
             c1 <~ lift (decide con (Some tuned)) ;;
             _ <~ save_tuned save_path tuned ;;
             ret (mkSums e1 c1 tuned (Some defaults))
           else ret (mkSums e0 c0 bars None)) ;;
  grp <~ lift (groupby_median both) ;;
  opps <~ lift (sort_values (map (opportunity (sums_bars sums)) grp)) ;;
  ret (both, sums, opps).

(** ** The loader and the form layer (app.py) *)

(** [load_json(p, default)]: [read_text] stands for [Path(p).read_text()]
    and [loads] for [json.loads], each giving [None] when it raises; any
    exception makes the loader return [default]. *)
Definition load_json {A : Type} (read_text : string -> option string)
  (loads : string -> option A) (p : string) (default : A) : A :=
  match read_text p with
  | Some text =>
      match loads text with
      | Some v => v
      | None => default
      end
  | None => default
  end.

(** The empty JSON object, the default the form layer gives the loader. *)
Definition empty_object : RegionalMap := mkRegionalMap None.

(** The fields of the form of app.py, lines 39-51. *)
Record Form : Type := mkForm {
  f_address : string;
  f_region : string;
  f_purchase : Q;
  f_rehab : Q;
  f_selling_pct : Q;
  f_arv : Q;
  f_carry : Q;
  f_hold_months : Q;
  f_permit_days : Z;
  f_tax_drag : Q
}.

(** Lines 57-63: the record built from the form; [escape] stands for
    [html.escape]. *)
Definition inp_of (escape : string -> string) (f : Form) : Deal :=
  mkDeal (escape (f_address f)) (f_region f) (f_purchase f) (f_rehab f)
         (f_carry f) (f_selling_pct f) (f_arv f) (Some (f_hold_months f))
         (Some (inject_Z (f_permit_days f))) (Some (f_tax_drag f))
         (Some 0.80) (Some 0.085).

(** The schema of lines 15-32 on a record: every key is required. *)
Definition region_enum : list string :=
  ["Urban Core"%string; "Inner Collar"%string; "Outer Collar"%string].

Definition in_range (x lo : Q) (hi : option Q) : bool :=
  Py.leb lo x
  && match hi with
     | Some h => Py.leb x h
     | None => true
     end.

Definition is_integer (x : Q) : bool := (Qden (Qred x) =? 1)%positive.

Definition required (field : option Q) (check : Q -> bool) : bool :=
  match field with
  | Some v => check v
  | None => false
  end.

(** [validate(inp, schema)]: [true] when it returns, [false] when it raises
    [ValidationError]. *)
Definition validate (inp : Deal) : bool :=
  existsb (String.eqb (d_region_ring inp)) region_enum
  && in_range (d_purchase inp) 10000 None
  && in_range (d_rehab inp) 0 None
  && in_range (d_carry inp) 0 None
  && in_range (d_selling_pct inp) 0 (Some 0.12)
  && in_range (d_projected_sale inp) 10000 None
  && required (d_hold_months inp) (fun v => in_range v 1 None)
  && required (d_permit_delay_days inp)
              (fun v => is_integer v && in_range v 0 (Some 180))
  && required (d_tax_drag inp) (fun v => in_range v 0 (Some 0.05))
  && required (d_ltv inp) (fun v => in_range v 0 (Some 1))
  && required (d_loan_rate_annual inp) (fun v => in_range v 0 (Some 0.25)).

(** Line 69. *)
Definition sims_of_mode (sims_mode : string) : nat :=
  if String.prefix "Quick" sims_mode then N.to_nat 10000
  else if String.prefix "Full" sims_mode then N.to_nat 100000
  else N.to_nat 200000.

(** Lines 55-72: what a submitted form leads to; [None] when validation
    stops the script, the result of [run_all] otherwise. *)
Definition on_submit `{Runtime} (escape : string -> string)
  (regional_map : RegionalMap) (f : Form) (sims_mode : string)
  : M (option (Pd.DataFrame LensRow * Sums * list Opportunity)) :=
  let inp := inp_of escape f in
  if validate inp
  then
    out <~ run_all [inp] regional_map (sims_of_mode sims_mode) None true
                   "data/auto_tune.json" ;;
    ret (Some out)
  else ret None.

(** Lines 39-51: what the widgets of the form let through.  The select box
    offers the three rings; a number input or a slider keeps its value
    within [min_value] and [max_value]; the permit slider is an integer from
    0 to 120. *)
Definition widgets_allow (f : Form) : bool :=
  existsb (String.eqb (f_region f))
          ["Urban Core"%string; "Inner Collar"%string; "Outer Collar"%string]
  && Py.leb 10000 (f_purchase f)
  && Py.leb 0 (f_rehab f)
  && (Py.leb 0.0 (f_selling_pct f) && Py.leb (f_selling_pct f) 0.12)
  && Py.leb 10000 (f_arv f)
  && Py.leb 0 (f_carry f)
  && Py.leb 1.0 (f_hold_months f)
  && ((0 <=? f_permit_days f)%Z && (f_permit_days f <=? 120)%Z)
  && (Py.leb 0.0 (f_tax_drag f) && Py.leb (f_tax_drag f) 0.05).

(** ** A small rational runtime, to run the engine on examples

    A linear congruential generator, and rational stand-ins for [exp],
    [log] and [sqrt], all kept to four decimals. *)

Module Example.

Definition lcg (g : Z) : Z := ((g * 1103515245 + 12345) mod 2147483648)%Z.

Definition normal_of (g : Z) : Q := Qred (inject_Z ((g / 65536) mod 601 - 300) / 100).

Definition uniform_of (g : Z) : Q := Qred (inject_Z ((g / 65536) mod 1000) / 1000).

(** Four decimals, rounded up: a positive value stays positive. *)
Definition q4 (x : Q) : Q := Qred (inject_Z (Qceiling (x * 10000)) / 10000).

(** Positive everywhere, 1 at 0. *)
Definition exp_q (x : Q) : Q :=
  if Py.leb 0 x then q4 (1 + x + x * x / 2)
  else q4 (1 / (1 - x + x * x / 2)).

Definition log_q (x : Q) : Q := q4 (2 * (x - 1) / (x + 1)).

Fixpoint newton (n : nat) (x y : Q) : Q :=
  match n with
  | O => y
  | S k => newton k x (q4 ((y + x / y) / 2))
  end.

Definition sqrt_q (x : Q) : Q := newton 3 x 1.

#[export] Instance runtime : Runtime := {|
  Generator := Z;
  default_rng := fun seed => seed;
  next_normal := fun g => (normal_of (lcg g), lcg g);
  next_uniform := fun g => (uniform_of (lcg g), lcg g);
  exp := exp_q;
  log := log_q;
  sqrt := sqrt_q
|}.

Definition rings2 : Rings :=
  [("Urban Core"%string, mkProfile 3.0 45 0.97 0.021 40);
   ("Inner Collar"%string, mkProfile 4.5 70 0.95 0.023 30)].

Definition regional : RegionalMap := mkRegionalMap (Some rings2).

(** The deal of the design document's concrete scenario. *)
Definition deal1 : Deal :=
  mkDeal "1234 W Belmont Ave" "Urban Core" 300000 50000 8000 0.05 400000
         (Some 4) (Some 30) (Some 0.02) (Some 0.8) (Some 0.085).

Definition world0 : World :=
  mkWorld (fun n => Z.of_nat n + 7)%Z 0 (fun _ => true) [].

Definition world1 : World :=
  mkWorld (fun n => Z.of_nat n + 8)%Z 0 (fun _ => true) [].

(** A row that passes every candidate of the autotuner's grids. *)
Definition strong_row : ResultRow :=
  mkRow "1 Main St" "Urban Core" 20 30 50 70 5 0 0 50.

(** A row that passes the loosest candidates only. *)
Definition weak_row : ResultRow :=
  mkRow "2 Main St" "Urban Core" 20 (-5) 7 20 (-12) (-15) 12 7.

Definition no_summary : Summary := mkSummary None None None CAUTION.

Definition loose_bars : Bars := mkBars 2 60 (-30).

Definition save_path : string := "data/auto_tune.json".

(** Runs of the engine on [deal1] with four trials, evaluated. *)
Definition engineer_run : Py.result (Pd.DataFrame ResultRow) :=
  Eval vm_compute in
    fst (simulate_once [deal1] regional 4 "Engineer" None world0).

Definition engineer_rerun : Py.result (Pd.DataFrame ResultRow) :=
  Eval vm_compute in
    fst (simulate_once [deal1] regional 4 "Engineer" None world1).

Definition ranked_run
  : Py.result (Pd.DataFrame LensRow * Sums * list Opportunity) :=
  Eval vm_compute in
    fst (run_all [deal1] regional 4 (Some loose_bars) false save_path world0).

Definition ranked_rerun
  : Py.result (Pd.DataFrame LensRow * Sums * list Opportunity) :=
  Eval vm_compute in
    fst (run_all [deal1] regional 4 (Some loose_bars) false save_path world1).

End Example.

(** * Properties *)

(** ** Comparisons and clipping *)

Lemma ltb_lt (a b : Q) : Py.ltb a b = true <-> a < b.
Proof.
  unfold Py.ltb. rewrite negb_true_iff. split; intro Hab.
  - apply Qnot_le_lt. intro Hle. apply Qle_bool_iff in Hle. congruence.
  - destruct (Qle_bool b a) eqn:E; [|reflexivity].
    apply Qle_bool_iff in E. exfalso. exact (Qlt_not_le _ _ Hab E).
Qed.

Lemma ltb_ge (a b : Q) : Py.ltb a b = false <-> b <= a.
Proof.
  unfold Py.ltb. rewrite negb_false_iff. apply Qle_bool_iff.
Qed.

Lemma leb_le (a b : Q) : Py.leb a b = true <-> a <= b.
Proof. apply Qle_bool_iff. Qed.

Lemma leb_gt (a b : Q) : Py.leb a b = false <-> b < a.
Proof.
  unfold Py.leb. split; intro Hab.
  - apply Qnot_le_lt. intro Hle. apply Qle_bool_iff in Hle. congruence.
  - destruct (Qle_bool a b) eqn:E; [|reflexivity].
    apply Qle_bool_iff in E. exfalso. exact (Qlt_not_le _ _ Hab E).
Qed.

Lemma py_min_le_r (a b : Q) : Py.min a b <= b.
Proof.
  unfold Py.min. destruct (Py.ltb b a) eqn:E.
  - apply Qle_refl.
  - apply ltb_ge in E. exact E.
Qed.

Lemma py_max_ge_l (a b : Q) : a <= Py.max a b.
Proof.
  unfold Py.max. destruct (Py.ltb a b) eqn:E.
  - apply ltb_lt in E. apply Qlt_le_weak. exact E.
  - apply Qle_refl.
Qed.

Lemma maximum_ge_bound (x lo : Q) : lo <= Np.maximum x lo.
Proof.
  unfold Np.maximum. destruct (Py.leb lo x) eqn:E.
  - apply leb_le in E. exact E.
  - apply Qle_refl.
Qed.

Lemma clip_range (x lo hi : Q) :
  lo <= hi -> lo <= Np.clip x (Some lo) (Some hi) <= hi.
Proof.
  intro Hlh. unfold Np.clip, Np.minimum.
  pose proof (maximum_ge_bound x lo) as Hm.
  destruct (Py.leb (Np.maximum x lo) hi) eqn:E.
  - apply leb_le in E. split; assumption.
  - split; [assumption | apply Qle_refl].
Qed.

Lemma clip_lower (x lo : Q) : lo <= Np.clip x (Some lo) None.
Proof. apply maximum_ge_bound. Qed.

(** ** The friction index *)

Lemma py_min_is_clip (x : Q) :
  0 <= x -> Py.min x 1.0 = Np.clip x (Some 0.0) (Some 1.0).
Proof.
  intro Hx. unfold Py.min, Np.clip, Np.maximum, Np.minimum, Py.ltb.
  assert (E0 : Py.leb 0.0 x = true) by (apply leb_le; lra).
  rewrite E0. unfold Py.leb. destruct (Qle_bool x 1.0); reflexivity.
Qed.

Lemma gap_is_clip (x : Q) :
  0 <= x -> x <= 1 -> x = Np.clip x (Some 0.0) (Some 1.0).
Proof.
  intros H0 H1. unfold Np.clip, Np.maximum, Np.minimum.
  assert (E0 : Py.leb 0.0 x = true) by (apply leb_le; lra).
  rewrite E0.
  assert (E1 : Py.leb x 1.0 = true) by (apply leb_le; lra).
  rewrite E1. reflexivity.
Qed.

(** C8.  On a table with at least one entry the friction index is the value
    of a function of the region and the table: of the entry [r] it selects
    (the region's, or else the first) it is the weighted sum, with weights
    0.30, 0.25, 0.20, 0.15 and 0.10, of the inventory, days-on-market, tax
    and permit sub-scores, each capped at 1, and of the list-to-sale gap,
    times 100 and clipped to [0, 100]; so it lies in [0, 100].  For an
    entry with non-negative fields and a list-to-sale ratio of at most 1,
    each of the five sub-scores is its own clipping to [0, 1]. *)
Theorem headwind_index_weighted_sum
  (region : string) (regional_map : RegionalMap) (d : Rings) :
  rings regional_map = Some d ->
  d <> [] ->
  exists r : Profile,
    (dict_get region d = Some r
     \/ (dict_get region d = None /\ first_value d = Py.Ok r))
    /\ let inv_n := Py.min (inventory_months r / 6.0) 1.0 in
       let dom_n := Py.min (dom_days r / 60.0) 1.0 in
       let gap := 1.0 - list_sale_ratio r in
       let tax_n := Py.min (tax_rate r / 0.025) 1.0 in
       let permit_n := Py.min (permit_delay_days r / 60.0) 1.0 in
       let hi := Np.clip (100.0 * (0.30 * inv_n + 0.25 * dom_n + 0.20 * gap
                                   + 0.15 * tax_n + 0.10 * permit_n))
                         (Some 0.0) (Some 100.0) in
       headwind_index region regional_map = Py.Ok hi
       /\ 0 <= hi <= 100
       /\ inv_n <= 1 /\ dom_n <= 1 /\ tax_n <= 1 /\ permit_n <= 1
       /\ (0 <= inventory_months r -> 0 <= dom_days r -> 0 <= tax_rate r ->
           0 <= permit_delay_days r ->
           0 <= list_sale_ratio r -> list_sale_ratio r <= 1 ->
           inv_n = Np.clip (inventory_months r / 6.0) (Some 0.0) (Some 1.0)
           /\ dom_n = Np.clip (dom_days r / 60.0) (Some 0.0) (Some 1.0)
           /\ gap = Np.clip gap (Some 0.0) (Some 1.0)
           /\ tax_n = Np.clip (tax_rate r / 0.025) (Some 0.0) (Some 1.0)
           /\ permit_n
              = Np.clip (permit_delay_days r / 60.0) (Some 0.0) (Some 1.0)).
Proof.
  intros Hr Hne.
  destruct d as [|[k0 p0] rest]; [congruence|].
  assert (Hsel : exists r,
             (dict_get region ((k0, p0) :: rest) = Some r
              \/ (dict_get region ((k0, p0) :: rest) = None
                  /\ first_value ((k0, p0) :: rest) = Py.Ok r))
             /\ headwind_index region regional_map = Py.Ok (profile_score r)).
  { unfold headwind_index, get_rings. rewrite Hr. cbn [Py.bind first_value].
    destruct (dict_get region ((k0, p0) :: rest)) as [v|] eqn:E.
    - exists v. split; [left; reflexivity | reflexivity].
    - exists p0. split; [right; split; reflexivity | reflexivity]. }
  destruct Hsel as [r [Hsel Hhi]].
  exists r. split; [exact Hsel|].
  cbv zeta. split; [exact Hhi|]. split.
  { assert (H0 : 0.0 <= 100.0) by (unfold Qle; simpl; lia).
    destruct (clip_range
                (100.0 * (0.30 * Py.min (inventory_months r / 6.0) 1.0
                          + 0.25 * Py.min (dom_days r / 60.0) 1.0
                          + 0.20 * (1.0 - list_sale_ratio r)
                          + 0.15 * Py.min (tax_rate r / 0.025) 1.0
                          + 0.10 * Py.min (permit_delay_days r / 60.0) 1.0))
                0.0 100.0 H0) as [Hlo Hup].
    split.
    + eapply Qle_trans; [|exact Hlo]. unfold Qle; simpl; lia.
    + eapply Qle_trans; [exact Hup|]. unfold Qle; simpl; lia. }
  assert (H1 : forall x, Py.min x 1.0 <= 1).
  { intro x. eapply Qle_trans; [apply py_min_le_r|]. unfold Qle; simpl; lia. }
  split; [apply H1|]. split; [apply H1|]. split; [apply H1|].
  split; [apply H1|].
  intros Hinv Hdom Htax Hpermit Hls0 Hls1.
  split; [apply py_min_is_clip; apply Qle_shift_div_l; [reflexivity | lra]|].
  split; [apply py_min_is_clip; apply Qle_shift_div_l; [reflexivity | lra]|].
  split; [apply gap_is_clip; lra|].
  split; apply py_min_is_clip; apply Qle_shift_div_l; try reflexivity; lra.
Qed.

Lemma headwind_index_weighted_sum_witness :
  exists hi : Q,
    headwind_index "Outer Collar" Example.regional = Py.Ok hi
    /\ 0 <= hi <= 100.
Proof.
  destruct (headwind_index_weighted_sum "Outer Collar" Example.regional
              Example.rings2) as [r [_ Hr]].
  - reflexivity.
  - discriminate.
  - cbv zeta in Hr. destruct Hr as (Hhi & Hrange & _).
    eexists. split; [exact Hhi | exact Hrange].
Defined.

(** C9.  A region that is not a key of a table with at least one entry does
    not make the friction index raise: the result is the score of the
    table's first entry in iteration order. *)
Theorem headwind_index_absent_region
  (region : string) (regional_map : RegionalMap)
  (k0 : string) (p0 : Profile) (rest : Rings) :
  rings regional_map = Some ((k0, p0) :: rest) ->
  dict_get region ((k0, p0) :: rest) = None ->
  headwind_index region regional_map = Py.Ok (profile_score p0).
Proof.
  intros Hr Habsent.
  unfold headwind_index, get_rings. rewrite Hr.
  cbn [Py.bind first_value]. rewrite Habsent. reflexivity.
Qed.

Lemma headwind_index_absent_region_witness :
  headwind_index "Far Suburbs" Example.regional
  = Py.Ok (profile_score (mkProfile 3.0 45 0.97 0.021 40)).
Proof.
  apply (headwind_index_absent_region "Far Suburbs" Example.regional
           "Urban Core" (mkProfile 3.0 45 0.97 0.021 40)
           [("Inner Collar"%string, mkProfile 4.5 70 0.95 0.023 30)]).
  - reflexivity.
  - reflexivity.
Defined.

(** ** The insertion sort *)

Section SortFacts.
Context {A : Type} (le : A -> A -> bool).
Hypothesis le_total : forall a b, le a b = true \/ le b a = true.
Hypothesis le_trans :
  forall a b c, le a b = true -> le b c = true -> le a c = true.

Let leP (a b : A) : Prop := le a b = true.

Lemma insert_perm (x : A) (l : list A) : Permutation (x :: l) (insert le x l).
Proof.
  induction l as [|y t IH]; cbn.
  - apply Permutation_refl.
  - destruct (le x y).
    + apply Permutation_refl.
    + eapply Permutation_trans; [apply perm_swap|].
      apply perm_skip. exact IH.
Qed.

Lemma isort_perm (l : list A) : Permutation l (isort le l).
Proof.
  induction l as [|x t IH]; cbn.
  - apply perm_nil.
  - eapply Permutation_trans; [|apply insert_perm].
    apply perm_skip. exact IH.
Qed.

Lemma isort_length (l : list A) : List.length (isort le l) = List.length l.
Proof. symmetry. apply Permutation_length, isort_perm. Qed.

Lemma insert_sorted (x : A) (l : list A) :
  StronglySorted leP l -> StronglySorted leP (insert le x l).
Proof.
  induction l as [|y t IH]; intro Hs; cbn.
  - constructor; constructor.
  - inversion Hs as [|y' t' Hst Hall]; subst.
    destruct (le x y) eqn:E.
    + constructor; [exact Hs|].
      constructor; [exact E|].
      eapply Forall_impl; [|exact Hall].
      intros z Hyz. exact (le_trans _ _ _ E Hyz).
    + constructor; [apply IH; exact Hst|].
      eapply Permutation_Forall; [apply insert_perm|].
      constructor; [|exact Hall].
      destruct (le_total x y) as [Hxy|Hyx]; [congruence | exact Hyx].
Qed.

Lemma isort_sorted (l : list A) : StronglySorted leP (isort le l).
Proof.
  induction l as [|x t IH]; cbn.
  - constructor.
  - apply insert_sorted. exact IH.
Qed.

End SortFacts.

Lemma strongly_sorted_split {A : Type} (R : A -> A -> Prop)
  (l1 l2 l3 : list A) (a b : A) :
  StronglySorted R (l1 ++ a :: l2 ++ b :: l3) -> R a b.
Proof.
  induction l1 as [|x t IH]; cbn; intro Hs.
  - inversion Hs as [|a' t' _ Hall]; subst.
    rewrite Forall_forall in Hall. apply Hall.
    apply in_or_app. right. left. reflexivity.
  - inversion Hs; subst. apply IH. assumption.
Qed.

Lemma strongly_sorted_nth (l : list Q) (i j : nat) :
  StronglySorted Qle l ->
  (i <= j)%nat -> (j < List.length l)%nat -> nth i l 0 <= nth j l 0.
Proof.
  intro Hs. revert i j.
  induction Hs as [|x t Hst IH Hall]; intros i j Hij Hj; cbn in Hj.
  - lia.
  - destruct i as [|i], j as [|j]; cbn.
    + apply Qle_refl.
    + rewrite Forall_forall in Hall. apply Hall. apply nth_In. lia.
    + lia.
    + apply IH; lia.
Qed.

Lemma leb_total (a b : Q) : Py.leb a b = true \/ Py.leb b a = true.
Proof.
  destruct (Qlt_le_dec b a) as [Hlt|Hle].
  - right. apply leb_le. apply Qlt_le_weak. exact Hlt.
  - left. apply leb_le. exact Hle.
Qed.

Lemma leb_trans (a b c : Q) :
  Py.leb a b = true -> Py.leb b c = true -> Py.leb a c = true.
Proof.
  rewrite !leb_le. apply Qle_trans.
Qed.

Lemma np_sort_sorted (a : list Q) : StronglySorted Qle (Np.sort a).
Proof.
  pose proof (isort_sorted Py.leb leb_total leb_trans a) as Hs.
  unfold Np.sort.
  induction Hs as [|x t Hst IH Hall]; constructor.
  - exact IH.
  - eapply Forall_impl; [|exact Hall]. intros z Hz. apply leb_le. exact Hz.
Qed.

Lemma np_sort_length (a : list Q) : List.length (Np.sort a) = List.length a.
Proof. apply isort_length. Qed.

Lemma np_sort_perm (a : list Q) : Permutation a (Np.sort a).
Proof. apply isort_perm. Qed.

(** ** Percentiles, tail mean and rounding *)

Lemma lerp_linear (a b t : Q) : Np.lerp a b t == a + (b - a) * t.
Proof.
  unfold Np.lerp. destruct (Py.leb 0.5 t); ring.
Qed.

Lemma lerp_between (a b t : Q) :
  a <= b -> 0 <= t -> t <= 1 -> a <= Np.lerp a b t /\ Np.lerp a b t <= b.
Proof.
  intros Hab H0 H1. rewrite lerp_linear. split; nra.
Qed.

Lemma lerp_mono (a b t1 t2 : Q) :
  a <= b -> t1 <= t2 -> Np.lerp a b t1 <= Np.lerp a b t2.
Proof.
  intros Hab Ht. rewrite !lerp_linear. nra.
Qed.

Lemma floor_frac (h : Q) :
  0 <= h - inject_Z (Qfloor h) /\ h - inject_Z (Qfloor h) <= 1.
Proof.
  pose proof (Qfloor_le h) as H1.
  pose proof (Qlt_floor h) as H2.
  rewrite inject_Z_plus in H2. change (inject_Z 1) with 1 in H2.
  split; lra.
Qed.

(** The two neighbours of a virtual index within a sorted array of [n]
    values, and the value between them. *)
Lemma percentile_value (x : Q) (t : list Q) (q : Q) :
  let n := List.length (x :: t) in
  let h := inject_Z (Z.of_nat n - 1) * (q / 100) in
  let lo := Z.to_nat (Qfloor h) in
  let hi := Nat.min (lo + 1) (n - 1) in
  Np.percentile (x :: t) q
  = Py.Ok (Np.lerp (nth lo (Np.sort (x :: t)) 0) (nth hi (Np.sort (x :: t)) 0)
                   (h - inject_Z (Qfloor h))).
Proof. reflexivity. Qed.

Lemma virtual_index_bounds (n : nat) (q : Q) :
  (0 < n)%nat -> 0 <= q -> q <= 100 ->
  let h := inject_Z (Z.of_nat n - 1) * (q / 100) in
  0 <= h /\ h <= inject_Z (Z.of_nat n - 1)
  /\ (0 <= Qfloor h)%Z /\ (Z.to_nat (Qfloor h) <= n - 1)%nat.
Proof.
  intros Hn H0 H100 h.
  assert (Hm : 0 <= inject_Z (Z.of_nat n - 1)).
  { change 0 with (inject_Z 0). rewrite <- Zle_Qle. lia. }
  assert (Hq : 0 <= q / 100 /\ q / 100 <= 1).
  { split.
    - apply Qle_shift_div_l; [reflexivity | lra].
    - apply Qle_shift_div_r; [reflexivity | lra]. }
  destruct Hq as [Hq0 Hq1].
  assert (Hh0 : 0 <= h) by (unfold h; nra).
  assert (Hh1 : h <= inject_Z (Z.of_nat n - 1)) by (unfold h; nra).
  assert (Hf0 : (0 <= Qfloor h)%Z).
  { rewrite <- (Qfloor_Z 0). apply Qfloor_resp_le. exact Hh0. }
  assert (Hf1 : (Qfloor h <= Z.of_nat n - 1)%Z).
  { rewrite <- (Qfloor_Z (Z.of_nat n - 1)). apply Qfloor_resp_le. exact Hh1. }
  repeat split; try assumption. lia.
Qed.

Lemma percentile_mono (a : list Q) (q1 q2 v1 v2 : Q) :
  0 <= q1 -> q1 <= q2 -> q2 <= 100 ->
  Np.percentile a q1 = Py.Ok v1 ->
  Np.percentile a q2 = Py.Ok v2 ->
  v1 <= v2.
Proof.
  intros H0 H12 H100 E1 E2.
  destruct a as [|x t]; [discriminate|].
  rewrite percentile_value in E1, E2. cbv zeta in E1, E2.
  apply Qle_trans with (y := v1); [apply Qle_refl|].
  replace v1 with
    (Np.lerp
       (nth (Z.to_nat (Qfloor (inject_Z (Z.of_nat (List.length (x :: t)) - 1)
                               * (q1 / 100)))) (Np.sort (x :: t)) 0)
       (nth (Nat.min
               (Z.to_nat (Qfloor (inject_Z (Z.of_nat (List.length (x :: t)) - 1)
                                  * (q1 / 100))) + 1)
               (List.length (x :: t) - 1)) (Np.sort (x :: t)) 0)
       (inject_Z (Z.of_nat (List.length (x :: t)) - 1) * (q1 / 100)
        - inject_Z (Qfloor (inject_Z (Z.of_nat (List.length (x :: t)) - 1)
                            * (q1 / 100)))))
    by congruence.
  replace v2 with
    (Np.lerp
       (nth (Z.to_nat (Qfloor (inject_Z (Z.of_nat (List.length (x :: t)) - 1)
                               * (q2 / 100)))) (Np.sort (x :: t)) 0)
       (nth (Nat.min
               (Z.to_nat (Qfloor (inject_Z (Z.of_nat (List.length (x :: t)) - 1)
                                  * (q2 / 100))) + 1)
               (List.length (x :: t) - 1)) (Np.sort (x :: t)) 0)
       (inject_Z (Z.of_nat (List.length (x :: t)) - 1) * (q2 / 100)
        - inject_Z (Qfloor (inject_Z (Z.of_nat (List.length (x :: t)) - 1)
                            * (q2 / 100)))))
    by congruence.
  clear E1 E2.
  set (n := List.length (x :: t)).
  assert (Hn : (0 < n)%nat) by (unfold n; cbn; lia).
  set (s := Np.sort (x :: t)).
  assert (Hs : StronglySorted Qle s) by apply np_sort_sorted.
  assert (Hlen : List.length s = n) by apply np_sort_length.
  set (h1 := inject_Z (Z.of_nat n - 1) * (q1 / 100)).
  set (h2 := inject_Z (Z.of_nat n - 1) * (q2 / 100)).
  assert (Hq1 : q1 <= 100) by lra.
  assert (Hq2 : 0 <= q2) by lra.
  destruct (virtual_index_bounds n q1 Hn H0 Hq1) as (Ha0 & Ha1 & Haf & Hal).
  destruct (virtual_index_bounds n q2 Hn Hq2 H100) as (Hb0 & Hb1 & Hbf & Hbl).
  fold h1 in Ha0, Ha1, Haf, Hal. fold h2 in Hb0, Hb1, Hbf, Hbl.
  assert (Hh : h1 <= h2).
  { unfold h1, h2.
    assert (Hm : 0 <= inject_Z (Z.of_nat n - 1)).
    { change 0 with (inject_Z 0). rewrite <- Zle_Qle. lia. }
    assert (Hd : q1 / 100 <= q2 / 100).
    { unfold Qdiv. apply Qmult_le_compat_r; [exact H12 | discriminate]. }
    nra. }
  assert (Hfl : (Qfloor h1 <= Qfloor h2)%Z) by (apply Qfloor_resp_le; exact Hh).
  set (lo1 := Z.to_nat (Qfloor h1)) in *.
  set (lo2 := Z.to_nat (Qfloor h2)) in *.
  assert (Hlo : (lo1 <= lo2)%nat) by (unfold lo1, lo2; lia).
  destruct (floor_frac h1) as [Hg1a Hg1b].
  destruct (floor_frac h2) as [Hg2a Hg2b].
  assert (HA1 : nth lo1 s 0 <= nth (Nat.min (lo1 + 1) (n - 1)) s 0).
  { apply strongly_sorted_nth; [exact Hs | lia | lia]. }
  assert (HA2 : nth lo2 s 0 <= nth (Nat.min (lo2 + 1) (n - 1)) s 0).
  { apply strongly_sorted_nth; [exact Hs | lia | lia]. }
  destruct (Nat.eq_dec lo1 lo2) as [Heq|Hneq].
  - assert (HfE : Qfloor h1 = Qfloor h2) by (unfold lo1, lo2 in Heq; lia).
    rewrite <- Heq, <- HfE.
    apply lerp_mono; [exact HA1 | lra].
  - destruct (lerp_between _ _ _ HA1 Hg1a Hg1b) as [_ Hup].
    destruct (lerp_between _ _ _ HA2 Hg2a Hg2b) as [Hdn _].
    eapply Qle_trans; [exact Hup|].
    eapply Qle_trans; [|exact Hdn].
    apply strongly_sorted_nth; [exact Hs | lia | lia].
Qed.

Lemma sum_le_bound (l : list Q) (c : Q) :
  Forall (fun x => x <= c) l ->
  Np.sum l <= c * inject_Z (Z.of_nat (List.length l)).
Proof.
  induction 1 as [|x t Hx Ht IH].
  - cbn. change (inject_Z 0) with 0. lra.
  - cbn [Np.sum fold_right List.length]. fold (Np.sum t).
    rewrite Nat2Z.inj_succ. unfold Z.succ. rewrite inject_Z_plus.
    change (inject_Z 1) with 1. lra.
Qed.

Lemma mean_le_bound (l : list Q) (c : Q) :
  l <> [] -> Forall (fun x => x <= c) l -> Np.mean l <= c.
Proof.
  intros Hne Hall. unfold Np.mean.
  apply Qle_shift_div_r.
  - change 0 with (inject_Z 0). rewrite <- Zlt_Qlt.
    destruct l; [congruence | cbn; lia].
  - apply sum_le_bound. exact Hall.
Qed.

Lemma sum_ge_bound (l : list Q) (c : Q) :
  Forall (fun x => c <= x) l ->
  c * inject_Z (Z.of_nat (List.length l)) <= Np.sum l.
Proof.
  induction 1 as [|x t Hx Ht IH].
  - cbn. change (inject_Z 0) with 0. lra.
  - cbn [Np.sum fold_right List.length]. fold (Np.sum t).
    rewrite Nat2Z.inj_succ. unfold Z.succ. rewrite inject_Z_plus.
    change (inject_Z 1) with 1. lra.
Qed.

Lemma mean_ge_bound (l : list Q) (c : Q) :
  l <> [] -> Forall (fun x => c <= x) l -> c <= Np.mean l.
Proof.
  intros Hne Hall. unfold Np.mean.
  apply Qle_shift_div_l.
  - change 0 with (inject_Z 0). rewrite <- Zlt_Qlt.
    destruct l; [congruence | cbn; lia].
  - apply sum_ge_bound. exact Hall.
Qed.

Lemma cvar5_le_p5 (roi : list Q) (p5 c : Q) :
  Np.percentile roi 5 = Py.Ok p5 ->
  cvar5_empirical roi = Py.Ok c ->
  c <= p5
  /\ (filter (fun x => Py.leb x p5) roi = [] -> c = p5).
Proof.
  intros E5 Ec. unfold cvar5_empirical in Ec. rewrite E5 in Ec.
  cbn [Py.bind] in Ec. injection Ec as <-.
  destruct (filter (fun x => Py.leb x p5) roi) as [|y tail] eqn:Ef.
  - cbn. split; [apply Qle_refl | reflexivity].
  - split; [|discriminate].
    change (0 <? List.length (y :: tail))%nat with true. cbv iota.
    apply mean_le_bound; [discriminate|].
    rewrite <- Ef. apply Forall_forall. intros z Hz.
    apply filter_In in Hz. destruct Hz as [_ Hz]. apply leb_le. exact Hz.
Qed.

Lemma round_half_even_mono (y1 y2 : Q) :
  y1 <= y2 -> (Py.round_half_even y1 <= Py.round_half_even y2)%Z.
Proof.
  intro Hy.
  pose proof (Qfloor_resp_le _ _ Hy) as Hf.
  pose proof (Qfloor_le y1) as L1. pose proof (Qlt_floor y1) as U1.
  pose proof (Qfloor_le y2) as L2. pose proof (Qlt_floor y2) as U2.
  unfold Py.round_half_even.
  destruct (Z.eq_dec (Qfloor y1) (Qfloor y2)) as [E|N].
  - rewrite <- E in *.
    destruct (Qcompare_spec (y1 - inject_Z (Qfloor y1)) (1 # 2)) as [A|A|A];
      destruct (Qcompare_spec (y2 - inject_Z (Qfloor y1)) (1 # 2)) as [B|B|B];
      try destruct (Z.even (Qfloor y1)); try lia; exfalso; lra.
  - assert (Hlt : (Qfloor y1 + 1 <= Qfloor y2)%Z) by lia.
    destruct (Qcompare (y1 - inject_Z (Qfloor y1)) (1 # 2));
      destruct (Qcompare (y2 - inject_Z (Qfloor y2)) (1 # 2));
      try destruct (Z.even (Qfloor y1)); try destruct (Z.even (Qfloor y2)); lia.
Qed.

Lemma round_mono (x1 x2 : Q) (n : nat) :
  x1 <= x2 -> Py.round x1 n <= Py.round x2 n.
Proof.
  intro Hx. unfold Py.round. rewrite !Qred_correct.
  assert (Hs : 0 < inject_Z (10 ^ Z.of_nat n)).
  { change 0 with (inject_Z 0). rewrite <- Zlt_Qlt.
    apply Z.pow_pos_nonneg; lia. }
  unfold Qdiv. apply Qmult_le_compat_r.
  - rewrite <- Zle_Qle. apply round_half_even_mono.
    apply Qmult_le_compat_r; [exact Hx | apply Qlt_le_weak; exact Hs].
  - apply Qlt_le_weak. apply Qinv_lt_0_compat. exact Hs.
Qed.

Lemma round_pct_mono (x1 x2 : Q) :
  x1 <= x2 -> Py.round (100 * x1) 2 <= Py.round (100 * x2) 2.
Proof.
  intro Hx. apply round_mono. lra.
Qed.

(** ** The rows of the simulator *)

Lemma roi_stats_order (roi : list Q) (s : Stats) :
  roi_stats roi = Py.Ok s ->
  Np.percentile roi 5 = Py.Ok (st_p5 s)
  /\ Np.percentile roi 10 = Py.Ok (st_p10 s)
  /\ Np.percentile roi 50 = Py.Ok (st_p50 s)
  /\ Np.percentile roi 90 = Py.Ok (st_p90 s)
  /\ cvar5_empirical roi = Py.Ok (st_cvar5 s)
  /\ st_cvar5 s <= st_p5 s
  /\ st_p10 s <= st_p50 s
  /\ st_p50 s <= st_p90 s
  /\ (filter (fun x => Py.leb x (st_p5 s)) roi = [] -> st_cvar5 s = st_p5 s).
Proof.
  intro E. unfold roi_stats in E.
  destruct (Np.percentile roi 5) as [p5|] eqn:E5; cbn [Py.bind] in E;
    [|discriminate E].
  destruct (Np.percentile roi 10) as [p10|] eqn:E10; cbn [Py.bind] in E;
    [|discriminate E].
  destruct (Np.percentile roi 50) as [p50|] eqn:E50; cbn [Py.bind] in E;
    [|discriminate E].
  destruct (Np.percentile roi 90) as [p90|] eqn:E90; cbn [Py.bind] in E;
    [|discriminate E].
  destruct (cvar5_empirical roi) as [c|] eqn:Ec; cbn [Py.bind] in E;
    [|discriminate E].
  assert (Hs : s = mkStats (Np.mean (map (fun x => if Py.ltb x 0 then 1 else 0) roi))
                           p5 p10 p50 p90 c) by congruence.
  subst s. cbn [st_p5 st_p10 st_p50 st_p90 st_cvar5].
  destruct (cvar5_le_p5 roi p5 c E5 Ec) as [Hc Htail].
  repeat split; try reflexivity; try assumption.
  - apply (percentile_mono roi 10 50); try assumption; lra.
  - apply (percentile_mono roi 50 90); try assumption; lra.
Qed.

Lemma simulate_rows_In `{Runtime} (regional_map : RegionalMap) (lens : string)
  (trials : list Trial) (df : list Deal) (rows : list ResultRow)
  (row : ResultRow) :
  simulate_rows regional_map lens trials df = Py.Ok rows ->
  In row rows ->
  exists r, In r df /\ simulate_deal regional_map lens trials r = Py.Ok row.
Proof.
  revert rows. induction df as [|r rest IH]; intros rows E Hin.
  - cbn in E. assert (rows = []) by congruence. subst. contradiction.
  - cbn [simulate_rows] in E.
    destruct (simulate_deal regional_map lens trials r) as [row0|] eqn:E0;
      cbn [Py.bind] in E; [|discriminate E].
    destruct (simulate_rows regional_map lens trials rest) as [rows0|] eqn:E1;
      cbn [Py.bind] in E; [|discriminate E].
    assert (rows = row0 :: rows0) by congruence. subst rows.
    destruct Hin as [<-|Hin].
    + exists r. split; [left; reflexivity | exact E0].
    + destruct (IH rows0 eq_refl Hin) as [r' [Hr' Er']].
      exists r'. split; [right; exact Hr' | exact Er'].
Qed.

Lemma of_rows_frame {R : Type} (rows rows' : list R) :
  Pd.of_rows rows = Pd.Frame rows' -> rows = rows' /\ rows' <> [].
Proof.
  destruct rows as [|x t]; cbn; intro E; [discriminate|].
  split; [congruence|]. intro Hn. subst rows'. discriminate.
Qed.

Lemma simulate_with_frame `{Runtime} (g : Generator) (df : list Deal)
  (regional_map : RegionalMap) (sims : nat) (lens : string)
  (rows : list ResultRow) :
  fst (simulate_with g df regional_map sims lens) = Py.Ok (Pd.Frame rows) ->
  simulate_rows regional_map lens (fst (draw_trials g sims lens)) df
  = Py.Ok rows.
Proof.
  unfold simulate_with. destruct (draw_trials g sims lens) as [trials g'].
  cbn [fst]. intro E.
  destruct (simulate_rows regional_map lens trials df) as [rows0|];
    cbn [Py.bind] in E; [|discriminate E].
  assert (E' : Pd.of_rows rows0 = Pd.Frame rows) by congruence.
  apply of_rows_frame in E'. destruct E' as [-> _]. reflexivity.
Qed.

Lemma simulate_once_frame `{Runtime} (df : list Deal)
  (regional_map : RegionalMap) (sims : nat) (lens : string)
  (rng : option Generator) (w : World) (rows : list ResultRow) :
  fst (simulate_once df regional_map sims lens rng w) = Py.Ok (Pd.Frame rows) ->
  exists trials, simulate_rows regional_map lens trials df = Py.Ok rows.
Proof.
  unfold simulate_once, mbind, lift, ret, fresh_rng.
  destruct rng as [g|]; cbn [fst]; intro E;
    eexists; eapply simulate_with_frame; exact E.
Qed.


(** ** The decision evaluator *)


(** ** The autotuner *)

Lemma for_each_app {A S : Type} (l1 l2 : list A)
  (body : A -> S -> Py.result S) (s : S) :
  Py.for_each (l1 ++ l2) body s
  = Py.bind (Py.for_each l1 body s) (Py.for_each l2 body).
Proof.
  revert s. induction l1 as [|x t IH]; intro s; cbn.
  - reflexivity.
  - destruct (body x s) as [s'|e]; cbn; [apply IH | reflexivity].
Qed.

Lemma for_each_map {A B S : Type} (f : A -> B) (l : list A)
  (body : B -> S -> Py.result S) (s : S) :
  Py.for_each (map f l) body s = Py.for_each l (fun x => body (f x)) s.
Proof.
  revert s. induction l as [|x t IH]; intro s; cbn.
  - reflexivity.
  - destruct (body (f x) s) as [s'|e]; cbn; [apply IH | reflexivity].
Qed.

Lemma for_each_flat_map {A B S : Type} (f : A -> list B) (l : list A)
  (body : B -> S -> Py.result S) (s : S) :
  Py.for_each (flat_map f l) body s
  = Py.for_each l (fun x => Py.for_each (f x) body) s.
Proof.
  revert s. induction l as [|x t IH]; intro s; cbn [flat_map Py.for_each].
  - reflexivity.
  - rewrite for_each_app.
    destruct (Py.for_each (f x) body s) as [s'|e]; cbn [Py.bind];
      [apply IH | reflexivity].
Qed.

Lemma for_each_ext {A S : Type} (l : list A)
  (body1 body2 : A -> S -> Py.result S) (s : S) :
  (forall x s', body1 x s' = body2 x s') ->
  Py.for_each l body1 s = Py.for_each l body2 s.
Proof.
  intro Hext. revert s. induction l as [|x t IH]; intro s; cbn.
  - reflexivity.
  - rewrite Hext. destruct (body2 x s) as [s'|e]; cbn; [apply IH | reflexivity].
Qed.

(** The three nested loops are one loop over [candidates]. *)
Lemma autotune_bars_loop (cons_df opp_df : Pd.DataFrame ResultRow)
  (cons_sum opp_sum : Summary) (defaults : Bars) :
  autotune_bars cons_df cons_sum opp_df opp_sum defaults
  = (st <- Py.for_each candidates (tune_step cons_df opp_df) (defaults, -1) ;;
     Py.Ok (fst st)).
Proof.
  unfold autotune_bars, candidates.
  rewrite for_each_flat_map.
  f_equal. apply for_each_ext. intros rr s.
  rewrite for_each_flat_map.
  apply for_each_ext. intros pp s'.
  rewrite for_each_map. reflexivity.
Qed.

Lemma score_frames (eng con : list ResultRow) (b : Bars) :
  score (Pd.Frame eng) (Pd.Frame con) b
  = Py.Ok (score_of
             (nan_round
                (Pd.mean (map (fun row => if passes b row then 1 else 0)
                              eng)))
             (nan_round
                (Pd.mean (map (fun row => if passes b row then 1 else 0)
                              con)))
             (cvar b)).
Proof. reflexivity. Qed.

Lemma nan_gt_some (s : option Q) (y : Q) :
  nan_gt s y = true <-> exists v, s = Some v /\ y < v.
Proof.
  destruct s as [v|]; cbn.
  - rewrite ltb_lt. split.
    + intro Hlt. exists v. split; [reflexivity | exact Hlt].
    + intros [v' [E Hlt]]. injection E as ->. exact Hlt.
  - split; [discriminate | intros [v [E _]]; discriminate].
Qed.

Lemma nan_gt_none (s : option Q) (y : Q) :
  nan_gt s y = false -> forall v, s = Some v -> v <= y.
Proof.
  intros E v ->. cbn in E. apply ltb_ge in E. exact E.
Qed.

(** The loop keeps the first candidate whose score is the highest, if that
    score is above the score it started with. *)
Lemma tune_loop_spec (eng con : list ResultRow) (l : list Bars)
  (st : Bars * Q) :
  let sc b := score (Pd.Frame eng) (Pd.Frame con) b in
  exists st',
    Py.for_each l (tune_step (Pd.Frame eng) (Pd.Frame con)) st = Py.Ok st'
    /\ ((st' = st
         /\ forall b, In b l -> forall v, sc b = Py.Ok (Some v) -> v <= snd st)
        \/ (exists l1 b l2 v,
              l = l1 ++ b :: l2
              /\ st' = (b, v)
              /\ sc b = Py.Ok (Some v)
              /\ snd st < v
              /\ (forall c, In c l1 ->
                  forall u, sc c = Py.Ok (Some u) -> u < v)
              /\ (forall c, In c l2 ->
                  forall u, sc c = Py.Ok (Some u) -> u <= v))).
Proof.
  cbv zeta. revert st. induction l as [|b l IH]; intro st.
  - exists st. split; [reflexivity|]. left. split; [reflexivity|].
    intros b [].
  - cbn [Py.for_each]. unfold tune_step at 1. rewrite score_frames.
    cbn [Py.bind].
    set (s := score_of
                (nan_round
                   (Pd.mean (map (fun row => if passes b row then 1 else 0)
                                 eng)))
                (nan_round
                   (Pd.mean (map (fun row => if passes b row then 1 else 0)
                                 con)))
                (cvar b)).
    assert (Hsb : score (Pd.Frame eng) (Pd.Frame con) b = Py.Ok s)
      by apply score_frames.
    destruct (nan_gt s (snd st)) eqn:Egt.
    + apply nan_gt_some in Egt. destruct Egt as [v [Es Hlt]].
      rewrite Es in *. clear s Es.
      destruct (IH (b, v)) as [st' [Erun Hcases]].
      exists st'. split; [exact Erun|]. right.
      destruct Hcases as [[-> Hle]|(l1 & b' & l2 & v' & El & -> & Hs' & Hlt' & Hl1 & Hl2)].
      * exists [], b, l, v. cbn [snd] in Hle.
        repeat split; try assumption; try reflexivity.
        intros c [].
      * exists (b :: l1), b', l2, v'. cbn [snd] in Hlt'.
        split; [rewrite El; reflexivity|].
        split; [reflexivity|]. split; [exact Hs'|].
        split; [lra|]. split; [|exact Hl2].
        intros c [<-|Hc] u Hu.
        -- assert (u = v) by congruence. subst u. exact Hlt'.
        -- exact (Hl1 c Hc u Hu).
    + pose proof (nan_gt_none _ _ Egt) as Hle0.
      destruct (IH st) as [st' [Erun Hcases]].
      exists st'. split; [exact Erun|].
      destruct Hcases as [[-> Hle]|(l1 & b' & l2 & v' & El & -> & Hs' & Hlt' & Hl1 & Hl2)].
      * left. split; [reflexivity|].
        intros c [<-|Hc] u Hu.
        -- apply Hle0. congruence.
        -- exact (Hle c Hc u Hu).
      * right. exists (b :: l1), b', l2, v'.
        split; [rewrite El; reflexivity|].
        split; [reflexivity|]. split; [exact Hs'|].
        split; [exact Hlt'|]. split; [|exact Hl2].
        intros c [<-|Hc] u Hu.
        -- assert (Hu' : u <= snd st) by (apply Hle0; congruence). lra.
        -- exact (Hl1 c Hc u Hu).
Qed.

Lemma score_nan_on_empty (eng con : list ResultRow) (b : Bars) (v : Q) :
  eng = [] \/ con = [] ->
  score (Pd.Frame eng) (Pd.Frame con) b <> Py.Ok (Some v).
Proof.
  intros [-> | ->]; rewrite score_frames; cbn [map Pd.mean nan_round].
  - unfold score_of, penalty, nan_add.
    destruct (reward _); intro E; discriminate E.
  - unfold score_of, reward, nan_add. intro E. discriminate E.
Qed.

Lemma arange_in (start stop step x : Q) :
  In x (Np.arange start stop step) ->
  exists k : nat,
    (k < Z.to_nat (Qceiling ((stop - start) / step)))%nat
    /\ x == start + inject_Z (Z.of_nat k) * step.
Proof.
  unfold Np.arange. intro Hin. apply in_map_iff in Hin.
  destruct Hin as [k [<- Hk]]. apply in_seq in Hk.
  exists k. split; [lia | apply Qred_correct].
Qed.

Lemma inject_nat_le (k n : nat) :
  (k <= n)%nat -> inject_Z (Z.of_nat k) <= inject_Z (Z.of_nat n).
Proof. intro Hkn. rewrite <- Zle_Qle. lia. Qed.

Lemma cand_r_in_grid (x : Q) : In x cand_r -> in_grid x 6.0 12.0 0.5.
Proof.
  intro Hin. apply arange_in in Hin. destruct Hin as [k [Hk Ex]].
  change (Z.to_nat (Qceiling ((12.5 - 6.0) / 0.5))) with 13%nat in Hk.
  exists k. split; [exact Ex|].
  pose proof (inject_nat_le k 12 ltac:(lia)) as Hb.
  change (inject_Z (Z.of_nat 12)) with 12 in Hb. lra.
Qed.

Lemma cand_p_in_grid (x : Q) : In x cand_p -> in_grid x 10.0 25.0 0.5.
Proof.
  intro Hin. apply arange_in in Hin. destruct Hin as [k [Hk Ex]].
  change (Z.to_nat (Qceiling ((25.5 - 10.0) / 0.5))) with 31%nat in Hk.
  exists k. split; [exact Ex|].
  pose proof (inject_nat_le k 30 ltac:(lia)) as Hb.
  change (inject_Z (Z.of_nat 30)) with 30 in Hb. lra.
Qed.

Lemma cand_c_in_grid (x : Q) : In x cand_c -> in_grid x (-20.0) (-6.0) 1.0.
Proof.
  intro Hin. apply arange_in in Hin. destruct Hin as [k [Hk Ex]].
  change (Z.to_nat (Qceiling ((-5.0 - -20.0) / 1.0))) with 15%nat in Hk.
  exists k. split; [exact Ex|].
  pose proof (inject_nat_le k 14 ltac:(lia)) as Hb.
  change (inject_Z (Z.of_nat 14)) with 14 in Hb. lra.
Qed.

Lemma candidates_on_grids (b : Bars) : In b candidates -> on_grids b.
Proof.
  unfold candidates. intro Hin.
  apply in_flat_map in Hin. destruct Hin as [rr [Hrr Hin]].
  apply in_flat_map in Hin. destruct Hin as [pp [Hpp Hin]].
  apply in_map_iff in Hin. destruct Hin as [cc [<- Hcc]].
  repeat split; cbn [risk_adj ploss cvar].
  - apply cand_r_in_grid. exact Hrr.
  - apply cand_p_in_grid. exact Hpp.
  - apply cand_c_in_grid. exact Hcc.
Qed.

Lemma go_rate_bounds (rows : list ResultRow) (b : Bars) :
  rows <> [] ->
  exists g,
    go_rate (Pd.Frame rows) b = Py.Ok (Some g) /\ 0 <= g /\ g <= 1.
Proof.
  intro Hne. destruct rows as [|x t]; [congruence|].
  cbn [go_rate map Pd.mean]. eexists. split; [reflexivity|].
  assert (Hind : Forall (fun v => 0 <= v /\ v <= 1)
                   (map (fun row => if passes b row then 1 else 0) (x :: t))).
  { apply Forall_forall. intros z Hz. apply in_map_iff in Hz.
    destruct Hz as [row [<- _]]. destruct (passes b row); split; lra. }
  split.
  - apply (mean_ge_bound (map (fun row => if passes b row then 1 else 0)
                              (x :: t))); [discriminate|].
    eapply Forall_impl; [|exact Hind]. intros z Hz. apply Hz.
  - apply (mean_le_bound (map (fun row => if passes b row then 1 else 0)
                              (x :: t))); [discriminate|].
    eapply Forall_impl; [|exact Hind]. intros z Hz. apply Hz.
Qed.

Lemma candidates_cvar_range (b : Bars) :
  In b candidates -> 6 <= risk_adj b /\ -20 <= cvar b /\ cvar b <= -6.
Proof.
  intro Hin. destruct (candidates_on_grids b Hin) as ([k [Ek Hk]] & _ & [j [Ej Hj]]).
  pose proof (inject_nat_le 0 k ltac:(lia)) as Hk0.
  pose proof (inject_nat_le 0 j ltac:(lia)) as Hj0.
  change (inject_Z (Z.of_nat 0)) with 0 in Hk0, Hj0.
  repeat split; lra.
Qed.

(** ** Binary64 rounding: the error of one operation *)

Lemma pow2_pos (e : Z) : 0 < F64.pow2 e.
Proof.
  unfold F64.pow2. destruct (0 <=? e)%Z eqn:E.
  - apply Z.leb_le in E. change 0 with (inject_Z 0). rewrite <- Zlt_Qlt.
    apply Z.pow_pos_nonneg; lia.
  - reflexivity.
Qed.

Lemma pow2_small (e : Z) : (e <= -49)%Z -> F64.pow2 e <= 1 # 562949953421312.
Proof.
  intro He. unfold F64.pow2.
  assert (E : (0 <=? e)%Z = false) by (apply Z.leb_gt; lia).
  rewrite E. unfold Qle. cbn [Qnum Qden].
  assert (Hp : (2 ^ 49 <= 2 ^ (- e))%Z) by (apply Z.pow_le_mono_r; lia).
  rewrite Z2Pos.id by lia.
  change (2 ^ 49)%Z with 562949953421312%Z in Hp. lia.
Qed.

Lemma round_half_even_error (y : Q) :
  y - (1 # 2) <= inject_Z (Py.round_half_even y)
  /\ inject_Z (Py.round_half_even y) <= y + (1 # 2).
Proof.
  unfold Py.round_half_even.
  pose proof (Qfloor_le y) as Hlo. pose proof (Qlt_floor y) as Hhi.
  rewrite inject_Z_plus in Hhi. change (inject_Z 1) with 1 in Hhi.
  set (f := Qfloor y) in *.
  assert (Hup : inject_Z (f + 1) == inject_Z f + 1)
    by (rewrite inject_Z_plus; reflexivity).
  destruct (Qcompare (y - inject_Z f) (1 # 2)) eqn:E.
  - apply Qeq_alt in E. destruct (Z.even f); [|rewrite Hup]; split; lra.
  - apply Qlt_alt in E. split; lra.
  - apply Qgt_alt in E. rewrite Hup. split; lra.
Qed.

Lemma ilog2_upper (x : Q) : Qabs x < 16 -> (F64.ilog2 x <= 3)%Z.
Proof.
  intro Hx. unfold F64.ilog2.
  set (n := Z.abs (Qnum x)). set (d := Zpos (Qden x)).
  assert (Hnd : (n < 16 * d)%Z).
  { unfold Qlt in Hx. destruct x as [xn xd]. cbn in Hx. subst n d.
    cbn [Qnum Qden]. lia. }
  assert (Hk : (Z.log2 n <= Z.log2 d + 4)%Z).
  { assert (Hl : (Z.log2 n <= Z.log2 (d * 2 ^ 4))%Z)
      by (apply Z.log2_le_mono; change (2 ^ 4)%Z with 16%Z; lia).
    rewrite Z.log2_mul_pow2 in Hl by (subst d; lia). lia. }
  destruct (Qle_bool (F64.pow2 (Z.log2 n - Z.log2 d)) (Qabs x)) eqn:E;
    [|lia].
  destruct (Z.eq_dec (Z.log2 n - Z.log2 d) 4) as [E4|]; [|lia].
  exfalso. rewrite E4 in E. apply Qle_bool_iff in E.
  change (F64.pow2 4) with 16 in E. lra.
Qed.

(** Rounding depends on the value only, not on the fraction that denotes
    it. *)
Lemma round_proper (x y : Q) : x == y -> F64.round x = F64.round y.
Proof.
  intro Exy. unfold F64.round. rewrite (Qred_complete x y Exy). reflexivity.
Qed.

(** Below 16 in magnitude a rounding moves a value by at most [2^-50]. *)
Lemma round_error (x : Q) :
  -16 < x -> x < 16 ->
  x - F64.eps <= F64.round x /\ F64.round x <= x + F64.eps.
Proof.
  intros Hlo Hhi. unfold F64.round.
  pose proof (Qred_correct x) as Ered. set (x' := Qred x) in *.
  destruct (Qeq_bool x' 0) eqn:E0.
  - apply Qeq_bool_iff in E0. unfold F64.eps. split; lra.
  - set (e := F64.ulp_exp x').
    assert (He : (e <= -49)%Z).
    { subst e. unfold F64.ulp_exp.
      assert (Habs : Qabs x' < 16) by (apply Qabs_Qlt_condition; split; lra).
      pose proof (ilog2_upper x' Habs). lia. }
    pose proof (pow2_pos e) as Hpos. pose proof (pow2_small e He) as Hsmall.
    destruct (round_half_even_error (x' / F64.pow2 e)) as [H1 H2].
    set (m := inject_Z (Py.round_half_even (x' / F64.pow2 e))) in *.
    rewrite Qred_correct.
    assert (Hx : x' == (x' / F64.pow2 e) * F64.pow2 e)
      by (field; lra).
    set (y := x' / F64.pow2 e) in *. set (p := F64.pow2 e) in *.
    unfold F64.eps.
    assert (Hm1 : (y - (1 # 2)) * p <= m * p)
      by (apply Qmult_le_compat_r; lra).
    assert (Hm2 : m * p <= (y + (1 # 2)) * p)
      by (apply Qmult_le_compat_r; lra).
    split; nra.
Qed.

Lemma Qabs_near (x y d : Q) :
  x - d <= y -> y <= x + d -> Qabs x - d <= Qabs y /\ Qabs y <= Qabs x + d.
Proof.
  intros H1 H2.
  pattern (Qabs x); apply Qabs_case; intro Hx;
    pattern (Qabs y); apply Qabs_case; intro Hy; split; lra.
Qed.

Lemma go_rate_range (rows : list ResultRow) (b : Bars) (g : Q) :
  go_rate (Pd.Frame rows) b = Py.Ok (Some g) -> 0 <= g /\ g <= 1.
Proof.
  intro E.
  assert (Hne : rows <> []) by (intro Hn; subst rows; discriminate E).
  destruct (go_rate_bounds rows b Hne) as (g' & E' & Hb).
  assert (g' = g) by congruence. subst g'. exact Hb.
Qed.

(** The binary64 score of a candidate is within [2^-45] of the exact value
    of reward + safety + penalty. *)
Lemma score_near_exact (eng con : list ResultRow) (b : Bars) (ge gc : Q) :
  In b candidates ->
  go_rate (Pd.Frame eng) b = Py.Ok (Some ge) ->
  go_rate (Pd.Frame con) b = Py.Ok (Some gc) ->
  exists v,
    score (Pd.Frame eng) (Pd.Frame con) b = Py.Ok (Some v)
    /\ (1.0 - Qabs (gc - 0.33)) + (cvar b + 20.0) / 10.0
       + (if Py.leb ge 0.15 then 0.0 else -5.0 * (ge - 0.15))
       - (1 # 35184372088832) <= v
    /\ v <= (1.0 - Qabs (gc - 0.33)) + (cvar b + 20.0) / 10.0
            + (if Py.leb ge 0.15 then 0.0 else -5.0 * (ge - 0.15))
            + (1 # 35184372088832).
Proof.
  intros Hb Hge Hgc.
  destruct (go_rate_range _ _ _ Hge) as [Hge0 Hge1].
  destruct (go_rate_range _ _ _ Hgc) as [Hgc0 Hgc1].
  destruct (candidates_cvar_range b Hb) as (_ & Hc0 & Hc1).
  unfold score. rewrite Hge, Hgc. cbn [Py.bind nan_round].
  unfold score_of, reward, safety, penalty, nan_add.
  unfold F64.add, F64.sub, F64.mul, F64.div, F64.lit.
  eexists. split; [reflexivity|].
  set (cc := cvar b) in *.
  assert (Heps : F64.eps == 1 # 1125899906842624) by reflexivity.
  destruct (round_error gc) as [Hg1 Hg2]; try lra.
  set (gf := F64.round gc) in *.
  destruct (round_error ge) as [He1 He2]; try lra.
  set (ef := F64.round ge) in *.
  destruct (round_error 0.33) as [Hk1 Hk2]; try lra.
  set (c33 := F64.round 0.33) in *.
  destruct (round_error 0.15) as [Hj1 Hj2]; try lra.
  set (c15 := F64.round 0.15) in *.
  destruct (round_error (gf - c33)) as [Ht1 Ht2]; try lra.
  set (t := F64.round (gf - c33)) in *.
  destruct (Qabs_near (gc - 0.33) t (3 * F64.eps)) as [Ha1 Ha2]; try lra.
  assert (Hgabs : Qabs (gc - 0.33) <= 1)
    by (apply Qabs_Qle_condition; split; lra).
  pose proof (Qabs_nonneg (gc - 0.33)) as Hgabs0.
  set (a := Qabs t) in *. set (a0 := Qabs (gc - 0.33)) in *.
  destruct (round_error (1.0 - a)) as [Hr1 Hr2]; try lra.
  set (rw := F64.round (1.0 - a)) in *.
  destruct (round_error (cc + 20.0)) as [Hs1 Hs2]; try lra.
  set (s20 := F64.round (cc + 20.0)) in *.
  assert (Hq : s20 / 10.0 == s20 * (1 # 10)) by field.
  assert (Hq0 : (cc + 20.0) / 10.0 == (cc + 20.0) * (1 # 10)) by field.
  destruct (round_error (s20 / 10.0)) as [Hf1 Hf2]; try lra.
  set (sf := F64.round (s20 / 10.0)) in *.
  set (sf0 := (cc + 20.0) / 10.0) in *.
  destruct (round_error (rw + sf)) as [Hu1 Hu2]; try lra.
  set (u := F64.round (rw + sf)) in *.
  destruct (round_error (ef - c15)) as [Hd1 Hd2]; try lra.
  set (dl := F64.round (ef - c15)) in *.
  destruct (round_error (-5.0 * dl)) as [Hp1 Hp2]; try lra.
  set (pn := F64.round (-5.0 * dl)) in *.
  destruct (Py.leb ef c15) eqn:Ef, (Py.leb ge 0.15) eqn:Ee;
    try (apply leb_le in Ef); try (apply leb_gt in Ef);
    try (apply leb_le in Ee); try (apply leb_gt in Ee).
  - destruct (round_error (u + 0.0)) as [Hv1 Hv2]; [lra|lra|]. split; lra.
  - destruct (round_error (u + 0.0)) as [Hv1 Hv2]; [lra|lra|]. split; lra.
  - destruct (round_error (u + pn)) as [Hv1 Hv2]; [lra|lra|]. split; lra.
  - destruct (round_error (u + pn)) as [Hv1 Hv2]; [lra|lra|]. split; lra.
Qed.

(** C3.  The autotuner visits the Cartesian product of the three grids with
    [risk_adj] outermost, the loss probability in the middle and [cvar]
    innermost, scores a candidate by reward + safety + penalty, and returns
    the earliest candidate whose score is the highest one, provided that
    score is above the sentinel -1; when a batch has no row, or no score
    is above -1, it returns the defaults it was given.  The score is the
    binary64 value the code compares: the three terms evaluated and added
    with the rounding of binary64, which puts it within [2^-45] of the exact
    value of reward + safety + penalty. *)
Theorem autotune_bars_first_best (eng con : list ResultRow)
  (eng_sum con_sum : Summary) (defaults : Bars) :
  let sc b := score (Pd.Frame eng) (Pd.Frame con) b in
  candidates
  = flat_map (fun rr =>
      flat_map (fun pp => map (fun cc => mkBars rr pp cc) cand_c) cand_p)
      cand_r
  /\ cand_r = [6; 13 # 2; 7; 15 # 2; 8; 17 # 2; 9; 19 # 2; 10; 21 # 2; 11;
               23 # 2; 12]
  /\ cand_p = [10; 21 # 2; 11; 23 # 2; 12; 25 # 2; 13; 27 # 2; 14; 29 # 2;
               15; 31 # 2; 16; 33 # 2; 17; 35 # 2; 18; 37 # 2; 19; 39 # 2;
               20; 41 # 2; 21; 43 # 2; 22; 45 # 2; 23; 47 # 2; 24; 49 # 2;
               25]
  /\ cand_c = [-20; -19; -18; -17; -16; -15; -14; -13; -12; -11; -10; -9;
               -8; -7; -6]
  /\ (forall b ge gc,
        go_rate (Pd.Frame eng) b = Py.Ok (Some ge) ->
        go_rate (Pd.Frame con) b = Py.Ok (Some gc) ->
        sc b
        = Py.Ok (Some
            (F64.add
               (F64.add
                  (F64.sub 1.0
                     (Qabs (F64.sub (F64.round gc) (F64.lit 0.33))))
                  (F64.div (F64.add (cvar b) 20.0) 10.0))
               (if Py.leb (F64.round ge) (F64.lit 0.15) then 0.0
                else F64.mul (-5.0)
                       (F64.sub (F64.round ge) (F64.lit 0.15))))))
  /\ (forall b ge gc,
        In b candidates ->
        go_rate (Pd.Frame eng) b = Py.Ok (Some ge) ->
        go_rate (Pd.Frame con) b = Py.Ok (Some gc) ->
        exists v,
          sc b = Py.Ok (Some v)
          /\ Qabs (v - ((1.0 - Qabs (gc - 0.33)) + (cvar b + 20.0) / 10.0
                        + (if Py.leb ge 0.15 then 0.0
                           else -5.0 * (ge - 0.15))))
             <= 1 # 35184372088832)
  /\ exists best,
       autotune_bars (Pd.Frame eng) eng_sum (Pd.Frame con) con_sum defaults
       = Py.Ok best
       /\ ((best = defaults
            /\ forall b, In b candidates ->
               forall v, sc b = Py.Ok (Some v) -> v <= -1)
           \/ (exists l1 l2 v,
                 candidates = l1 ++ best :: l2
                 /\ sc best = Py.Ok (Some v)
                 /\ -1 < v
                 /\ (forall c, In c l1 ->
                     forall u, sc c = Py.Ok (Some u) -> u < v)
                 /\ (forall c, In c l2 ->
                     forall u, sc c = Py.Ok (Some u) -> u <= v)))
       /\ (eng = [] \/ con = [] -> best = defaults)
       /\ ((forall b, In b candidates ->
            forall v, sc b = Py.Ok (Some v) -> v <= -1) ->
           best = defaults).
Proof.
  cbv zeta.
  split; [reflexivity|].
  split; [vm_compute; reflexivity|].
  split; [vm_compute; reflexivity|].
  split; [vm_compute; reflexivity|].
  split.
  { intros b ge gc Hge Hgc. unfold score. rewrite Hge, Hgc. reflexivity. }
  split.
  { intros b ge gc Hb Hge Hgc.
    destruct (score_near_exact eng con b ge gc Hb Hge Hgc)
      as (v & Hv & Hlo & Hhi).
    exists v. split; [exact Hv|].
    apply Qabs_Qle_condition. split; lra. }
  destruct (tune_loop_spec eng con candidates (defaults, -1))
    as [st' [Erun Hcases]].
  cbv zeta in Hcases. cbn [snd] in Hcases.
  exists (fst st').
  split.
  { rewrite autotune_bars_loop, Erun. reflexivity. }
  assert (Hsel :
    (fst st' = defaults
     /\ forall b, In b candidates ->
        forall v, score (Pd.Frame eng) (Pd.Frame con) b = Py.Ok (Some v) ->
                  v <= -1)
    \/ (exists l1 l2 v,
          candidates = l1 ++ fst st' :: l2
          /\ score (Pd.Frame eng) (Pd.Frame con) (fst st') = Py.Ok (Some v)
          /\ -1 < v
          /\ (forall c, In c l1 ->
              forall u, score (Pd.Frame eng) (Pd.Frame con) c = Py.Ok (Some u) ->
                        u < v)
          /\ (forall c, In c l2 ->
              forall u, score (Pd.Frame eng) (Pd.Frame con) c = Py.Ok (Some u) ->
                        u <= v))).
  { destruct Hcases as [[-> Hle]|(l1 & b & l2 & v & El & -> & Hs & Hlt & Hl1 & Hl2)].
    - left. split; [reflexivity | exact Hle].
    - right. exists l1, l2, v. cbn [fst]. repeat split; assumption. }
  split; [exact Hsel|].
  split.
  - intro Hempty.
    destruct Hsel as [[Hd _]|(l1 & l2 & v & _ & Hs & _)]; [exact Hd|].
    exfalso. exact (score_nan_on_empty eng con _ v Hempty Hs).
  - intro Hall.
    destruct Hsel as [[Hd _]|(l1 & l2 & v & El & Hs & Hlt & _)]; [exact Hd|].
    exfalso.
    assert (Hin : In (fst st') candidates).
    { rewrite El. apply in_or_app. right. left. reflexivity. }
    pose proof (Hall _ Hin v Hs) as Hle. lra.
Qed.

(** Rounding decides between candidates whose exact scores tie.  With no
    Engineer row passing and one Consumer row in ten passing from
    [(6.0, 10.5, -7.0)] on, the exact score of that candidate, 0.77 + 1.3,
    equals that of the earlier [(6.0, 10.0, -6.0)], 0.67 + 1.4; in binary64
    the first sum is the larger one, and the later candidate is returned. *)
Lemma autotune_bars_rounding_splits_tie :
  let low := mkRow "1 Main St" "Urban Core" 20 0 0 0 0 (-30) 50 0 in
  let one := mkRow "2 Main St" "Urban Core" 20 0 0 0 0 (-6.5) 10.5 50 in
  let eng := Pd.Frame [low] in
  let con := Pd.Frame (one :: repeat low 9) in
  autotune_bars eng Example.no_summary con Example.no_summary default_bars
  = Py.Ok (mkBars 6 (21 # 2) (-7))
  /\ (exists u v,
        score eng con (mkBars 6 10 (-6)) = Py.Ok (Some u)
        /\ score eng con (mkBars 6 (21 # 2) (-7)) = Py.Ok (Some v)
        /\ u < v)
  /\ (1.0 - Qabs (0 - 0.33)) + (-6 + 20.0) / 10.0 + 0.0
     == (1.0 - Qabs (0.1 - 0.33)) + (-7 + 20.0) / 10.0 + 0.0.
Proof.
  cbv zeta. split; [vm_compute; reflexivity|]. split.
  - eexists. eexists. split; [vm_compute; reflexivity|].
    split; [vm_compute; reflexivity|]. reflexivity.
  - reflexivity.
Qed.

Lemma tune_loop_fst (cons_df opp_df : Pd.DataFrame ResultRow)
  (l : list Bars) (st st' : Bars * Q) :
  Py.for_each l (tune_step cons_df opp_df) st = Py.Ok st' ->
  fst st' = fst st \/ In (fst st') l.
Proof.
  revert st. induction l as [|b l IH]; intros st E.
  - cbn in E. left. congruence.
  - cbn [Py.for_each] in E.
    destruct (tune_step cons_df opp_df b st) as [st1|] eqn:E1;
      cbn [Py.bind] in E; [|discriminate E].
    destruct (IH st1 E) as [Hsame|Hin]; [|right; right; exact Hin].
    unfold tune_step in E1.
    destruct (score cons_df opp_df b) as [s|]; cbn [Py.bind] in E1;
      [|discriminate E1].
    destruct (nan_gt s (snd st)).
    + right. left. rewrite Hsame. assert (st1 = (b, match s with
                                                     | Some v => v
                                                     | None => snd st
                                                     end)) by congruence.
      subst st1. reflexivity.
    + left. rewrite Hsame. congruence.
Qed.

(** C4, as amended.  The triple the autotuner returns is the default triple
    it was given, or a triple with each field on its grid: [risk_adj] in
    {6.0, 6.5, ..., 12.0}, the loss probability in {10.0, 10.5, ..., 25.0}
    and [cvar] in {-20.0, -19.0, ..., -6.0}.  So it is on the grids whenever
    the defaults are, as the orchestrator's fixed defaults are. *)
Theorem autotune_bars_grid_or_defaults
  (cons_df opp_df : Pd.DataFrame ResultRow) (cons_sum opp_sum : Summary)
  (defaults best : Bars) :
  autotune_bars cons_df cons_sum opp_df opp_sum defaults = Py.Ok best ->
  (best = defaults \/ on_grids best)
  /\ (on_grids defaults -> on_grids best)
  /\ on_grids default_bars.
Proof.
  intro E. rewrite autotune_bars_loop in E.
  destruct (Py.for_each candidates (tune_step cons_df opp_df) (defaults, -1))
    as [st'|] eqn:Erun; cbn [Py.bind] in E; [|discriminate E].
  assert (Hb : best = fst st') by congruence.
  assert (Hcases : best = defaults \/ on_grids best).
  { destruct (tune_loop_fst _ _ _ _ _ Erun) as [Hsame|Hin].
    - left. rewrite Hb. exact Hsame.
    - right. rewrite Hb. apply candidates_on_grids. exact Hin. }
  split; [exact Hcases|]. split.
  - intro Hd. destruct Hcases as [->|Hg]; assumption.
  - unfold on_grids, default_bars; cbn [risk_adj ploss cvar].
    split; [|split].
    + exists 5%nat. split; [reflexivity | unfold Qle; simpl; lia].
    + exists 10%nat. split; [reflexivity | unfold Qle; simpl; lia].
    + exists 10%nat. split; [reflexivity | unfold Qle; simpl; lia].
Qed.

(** When no candidate scores above the sentinel, the defaults come back. *)
Lemma autotune_bars_all_low (eng con : list ResultRow) (s1 s2 : Summary)
  (defaults : Bars) :
  (forall b, In b candidates ->
   forall v, score (Pd.Frame eng) (Pd.Frame con) b = Py.Ok (Some v) ->
             v <= -1) ->
  autotune_bars (Pd.Frame eng) s1 (Pd.Frame con) s2 defaults
  = Py.Ok defaults.
Proof.
  intro Hall.
  destruct (tune_loop_spec eng con candidates (defaults, -1))
    as [st' [Erun Hcases]].
  cbv zeta in Hcases. cbn [snd] in Hcases.
  rewrite autotune_bars_loop, Erun. cbn [Py.bind]. f_equal.
  destruct Hcases as [[-> _]|(l1 & b & l2 & v & El & _ & Hs & Hlt & _)];
    [reflexivity|].
  exfalso.
  assert (Hin : In b candidates).
  { rewrite El. apply in_or_app. right. left. reflexivity. }
  pose proof (Hall b Hin v Hs) as Hle. lra.
Qed.

(** C4 as stated fails: on a batch whose only row passes every candidate,
    every score is below -1 and the autotuner returns the defaults it was
    given, here a triple that is on none of the grids. *)
Lemma autotune_bars_returns_defaults_off_grid :
  autotune_bars (Pd.Frame [Example.strong_row]) Example.no_summary
                (Pd.Frame [Example.strong_row]) Example.no_summary
                (mkBars 0 0 0)
  = Py.Ok (mkBars 0 0 0)
  /\ ~ in_grid (risk_adj (mkBars 0 0 0)) 6.0 12.0 0.5
  /\ ~ in_grid (ploss (mkBars 0 0 0)) 10.0 25.0 0.5
  /\ ~ in_grid (cvar (mkBars 0 0 0)) (-20.0) (-6.0) 1.0.
Proof.
  split.
  { apply autotune_bars_all_low. intros b Hb v Hv.
    assert (Hpass : forallb (fun c => passes c Example.strong_row) candidates
                    = true) by (vm_compute; reflexivity).
    rewrite forallb_forall in Hpass. specialize (Hpass b Hb).
    assert (Hrate : go_rate (Pd.Frame [Example.strong_row]) b
                    = Py.Ok (Some (Np.mean [1]))).
    { cbn [go_rate map Pd.mean]. rewrite Hpass. reflexivity. }
    destruct (score_near_exact [Example.strong_row] [Example.strong_row] b
                (Np.mean [1]) (Np.mean [1]) Hb Hrate Hrate)
      as (v' & Hv' & _ & Hhi).
    assert (v' = v) by congruence. subst v'.
    destruct (candidates_cvar_range b Hb) as (_ & _ & Hc).
    assert (E1 : Np.mean [1] == 1) by reflexivity.
    assert (Eleb : Py.leb (Np.mean [1]) 0.15 = false)
      by (vm_compute; reflexivity).
    rewrite Eleb in Hhi.
    assert (Habs : Qabs (Np.mean [1] - 0.33) == 0.67) by reflexivity.
    assert (Hq : (cvar b + 20.0) / 10.0 == (cvar b + 20.0) * (1 # 10))
      by field.
    lra. }
  cbn [risk_adj ploss cvar].
  repeat split; intros [k [Ek Hk]];
    pose proof (inject_nat_le 0 k ltac:(lia)) as H0;
    change (inject_Z (Z.of_nat 0)) with 0 in H0; lra.
Qed.

Lemma app_cons_cases {A : Type} (l1 l2 p r : list A) (a b : A) :
  l1 ++ a :: l2 = p ++ b :: r ->
  a = b \/ (In a p /\ In b l2) \/ (In b l1 /\ In a r).
Proof.
  revert p. induction l1 as [|x l1 IH]; intros p E.
  - destruct p as [|y p]; cbn in E.
    + left. congruence.
    + right. left. injection E as -> ->. split.
      * left. reflexivity.
      * apply in_or_app. right. left. reflexivity.
  - destruct p as [|y p]; cbn in E.
    + right. right. injection E as <- <-. split.
      * left. reflexivity.
      * apply in_or_app. right. left. reflexivity.
    + injection E as <- E. destruct (IH p E) as [H|[[H1 H2]|[H1 H2]]].
      * left. exact H.
      * right. left. split; [right; exact H1 | exact H2].
      * right. right. split; [right; exact H1 | exact H2].
Qed.

Lemma mean_of_zeros {A : Type} (rows : list A) :
  Np.mean (map (fun _ => 0) rows) == 0.
Proof.
  unfold Np.mean.
  assert (Hs : Np.sum (map (fun _ : A => 0) rows) == 0).
  { induction rows as [|x t IH]; cbn; [reflexivity|].
    fold (Np.sum (map (fun _ : A => 0) t)). rewrite IH. reflexivity. }
  rewrite Hs. unfold Qdiv. ring.
Qed.

Lemma candidates_cvar_in (b : Bars) : In b candidates -> In (cvar b) cand_c.
Proof.
  unfold candidates. intro Hin.
  apply in_flat_map in Hin. destruct Hin as [rr [_ Hin]].
  apply in_flat_map in Hin. destruct Hin as [pp [_ Hin]].
  apply in_map_iff in Hin. destruct Hin as [cc [<- Hcc]]. exact Hcc.
Qed.

(** The score of a candidate no row passes: both rates are 0, and only the
    safety term varies. *)
Lemma score_when_none_passes (eng con : list ResultRow) (b : Bars) :
  eng <> [] -> con <> [] ->
  (forall row, In row (eng ++ con) -> RiskAdj_ROI_P50 row < 6) ->
  6 <= risk_adj b ->
  score (Pd.Frame eng) (Pd.Frame con) b
  = Py.Ok (score_of (Some 0) (Some 0) (cvar b)).
Proof.
  intros Heng Hcon Hlow Hb.
  assert (Hfail : forall rows,
            (forall row, In row rows -> RiskAdj_ROI_P50 row < 6) ->
            map (fun row => if passes b row then 1 else 0) rows
            = map (fun _ => 0) rows).
  { intros rows Hrows. apply map_ext_in. intros row Hrow.
    unfold passes.
    assert (E : Py.leb (risk_adj b) (RiskAdj_ROI_P50 row) = false).
    { apply leb_gt. specialize (Hrows row Hrow). lra. }
    rewrite E. reflexivity. }
  rewrite score_frames.
  rewrite (Hfail eng), (Hfail con).
  2: { intros row Hrow. apply Hlow. apply in_or_app. right. exact Hrow. }
  2: { intros row Hrow. apply Hlow. apply in_or_app. left. exact Hrow. }
  destruct eng as [|e0 eng']; [congruence|].
  destruct con as [|c0 con']; [congruence|].
  cbn [map Pd.mean nan_round].
  change (0 :: map (fun _ : ResultRow => 0) eng')
    with (map (fun _ : ResultRow => 0) (e0 :: eng')).
  change (0 :: map (fun _ : ResultRow => 0) con')
    with (map (fun _ : ResultRow => 0) (c0 :: con')).
  rewrite (round_proper _ 0 (mean_of_zeros (e0 :: eng'))).
  rewrite (round_proper _ 0 (mean_of_zeros (c0 :: con'))).
  reflexivity.
Qed.

(** With no row passing any candidate, the candidate of the least negative
    [cvar] that comes first wins. *)
Lemma autotune_bars_none_passes (eng con : list ResultRow)
  (eng_sum con_sum : Summary) (defaults : Bars) :
  eng <> [] -> con <> [] ->
  (forall row, In row (eng ++ con) -> RiskAdj_ROI_P50 row < 6) ->
  autotune_bars (Pd.Frame eng) eng_sum (Pd.Frame con) con_sum defaults
  = Py.Ok (mkBars 6 10 (-6)).
Proof.
  intros Heng Hcon Hlow.
  destruct (tune_loop_spec eng con candidates (defaults, -1))
    as [st' [Erun Hcases]].
  cbv zeta in Hcases. cbn [snd] in Hcases.
  rewrite autotune_bars_loop, Erun. cbn [Py.bind]. f_equal.
  assert (Hsc : forall b, In b candidates ->
            score (Pd.Frame eng) (Pd.Frame con) b
            = Py.Ok (score_of (Some 0) (Some 0) (cvar b))).
  { intros b Hb. apply score_when_none_passes; try assumption.
    apply (candidates_cvar_range b Hb). }
  (* with both rates 0 the score grows with the candidate's cvar *)
  assert (Hgrid : forallb (fun cc =>
                    match score_of (Some 0) (Some 0) cc,
                          score_of (Some 0) (Some 0) (-6) with
                    | Some u, Some v =>
                        Py.ltb (-1) v && Py.leb u v
                        && (if Py.ltb cc (-6) then Py.ltb u v else true)
                    | _, _ => false
                    end) cand_c = true) by (vm_compute; reflexivity).
  rewrite forallb_forall in Hgrid.
  destruct (score_of (Some 0) (Some 0) (-6)) as [vs|] eqn:Evs.
  2: { exfalso. specialize (Hgrid (-6)).
       rewrite Evs in Hgrid.
       assert (Hin : In (-6) cand_c) by (vm_compute; tauto).
       specialize (Hgrid Hin).
       destruct (score_of (Some 0) (Some 0) (-6)); discriminate Hgrid. }
  assert (Hcmp : forall b v, In b candidates ->
            score (Pd.Frame eng) (Pd.Frame con) b = Py.Ok (Some v) ->
            -1 < vs /\ v <= vs /\ (cvar b < -6 -> v < vs)).
  { intros b v Hb Hv. rewrite (Hsc b Hb) in Hv.
    specialize (Hgrid (cvar b) (candidates_cvar_in b Hb)).
    assert (Es : score_of (Some 0) (Some 0) (cvar b) = Some v)
      by congruence.
    rewrite Es in Hgrid.
    apply andb_true_iff in Hgrid. destruct Hgrid as [Hgrid H3].
    apply andb_true_iff in Hgrid. destruct Hgrid as [H1 H2].
    apply ltb_lt in H1. apply leb_le in H2.
    split; [exact H1|]. split; [exact H2|].
    intro Hlt. apply ltb_lt in Hlt. rewrite Hlt in H3.
    apply ltb_lt. exact H3. }
  assert (Hsplit : candidates
                   = firstn 14 candidates ++ mkBars 6 10 (-6)
                     :: skipn 15 candidates)
    by (vm_compute; reflexivity).
  assert (Hstar : In (mkBars 6 10 (-6)) candidates).
  { rewrite Hsplit. apply in_or_app. right. left. reflexivity. }
  assert (Hbefore : forall b, In b (firstn 14 candidates) -> cvar b < -6).
  { assert (Hb : forallb (fun b => Py.ltb (cvar b) (-6)) (firstn 14 candidates)
                 = true) by (vm_compute; reflexivity).
    rewrite forallb_forall in Hb. intros b Hin. apply ltb_lt. apply Hb.
    exact Hin. }
  assert (Hus : score (Pd.Frame eng) (Pd.Frame con) (mkBars 6 10 (-6))
                = Py.Ok (Some vs)).
  { rewrite (Hsc _ Hstar). cbn [cvar]. rewrite Evs. reflexivity. }
  destruct (Hcmp _ _ Hstar Hus) as (Hpos & _ & _).
  destruct Hcases as [[_ Hall]|(l1 & b & l2 & v & El & -> & Hs & _ & Hl1 & Hl2)].
  - exfalso. pose proof (Hall _ Hstar _ Hus) as Hbad. lra.
  - cbn [fst].
    assert (Hb : In b candidates).
    { rewrite El. apply in_or_app. right. left. reflexivity. }
    destruct (Hcmp _ _ Hb Hs) as (_ & Hle & Hlt).
    assert (Edec : l1 ++ b :: l2
                   = firstn 14 candidates ++ mkBars 6 10 (-6)
                     :: skipn 15 candidates) by congruence.
    destruct (app_cons_cases _ _ _ _ _ _ Edec) as [H|[[H1 H2]|[H1 H2]]].
    + exact H.
    + exfalso. pose proof (Hlt (Hbefore b H1)) as Hv.
      pose proof (Hl2 _ H2 _ Hus) as Hle'. lra.
    + exfalso. pose proof (Hl1 _ H1 _ Hus) as Hlt'. lra.
Qed.

(** ** The cost of a trial *)

(** C10.  For a deal whose fields are non-negative and whose purchase price
    is positive (a rehab estimate of 0 included), the rehab draw of every
    trial is positive: it is [exp] of a sum whose first term is the
    logarithm of [max(rehab, 1.0)], the logarithm of 1.0 for an estimate
    below 1.  So the total project cost of the trial is positive, and the
    ROI of the trial divides by a non-zero cost. *)
Theorem trial_cost_positive `{Runtime} (lens : string) (r : Deal) (t : Trial) :
  (forall x, 0 < exp x) ->
  nonneg_fields r ->
  0 < d_purchase r ->
  0 < rehab_draw lens r t
  /\ rehab_draw lens r t
     = exp (log (Py.max (d_rehab r) 1.0) + fst (fst (sd_of lens)) * z_rehab t)
  /\ (d_rehab r < 1 -> Py.max (d_rehab r) 1.0 = 1.0)
  /\ 0 < tpc lens r t
  /\ ~ tpc lens r t == 0
  /\ roi lens r t = (sale_draw lens r t - tpc lens r t) / tpc lens r t.
Proof.
  intros Hexp Hnn Hp.
  destruct Hnn as (_ & Hrehab & Hcarry & _ & _ & Hhold & _ & Htax & Hltv & Hrate).
  assert (Hrd : 0 < rehab_draw lens r t) by apply Hexp.
  assert (Hhd : 1 <= hold_draw lens r t).
  { unfold hold_draw. eapply Qle_trans; [|apply clip_lower].
    unfold Qle; simpl; lia. }
  assert (Hhd12 : 0 <= hold_draw lens r t / 12.0).
  { apply Qle_shift_div_l; [reflexivity | lra]. }
  assert (Hsd : 0 < sale_draw lens r t).
  { unfold sale_draw. eapply Qlt_le_trans; [|apply clip_lower]. lra. }
  assert (Hsell : 0 <= sell_cost lens r t).
  { unfold sell_cost. apply Qmult_le_0_compat; [|lra].
    assert (H0 : 0.0 <= 0.12) by (unfold Qle; simpl; lia).
    destruct (clip_range (d_selling_pct r) 0.0 0.12 H0) as [Hlo _].
    eapply Qle_trans; [|exact Hlo]. unfold Qle; simpl; lia. }
  assert (Hcarry_t : 0 <= carry_total lens r t).
  { unfold carry_total. apply Qmult_le_0_compat; [|lra].
    pose proof (py_max_ge_l 1.0 (get_or (d_hold_months r) 4)) as Hm.
    apply Qle_shift_div_l; [|lra].
    eapply Qlt_le_trans; [|exact Hm]. reflexivity. }
  assert (Hint : 0 <= interest_cost lens r t).
  { unfold interest_cost.
    repeat apply Qmult_le_0_compat; try assumption; try lra;
      unfold Qle; simpl; lia. }
  assert (Htaxd : 0 <= tax_drag_amt lens r t).
  { unfold tax_drag_amt.
    repeat apply Qmult_le_0_compat; try assumption; try lra;
      unfold Qle; simpl; lia. }
  assert (Htpc : 0 < tpc lens r t).
  { unfold tpc. lra. }
  split; [exact Hrd|]. split; [reflexivity|]. split.
  - intro Hlt. unfold Py.max.
    assert (E : Py.ltb (d_rehab r) 1.0 = true).
    { apply ltb_lt. eapply Qlt_le_trans; [exact Hlt|]. unfold Qle; simpl; lia. }
    rewrite E. reflexivity.
  - split; [exact Htpc|]. split; [|reflexivity].
    intro E0. rewrite E0 in Htpc. exact (Qlt_irrefl _ Htpc).
Qed.

(** ** The simulator returns *)

Lemma standard_normal_length `{Runtime} (n : nat) (g : Generator) :
  List.length (fst (standard_normal n g)) = n.
Proof.
  revert g. induction n as [|k IH]; intro g; cbn [standard_normal].
  - reflexivity.
  - destruct (next_normal g) as [a g1].
    destruct (next_normal g1) as [b g2].
    destruct (next_normal g2) as [c g3].
    specialize (IH g3). destruct (standard_normal k g3) as [rest g'].
    cbn in *. rewrite IH. reflexivity.
Qed.

Lemma choice_length `{Runtime} (n : nat) (p : Vec3) (g : Generator) :
  List.length (fst (choice n p g)) = n.
Proof.
  revert g. induction n as [|k IH]; intro g; cbn [choice].
  - reflexivity.
  - destruct (next_uniform g) as [u g1].
    specialize (IH g1). destruct (choice k p g1) as [rest g'].
    cbn in *. rewrite IH. reflexivity.
Qed.

Lemma draw_trials_length `{Runtime} (g : Generator) (sims : nat)
  (lens : string) :
  List.length (fst (draw_trials g sims lens)) = sims.
Proof.
  unfold draw_trials, gaussian_copula_normals.
  pose proof (standard_normal_length sims g) as Hz.
  destruct (standard_normal sims g) as [Z g1]. cbn [fst] in Hz.
  pose proof (choice_length sims (regimes_of lens) g1) as Hc.
  destruct (choice sims (regimes_of lens) g1) as [idx g2]. cbn [fst] in Hc.
  cbn [fst]. rewrite length_map, length_combine, length_map, Hz, Hc.
  apply Nat.min_id.
Qed.

Lemma percentile_ok (a : list Q) (q : Q) :
  a <> [] -> exists v, Np.percentile a q = Py.Ok v.
Proof.
  destruct a as [|x t]; [congruence|]. intros _.
  eexists. apply percentile_value.
Qed.

Lemma roi_stats_ok (roi_arr : list Q) :
  roi_arr <> [] -> exists s, roi_stats roi_arr = Py.Ok s.
Proof.
  intro Hne. unfold roi_stats, cvar5_empirical.
  destruct (percentile_ok roi_arr 5 Hne) as [p5 ->].
  destruct (percentile_ok roi_arr 10 Hne) as [p10 ->].
  destruct (percentile_ok roi_arr 50 Hne) as [p50 ->].
  destruct (percentile_ok roi_arr 90 Hne) as [p90 ->].
  cbn [Py.bind]. eexists. reflexivity.
Qed.

Lemma headwind_index_ok (region : string) (regional_map : RegionalMap)
  (d : Rings) :
  rings regional_map = Some d -> d <> [] ->
  exists hi, headwind_index region regional_map = Py.Ok hi.
Proof.
  intros Hr Hne. destruct d as [|[k0 p0] rest]; [congruence|].
  unfold headwind_index, get_rings. rewrite Hr. cbn [Py.bind first_value].
  eexists. reflexivity.
Qed.

Lemma simulate_rows_ok `{Runtime} (regional_map : RegionalMap) (d : Rings)
  (lens : string) (trials : list Trial) (df : list Deal) :
  rings regional_map = Some d -> d <> [] -> trials <> [] ->
  exists rows,
    simulate_rows regional_map lens trials df = Py.Ok rows
    /\ List.length rows = List.length df.
Proof.
  intros Hr Hne Ht. induction df as [|r rest IH]; cbn [simulate_rows].
  - exists []. split; reflexivity.
  - unfold simulate_deal.
    destruct (headwind_index_ok (d_region_ring r) regional_map d Hr Hne)
      as [hi ->].
    cbn [Py.bind].
    destruct (roi_stats_ok (map (roi lens r) trials)) as [s ->].
    { destruct trials; [congruence | discriminate]. }
    cbn [Py.bind]. destruct IH as [rows [-> Hlen]]. cbn [Py.bind].
    eexists. split; [reflexivity|]. cbn. rewrite Hlen. reflexivity.
Qed.

Lemma simulate_with_ok `{Runtime} (g : Generator) (df : list Deal)
  (regional_map : RegionalMap) (d : Rings) (sims : nat) (lens : string) :
  df <> [] -> rings regional_map = Some d -> d <> [] -> (0 < sims)%nat ->
  exists rows,
    rows <> []
    /\ fst (simulate_with g df regional_map sims lens) = Py.Ok (Pd.Frame rows).
Proof.
  intros Hdf Hr Hne Hs. unfold simulate_with.
  pose proof (draw_trials_length g sims lens) as Hlen.
  destruct (draw_trials g sims lens) as [trials g']. cbn [fst] in *.
  destruct (simulate_rows_ok regional_map d lens trials df Hr Hne)
    as [rows [-> Hrows]].
  { intro Hn. subst trials. cbn in Hlen. lia. }
  cbn [Py.bind]. exists rows.
  destruct rows as [|row rows'].
  - destruct df; [congruence | discriminate].
  - split; [discriminate | reflexivity].
Qed.

(** ** The state monad *)

Lemma mbind_fst_ok {A B : Type} (m : M A) (k : A -> M B) (w : World) (b : B) :
  fst (mbind m k w) = Py.Ok b ->
  exists a w1, m w = (Py.Ok a, w1) /\ fst (k a w1) = Py.Ok b.
Proof.
  unfold mbind. destruct (m w) as [[a|e] w1]; cbn [fst]; intro E.
  - exists a, w1. split; [reflexivity | exact E].
  - discriminate E.
Qed.

Lemma lift_fst_ok {A : Type} (r : Py.result A) (w w1 : World) (a : A) :
  lift r w = (Py.Ok a, w1) -> r = Py.Ok a /\ w1 = w.
Proof.
  unfold lift. intro E. split; congruence.
Qed.

Lemma mbind_fs_log {A B : Type} (m : M A) (k : A -> M B) :
  (forall w, fs_log (snd (m w)) = fs_log w) ->
  (forall a w, fs_log (snd (k a w)) = fs_log w) ->
  forall w, fs_log (snd (mbind m k w)) = fs_log w.
Proof.
  intros Hm Hk w. unfold mbind. specialize (Hm w).
  destruct (m w) as [[a|e] w1]; cbn [snd] in *.
  - rewrite Hk. exact Hm.
  - exact Hm.
Qed.

Lemma simulate_once_fs_log `{Runtime} (df : list Deal)
  (regional_map : RegionalMap) (sims : nat) (lens : string)
  (rng : option Generator) (w : World) :
  fs_log (snd (simulate_once df regional_map sims lens rng w)) = fs_log w.
Proof.
  unfold simulate_once. apply mbind_fs_log.
  - intro w0. destruct rng; reflexivity.
  - intros g w0. reflexivity.
Qed.

(** ** The orchestrator *)

Lemma distinct_incl (keys : list (string * string)) (k : string * string) :
  In k (distinct keys) -> In k keys.
Proof.
  induction keys as [|k0 rest IH]; cbn [distinct]; intro Hin.
  - exact Hin.
  - destruct Hin as [<-|Hin]; [left; reflexivity|].
    apply filter_In in Hin. right. apply IH. apply Hin.
Qed.

Lemma key_eqb_refl (k : string * string) : key_eqb k k = true.
Proof.
  unfold key_eqb. rewrite !String.eqb_refl. reflexivity.
Qed.

Lemma groupby_median_ok (rows : list LensRow) :
  rows <> [] ->
  exists grp, groupby_median (Pd.Frame rows) = Py.Ok grp /\ grp <> [].
Proof.
  intro Hne. cbn [groupby_median]. eexists. split; [reflexivity|].
  pose proof (isort_perm key_leb (distinct (map key_of rows))) as Hperm.
  destruct (isort key_leb (distinct (map key_of rows))) as [|k ks] eqn:Ek.
  - exfalso. apply Permutation_sym, Permutation_nil in Hperm.
    destruct rows; [congruence | discriminate Hperm].
  - cbn [flat_map].
    assert (Hk : In k (map key_of rows)).
    { apply distinct_incl. eapply Permutation_in.
      - apply Permutation_sym. exact Hperm.
      - left. reflexivity. }
    apply in_map_iff in Hk. destruct Hk as [row [Hkey Hrow]].
    unfold group_row at 1.
    destruct (filter (fun row0 => key_eqb k (key_of row0)) rows) as [|y l] eqn:Ef.
    + exfalso.
      assert (Hin : In row (filter (fun row0 => key_eqb k (key_of row0)) rows)).
      { apply filter_In. split; [exact Hrow|]. rewrite Hkey. apply key_eqb_refl. }
      rewrite Ef in Hin. contradiction.
    + discriminate.
Qed.

Lemma sort_values_ok (rows : list Opportunity) :
  rows <> [] -> sort_values rows = Py.Ok (isort opp_leb rows).
Proof.
  destruct rows; [congruence | reflexivity].
Qed.

Lemma decide_frame_ok (rows : list ResultRow) (bars : option Bars) :
  exists s, decide (Pd.Frame rows) bars = Py.Ok s.
Proof.
  unfold decide. cbn [Pd.column Py.bind]. eexists. reflexivity.
Qed.

(** What a run that returns went through. *)
Lemma run_all_inv `{Runtime} (df : list Deal) (regional_map : RegionalMap)
  (sims : nat) (bars : option Bars) (autotune : bool) (save_path : string)
  (w : World) (both : Pd.DataFrame LensRow) (sums : Sums)
  (opps : list Opportunity) :
  fst (run_all df regional_map sims bars autotune save_path w)
  = Py.Ok (both, sums, opps) ->
  let supplied := match bars with
                  | None => default_bars
                  | Some b => b
                  end in
  exists eng con e0 c0 grp,
    decide eng (Some supplied) = Py.Ok e0
    /\ decide con (Some supplied) = Py.Ok c0
    /\ both = concat (with_lens eng "Engineer") (with_lens con "Consumer")
    /\ (if autotune
        then exists tuned e1 c1,
               autotune_bars eng e0 con c0 default_bars = Py.Ok tuned
               /\ sums = mkSums e1 c1 tuned (Some default_bars)
        else sums = mkSums e0 c0 supplied None)
    /\ groupby_median both = Py.Ok grp
    /\ sort_values (map (opportunity (sums_bars sums)) grp) = Py.Ok opps.
Proof.
  intros E supplied. unfold run_all in E.
  apply mbind_fst_ok in E. destruct E as (eng & w1 & _ & E).
  apply mbind_fst_ok in E. destruct E as (con & w2 & _ & E).
  cbv zeta in E.
  apply mbind_fst_ok in E. destruct E as (e0 & w3 & Ee0 & E).
  apply lift_fst_ok in Ee0. destruct Ee0 as [Ee0 ->].
  apply mbind_fst_ok in E. destruct E as (c0 & w4 & Ec0 & E).
  apply lift_fst_ok in Ec0. destruct Ec0 as [Ec0 ->].
  apply mbind_fst_ok in E. destruct E as (sums0 & w5 & Esums & E).
  apply mbind_fst_ok in E. destruct E as (grp & w6 & Egrp & E).
  apply lift_fst_ok in Egrp. destruct Egrp as [Egrp ->].
  apply mbind_fst_ok in E. destruct E as (opps0 & w7 & Eopps & E).
  apply lift_fst_ok in Eopps. destruct Eopps as [Eopps ->].
  cbn [ret fst] in E.
  assert (Hboth : both = concat (with_lens eng "Engineer")
                                (with_lens con "Consumer")) by congruence.
  assert (Hsums : sums = sums0) by congruence.
  assert (Hopps : opps = opps0) by congruence.
  subst sums0 opps0.
  exists eng, con, e0, c0, grp.
  split; [exact Ee0|]. split; [exact Ec0|]. split; [exact Hboth|].
  split.
  - destruct autotune.
    + assert (Es : fst ((tuned <~ lift (autotune_bars eng e0 con c0
                                          (mkBars 8.5 15.0 (-10.0))) ;;
                         e1 <~ lift (decide eng (Some tuned)) ;;
                         c1 <~ lift (decide con (Some tuned)) ;;
                         _ <~ save_tuned save_path tuned ;;
                         ret (mkSums e1 c1 tuned
                                (Some (mkBars 8.5 15.0 (-10.0))))) w2)
                   = Py.Ok sums) by (rewrite Esums; reflexivity).
      apply mbind_fst_ok in Es. destruct Es as (tuned & v1 & Et & Es).
      apply lift_fst_ok in Et. destruct Et as [Et ->].
      apply mbind_fst_ok in Es. destruct Es as (e1 & v2 & _ & Es).
      apply mbind_fst_ok in Es. destruct Es as (c1 & v3 & _ & Es).
      apply mbind_fst_ok in Es. destruct Es as (u & v4 & _ & Es).
      cbn [ret fst] in Es.
      exists tuned, e1, c1. split; [exact Et | unfold default_bars; congruence].
    + unfold ret in Esums. unfold supplied, default_bars. congruence.
  - split; [rewrite Hboth; exact Egrp | exact Eopps].
Qed.

Lemma simulate_once_ok `{Runtime} (df : list Deal)
  (regional_map : RegionalMap) (d : Rings) (sims : nat) (lens : string)
  (rng : option Generator) (w : World) :
  df <> [] -> rings regional_map = Some d -> d <> [] -> (0 < sims)%nat ->
  exists rows w',
    rows <> []
    /\ simulate_once df regional_map sims lens rng w = (Py.Ok (Pd.Frame rows), w').
Proof.
  intros Hdf Hr Hne Hs.
  unfold simulate_once, mbind, lift, ret, fresh_rng.
  destruct rng as [g|].
  - destruct (simulate_with_ok g df regional_map d sims lens Hdf Hr Hne Hs)
      as [rows [Hrows E]].
    exists rows, w. split; [exact Hrows|]. rewrite E. reflexivity.
  - destruct (simulate_with_ok (default_rng (os_entropy w (entropy_used w)))
                df regional_map d sims lens Hdf Hr Hne Hs)
      as [rows [Hrows E]].
    exists rows. eexists. split; [exact Hrows|]. rewrite E. reflexivity.
Qed.

Lemma run_all_without_autotune_returns `{Runtime} (df : list Deal)
  (regional_map : RegionalMap) (d : Rings) (sims : nat) (bars : option Bars)
  (save_path : string) (w : World) :
  df <> [] -> rings regional_map = Some d -> d <> [] -> (0 < sims)%nat ->
  exists both sums opps,
    fst (run_all df regional_map sims bars false save_path w)
    = Py.Ok (both, sums, opps).
Proof.
  intros Hdf Hr Hne Hs. unfold run_all.
  destruct (simulate_once_ok df regional_map d sims "Engineer" None w
              Hdf Hr Hne Hs) as (er & w1 & Her & E1).
  destruct (simulate_once_ok df regional_map d sims "Consumer" None w1
              Hdf Hr Hne Hs) as (cr & w2 & Hcr & E2).
  unfold mbind at 1. rewrite E1.
  unfold mbind at 1. rewrite E2. cbv zeta.
  set (supplied := match bars with
                   | Some b => b
                   | None => mkBars 8.5 15.0 (-10.0)
                   end).
  destruct (decide_frame_ok er (Some supplied)) as [e0 Ee0].
  destruct (decide_frame_ok cr (Some supplied)) as [c0 Ec0].
  unfold mbind at 1. unfold lift at 1. rewrite Ee0.
  unfold mbind at 1. unfold lift at 1. rewrite Ec0.
  unfold mbind at 1. unfold ret at 1.
  cbn [with_lens concat].
  match goal with
  | |- context [groupby_median (Pd.Frame ?rows)] =>
      destruct (groupby_median_ok rows) as [grp [Egrp Hgrp]]
  end.
  { destruct er; [congruence | discriminate]. }
  unfold mbind at 1. unfold lift at 1. rewrite Egrp.
  unfold mbind at 1. unfold lift at 1.
  rewrite sort_values_ok.
  - cbn [ret fst]. eexists. eexists. eexists. reflexivity.
  - destruct grp; [congruence | discriminate].
Qed.

Lemma run_all_without_autotune_fs_log `{Runtime} (df : list Deal)
  (regional_map : RegionalMap) (sims : nat) (bars : option Bars)
  (save_path : string) (w : World) :
  fs_log (snd (run_all df regional_map sims bars false save_path w))
  = fs_log w.
Proof.
  unfold run_all. revert w.
  apply mbind_fs_log; [intro w; apply simulate_once_fs_log|]. intros eng.
  apply mbind_fs_log; [intro w; apply simulate_once_fs_log|]. intros con.
  cbv zeta.
  apply mbind_fs_log; [reflexivity|]. intros e0.
  apply mbind_fs_log; [reflexivity|]. intros c0.
  apply mbind_fs_log; [reflexivity|]. intros sums.
  apply mbind_fs_log; [reflexivity|]. intros grp.
  apply mbind_fs_log; [reflexivity|]. intros opps.
  reflexivity.
Qed.

(** C6.  With autotuning disabled the orchestrator appends nothing to the
    log of file-system operations, whether it returns or raises; a summary
    it returns carries the caller's bars, or the fixed defaults when the
    caller gave none, and no ['defaults'] entry; and it does return on a
    batch with at least one deal, a table with at least one ring and a
    positive trial count. *)
Theorem run_all_without_autotune `{Runtime} (df : list Deal)
  (regional_map : RegionalMap) (sims : nat) (bars : option Bars)
  (save_path : string) (w : World) :
  let run := run_all df regional_map sims bars false save_path w in
  let supplied := match bars with
                  | Some b => b
                  | None => default_bars
                  end in
  fs_log (snd run) = fs_log w
  /\ (forall both sums opps,
        fst run = Py.Ok (both, sums, opps) ->
        sums_bars sums = supplied /\ sums_defaults sums = None)
  /\ (forall d, df <> [] -> rings regional_map = Some d -> d <> [] ->
        (0 < sims)%nat ->
        exists both sums opps,
          fst run = Py.Ok (both, sums, opps)
          /\ sums_bars sums = supplied).
Proof.
  cbv zeta.
  assert (Hbars : forall both sums opps,
            fst (run_all df regional_map sims bars false save_path w)
            = Py.Ok (both, sums, opps) ->
            sums_bars sums = match bars with
                             | Some b => b
                             | None => default_bars
                             end
            /\ sums_defaults sums = None).
  { intros both sums opps E.
    destruct (run_all_inv _ _ _ _ _ _ _ _ _ _ E)
      as (eng & con & e0 & c0 & grp & _ & _ & _ & Hsums & _).
    cbv iota in Hsums. subst sums. split; reflexivity. }
  split; [apply run_all_without_autotune_fs_log|].
  split; [exact Hbars|].
  intros d Hdf Hr Hne Hs.
  destruct (run_all_without_autotune_returns df regional_map d sims bars
              save_path w Hdf Hr Hne Hs) as (both & sums & opps & E).
  exists both, sums, opps. split; [exact E|].
  apply (Hbars both sums opps E).
Qed.

(** ** Where the randomness comes from *)

Lemma simulate_once_fresh `{Runtime} (df : list Deal)
  (regional_map : RegionalMap) (sims : nat) (lens : string) (w : World) :
  simulate_once df regional_map sims lens None w
  = (fst (simulate_with (default_rng (os_entropy w (entropy_used w)))
                        df regional_map sims lens),
     mkWorld (os_entropy w) (S (entropy_used w)) (fs_ok w) (fs_log w)).
Proof.
  unfold simulate_once, mbind, fresh_rng, lift. reflexivity.
Qed.

Lemma simulate_once_given `{Runtime} (df : list Deal)
  (regional_map : RegionalMap) (sims : nat) (lens : string)
  (g : Generator) (w : World) :
  simulate_once df regional_map sims lens (Some g) w
  = (fst (simulate_with g df regional_map sims lens), w).
Proof.
  unfold simulate_once, mbind, ret, lift. reflexivity.
Qed.

Lemma mbind_fst_indep {A B : Type} (m : M A) (k : A -> M B) :
  (forall w w', fst (m w) = fst (m w')) ->
  (forall a w w', fst (k a w) = fst (k a w')) ->
  forall w w', fst (mbind m k w) = fst (mbind m k w').
Proof.
  intros Hm Hk w w'. unfold mbind. specialize (Hm w w').
  destruct (m w) as [[a|e] w1], (m w') as [[a'|e'] w1']; cbn [fst] in *;
    try discriminate Hm.
  - assert (a = a') by congruence. subst a'. apply Hk.
  - assert (e = e') by congruence. subst e'. reflexivity.
Qed.

Lemma save_tuned_fst (save_path : string) (tuned : Bars) (w w' : World) :
  fst (save_tuned save_path tuned w) = fst (save_tuned save_path tuned w').
Proof.
  unfold save_tuned, mbind, fs_attempt, ret. cbn beta iota.
  destruct (fs_ok w (MkdirParents save_path)),
           (fs_ok w' (MkdirParents save_path)); reflexivity.
Qed.

Lemma run_all_entropy `{Runtime} (df : list Deal)
  (regional_map : RegionalMap) (sims : nat) (bars : option Bars)
  (autotune : bool) (save_path : string) (w1 w2 : World) :
  os_entropy w1 (entropy_used w1) = os_entropy w2 (entropy_used w2) ->
  os_entropy w1 (S (entropy_used w1)) = os_entropy w2 (S (entropy_used w2)) ->
  fst (run_all df regional_map sims bars autotune save_path w1)
  = fst (run_all df regional_map sims bars autotune save_path w2).
Proof.
  intros H1 H2. unfold run_all.
  unfold mbind at 1. rewrite simulate_once_fresh.
  unfold mbind at 1. rewrite simulate_once_fresh.
  symmetry.
  unfold mbind at 1. rewrite simulate_once_fresh.
  unfold mbind at 1. rewrite simulate_once_fresh.
  symmetry.
  cbn [os_entropy entropy_used]. rewrite H1, H2.
  destruct (fst (simulate_with (default_rng (os_entropy w2 (entropy_used w2)))
                               df regional_map sims "Engineer"))
    as [eng|e]; [|reflexivity].
  destruct (fst (simulate_with (default_rng (os_entropy w2 (S (entropy_used w2))))
                               df regional_map sims "Consumer"))
    as [con|e]; [|reflexivity].
  cbv zeta.
  apply mbind_fst_indep; [reflexivity|]. intros e0.
  apply mbind_fst_indep; [reflexivity|]. intros c0.
  apply mbind_fst_indep.
  - destruct autotune; [|reflexivity].
    apply mbind_fst_indep; [reflexivity|]. intros tuned.
    apply mbind_fst_indep; [reflexivity|]. intros e1.
    apply mbind_fst_indep; [reflexivity|]. intros c1.
    apply mbind_fst_indep; [apply save_tuned_fst|]. intros u.
    reflexivity.
  - intros sums.
    apply mbind_fst_indep; [reflexivity|]. intros grp.
    apply mbind_fst_indep; [reflexivity|]. intros opps.
    reflexivity.
Qed.

(** C5, as amended.  A run of the simulator that is given a generator
    returns rows that are a function of the deals, the table, the trial
    count, the lens and the state of that generator, whatever the state of
    the world, which it leaves as it was: two runs given generators
    initialised with the same seed return identical rows.  A run that is
    given none, as both runs of the orchestrator are, seeds a fresh
    generator from the operating system's entropy: its rows are those of a
    run given that generator, and the result of the orchestrator is a
    function of the two entropy values it reads. *)
Theorem simulate_once_randomness `{Runtime} (df : list Deal)
  (regional_map : RegionalMap) (sims : nat) (lens : string) :
  (forall (g : Generator) (w1 w2 : World),
     fst (simulate_once df regional_map sims lens (Some g) w1)
     = fst (simulate_once df regional_map sims lens (Some g) w2)
     /\ snd (simulate_once df regional_map sims lens (Some g) w1) = w1)
  /\ (forall (seed : Z) (w1 w2 : World),
        fst (simulate_once df regional_map sims lens
                           (Some (default_rng seed)) w1)
        = fst (simulate_once df regional_map sims lens
                             (Some (default_rng seed)) w2))
  /\ (forall w : World,
        fst (simulate_once df regional_map sims lens None w)
        = fst (simulate_once df regional_map sims lens
                 (Some (default_rng (os_entropy w (entropy_used w)))) w)
        /\ entropy_used (snd (simulate_once df regional_map sims lens None w))
           = S (entropy_used w))
  /\ (forall (bars : option Bars) (autotune : bool) (save_path : string)
             (w1 w2 : World),
        os_entropy w1 (entropy_used w1) = os_entropy w2 (entropy_used w2) ->
        os_entropy w1 (S (entropy_used w1))
        = os_entropy w2 (S (entropy_used w2)) ->
        fst (run_all df regional_map sims bars autotune save_path w1)
        = fst (run_all df regional_map sims bars autotune save_path w2)).
Proof.
  split; [|split; [|split]].
  - intros g w1 w2. rewrite !simulate_once_given. split; reflexivity.
  - intros seed w1 w2. rewrite !simulate_once_given. reflexivity.
  - intro w. rewrite simulate_once_fresh, simulate_once_given.
    split; reflexivity.
  - intros bars autotune save_path w1 w2. apply run_all_entropy.
Qed.

Lemma engineer_run_eq :
  fst (@simulate_once Example.runtime [Example.deal1] Example.regional 4 "Engineer" None
                     Example.world0)
  = Example.engineer_run.
Proof. vm_compute. reflexivity. Qed.

Lemma engineer_rerun_eq :
  fst (@simulate_once Example.runtime [Example.deal1] Example.regional 4 "Engineer" None
                     Example.world1)
  = Example.engineer_rerun.
Proof. vm_compute. reflexivity. Qed.

Lemma ranked_run_eq :
  fst (@run_all Example.runtime [Example.deal1] Example.regional 4 (Some Example.loose_bars)
               false Example.save_path Example.world0)
  = Example.ranked_run.
Proof. vm_compute. reflexivity. Qed.

Lemma ranked_rerun_eq :
  fst (@run_all Example.runtime [Example.deal1] Example.regional 4 (Some Example.loose_bars)
               false Example.save_path Example.world1)
  = Example.ranked_rerun.
Proof. vm_compute. reflexivity. Qed.

(** C5 as stated fails: no generator can be passed to the orchestrator, and
    two runs of it, or of the simulator without a generator, on the same
    deal, table, lens and trial count, in worlds that differ in the entropy
    of the operating system only, return different rows. *)
Lemma run_all_depends_on_os_entropy :
  entropy_used Example.world0 = entropy_used Example.world1
  /\ fs_log Example.world0 = fs_log Example.world1
  /\ fst (@simulate_once Example.runtime [Example.deal1] Example.regional 4 "Engineer" None
                        Example.world0)
     <> fst (@simulate_once Example.runtime [Example.deal1] Example.regional 4 "Engineer" None
                           Example.world1)
  /\ fst (@run_all Example.runtime [Example.deal1] Example.regional 4
                  (Some Example.loose_bars) false Example.save_path
                  Example.world0)
     <> fst (@run_all Example.runtime [Example.deal1] Example.regional 4
                     (Some Example.loose_bars) false Example.save_path
                     Example.world1).
Proof.
  split; [reflexivity|]. split; [reflexivity|]. split.
  - rewrite engineer_run_eq, engineer_rerun_eq.
    unfold Example.engineer_run, Example.engineer_rerun.
    intro E. discriminate E.
  - rewrite ranked_run_eq, ranked_rerun_eq.
    unfold Example.ranked_run, Example.ranked_rerun.
    intro E. discriminate E.
Qed.

(** ** The ranking of the opportunity table *)

Lemma opp_leb_cases (a b : Opportunity) :
  opp_leb a b
  = match o_status a, o_status b with
    | CAUTION, GO => true
    | GO, CAUTION => false
    | _, _ => Py.leb (o_RiskAdj b) (o_RiskAdj a)
    end.
Proof.
  unfold opp_leb. destruct (o_status a), (o_status b); reflexivity.
Qed.

Lemma opp_leb_total (a b : Opportunity) :
  opp_leb a b = true \/ opp_leb b a = true.
Proof.
  rewrite !opp_leb_cases.
  destruct (o_status a), (o_status b); auto;
    destruct (leb_total (o_RiskAdj b) (o_RiskAdj a)); auto.
Qed.

Lemma opp_leb_trans (a b c : Opportunity) :
  opp_leb a b = true -> opp_leb b c = true -> opp_leb a c = true.
Proof.
  rewrite !opp_leb_cases.
  destruct (o_status a), (o_status b), (o_status c); intros Hab Hbc;
    try discriminate; try reflexivity;
    exact (leb_trans _ _ _ Hbc Hab).
Qed.

(** C1, as amended.  The table a run returns is a rearrangement of the rows
    built from the groups, in which every CAUTION row precedes every GO row
    (the status strings ascend) and rows of equal status are in descending
    order of risk-adjusted ROI. *)
Theorem run_all_ranking `{Runtime} (df : list Deal)
  (regional_map : RegionalMap) (sims : nat) (bars : option Bars)
  (autotune : bool) (save_path : string) (w : World)
  (both : Pd.DataFrame LensRow) (sums : Sums) (opps : list Opportunity) :
  fst (run_all df regional_map sims bars autotune save_path w)
  = Py.Ok (both, sums, opps) ->
  (exists grp,
     groupby_median both = Py.Ok grp
     /\ Permutation (map (opportunity (sums_bars sums)) grp) opps)
  /\ (forall l1 a l2 b l3,
        opps = l1 ++ a :: l2 ++ b :: l3 ->
        (o_status a = GO -> o_status b = GO)
        /\ (o_status b = CAUTION -> o_status a = CAUTION)
        /\ (o_status a = o_status b -> o_RiskAdj b <= o_RiskAdj a)).
Proof.
  intro E.
  destruct (run_all_inv _ _ _ _ _ _ _ _ _ _ E)
    as (eng & con & e0 & c0 & grp & _ & _ & _ & _ & Egrp & Esort).
  assert (Hopps : opps = isort opp_leb (map (opportunity (sums_bars sums)) grp)).
  { unfold sort_values in Esort.
    destruct (map (opportunity (sums_bars sums)) grp); [discriminate Esort|].
    congruence. }
  split.
  - exists grp. split; [exact Egrp|]. rewrite Hopps. apply isort_perm.
  - intros l1 a l2 b l3 Hsplit.
    pose proof (isort_sorted opp_leb opp_leb_total opp_leb_trans
                  (map (opportunity (sums_bars sums)) grp)) as Hs.
    rewrite <- Hopps, Hsplit in Hs.
    apply strongly_sorted_split in Hs. rewrite opp_leb_cases in Hs.
    destruct (o_status a), (o_status b);
      repeat split; try congruence; try discriminate;
      intros _; apply leb_le; exact Hs.
Qed.

Lemma run_all_ranking_witness :
  exists both sums a b,
    fst (@run_all Example.runtime [Example.deal1] Example.regional 4
                  (Some Example.loose_bars) false Example.save_path
                  Example.world0)
    = Py.Ok (both, sums, [a; b])
    /\ (o_status a = GO -> o_status b = GO)
    /\ (o_status b = CAUTION -> o_status a = CAUTION)
    /\ (o_status a = o_status b -> o_RiskAdj b <= o_RiskAdj a).
Proof.
  pose proof ranked_run_eq as E. unfold Example.ranked_run in E.
  eexists. eexists. eexists. eexists. split; [exact E|].
  exact (proj2 (run_all_ranking _ _ _ _ _ _ _ _ _ _ E) [] _ [] _ [] eq_refl).
Defined.

(** C1 as stated fails: in this run the CAUTION row comes first and the GO
    row after it. *)
Lemma run_all_caution_before_go :
  exists both sums a b,
    fst (@run_all Example.runtime [Example.deal1] Example.regional 4
                  (Some Example.loose_bars) false Example.save_path
                  Example.world0)
    = Py.Ok (both, sums, [a; b])
    /\ o_status a = CAUTION
    /\ o_status b = GO.
Proof.
  pose proof ranked_run_eq as E. unfold Example.ranked_run in E.
  eexists. eexists. eexists. eexists. split; [exact E|].
  split; reflexivity.
Qed.

(** ** The properties on the example runs *)

Example median_odd : Pd.median [3; 1; 2] = Some 2.
Proof. reflexivity. Qed.

Example median_even : Pd.median [4; 1; 3; 2] = Some (5 # 2).
Proof. vm_compute. reflexivity. Qed.

Example percentile_5_of_five :
  exists v, Np.percentile [4; 1; 3; 2; 10] 5 = Py.Ok v /\ v == 1.2.
Proof. eexists. split; reflexivity. Qed.

Example decide_at_the_bars :
  (exists s, decide (Pd.Frame [Example.weak_row]) (Some (mkBars 7 12 (-16)))
             = Py.Ok s /\ s_Status s = GO)
  /\ (exists s, decide (Pd.Frame [Example.weak_row]) (Some (mkBars 7 12 (-15)))
                = Py.Ok s /\ s_Status s = CAUTION).
Proof.
  split; eexists; split; reflexivity.
Qed.


Lemma autotune_bars_grid_or_defaults_witness :
  (mkBars 6 10 (-6) = default_bars \/ on_grids (mkBars 6 10 (-6)))
  /\ (on_grids default_bars -> on_grids (mkBars 6 10 (-6)))
  /\ on_grids default_bars.
Proof.
  apply (autotune_bars_grid_or_defaults
           (Pd.Frame
              [mkRow "3 Main St" "Inner Collar" 25 (-8) 3 15 (-14) (-18) 20 3])
           (Pd.Frame
              [mkRow "3 Main St" "Inner Collar" 25 (-6) 5.5 18 (-11) (-13) 14
                     5.5])
           Example.no_summary Example.no_summary default_bars
           (mkBars 6 10 (-6))).
  apply autotune_bars_none_passes.
  - discriminate.
  - discriminate.
  - intros row [<-|[<-|[]]]; reflexivity.
Defined.

Lemma run_all_without_autotune_witness :
  exists both sums opps,
    fst (@run_all Example.runtime [Example.deal1] Example.regional 4
                  (Some Example.loose_bars) false Example.save_path
                  Example.world0)
    = Py.Ok (both, sums, opps)
    /\ sums_bars sums = Example.loose_bars.
Proof.
  pose proof (@run_all_without_autotune Example.runtime [Example.deal1]
                Example.regional 4 (Some Example.loose_bars)
                Example.save_path Example.world0) as Hw.
  cbv zeta in Hw. destruct Hw as (_ & _ & Hret).
  apply (Hret Example.rings2).
  - discriminate.
  - reflexivity.
  - discriminate.
  - lia.
Defined.


Lemma q4_pos (y : Q) : 0 < y -> 0 < Example.q4 y.
Proof.
  intro Hy. unfold Example.q4. rewrite Qred_correct.
  pose proof (Qle_ceiling (y * 10000)) as Hc.
  apply Qlt_shift_div_l; [reflexivity|]. lra.
Qed.

Lemma exp_q_pos (x : Q) : 0 < Example.exp_q x.
Proof.
  assert (Hs : 0 <= x * x) by nra.
  assert (Hh : 0 <= x * x / 2)
    by (apply Qle_shift_div_l; [reflexivity | lra]).
  unfold Example.exp_q. destruct (Py.leb 0 x) eqn:E; apply q4_pos.
  - apply leb_le in E. lra.
  - apply leb_gt in E.
    apply Qlt_shift_div_l; lra.
Qed.

Lemma trial_cost_positive_witness :
  0 < @rehab_draw Example.runtime "Engineer" Example.deal1
        (mkTrial (1 # 2, 0, -1) 1)
  /\ 0 < @tpc Example.runtime "Engineer" Example.deal1
           (mkTrial (1 # 2, 0, -1) 1).
Proof.
  destruct (@trial_cost_positive Example.runtime "Engineer" Example.deal1
              (mkTrial (1 # 2, 0, -1) 1))
    as (Hr & _ & _ & Ht & _).
  - exact exp_q_pos.
  - unfold nonneg_fields. cbn. repeat split; unfold Qle; simpl; lia.
  - reflexivity.
  - split; assumption.
Defined.

(** * Further properties of the code *)

(** ** The friction index: monotonicity and errors *)

Lemma py_min_mono (x y c : Q) : x <= y -> Py.min x c <= Py.min y c.
Proof.
  intro Hxy. unfold Py.min.
  destruct (Py.ltb c x) eqn:Ex, (Py.ltb c y) eqn:Ey.
  - apply Qle_refl.
  - apply ltb_lt in Ex. apply ltb_ge in Ey. lra.
  - apply ltb_ge in Ex. exact Ex.
  - exact Hxy.
Qed.

Lemma clip_mono (x y lo hi : Q) :
  x <= y -> Np.clip x (Some lo) (Some hi) <= Np.clip y (Some lo) (Some hi).
Proof.
  intro Hxy. unfold Np.clip, Np.minimum, Np.maximum.
  destruct (Py.leb lo x) eqn:Ex, (Py.leb lo y) eqn:Ey;
    try (apply leb_le in Ex); try (apply leb_gt in Ex);
    try (apply leb_le in Ey); try (apply leb_gt in Ey);
    match goal with
    | |- (if Py.leb ?a hi then _ else _) <= (if Py.leb ?b hi then _ else _) =>
        destruct (Py.leb a hi) eqn:Ea, (Py.leb b hi) eqn:Eb;
        try (apply leb_le in Ea); try (apply leb_gt in Ea);
        try (apply leb_le in Eb); try (apply leb_gt in Eb); lra
    end.
Qed.

Lemma div_const_mono (x y c : Q) : 0 < c -> x <= y -> x / c <= y / c.
Proof.
  intros Hc Hxy. unfold Qdiv. apply Qmult_le_compat_r; [exact Hxy|].
  apply Qlt_le_weak, Qinv_lt_0_compat. exact Hc.
Qed.

Lemma profile_score_mono (r1 r2 : Profile) :
  inventory_months r1 <= inventory_months r2 ->
  dom_days r1 <= dom_days r2 ->
  list_sale_ratio r2 <= list_sale_ratio r1 ->
  tax_rate r1 <= tax_rate r2 ->
  permit_delay_days r1 <= permit_delay_days r2 ->
  profile_score r1 <= profile_score r2.
Proof.
  intros Hinv Hdom Hls Htax Hpermit. unfold profile_score.
  apply clip_mono.
  pose proof (py_min_mono _ _ 1.0
                (div_const_mono _ _ 6.0 ltac:(reflexivity) Hinv)) as H1.
  pose proof (py_min_mono _ _ 1.0
                (div_const_mono _ _ 60.0 ltac:(reflexivity) Hdom)) as H2.
  pose proof (py_min_mono _ _ 1.0
                (div_const_mono _ _ 0.025 ltac:(reflexivity) Htax)) as H3.
  pose proof (py_min_mono _ _ 1.0
                (div_const_mono _ _ 60.0 ltac:(reflexivity) Hpermit)) as H4.
  lra.
Qed.

Lemma headwind_index_present (region : string) (d : Rings) (r : Profile) :
  dict_get region d = Some r ->
  headwind_index region (mkRegionalMap (Some d)) = Py.Ok (profile_score r).
Proof.
  intro Hget. unfold headwind_index, get_rings. cbn [rings Py.bind].
  destruct d as [|[k0 p0] rest]; [discriminate Hget|].
  cbn [first_value Py.bind]. rewrite Hget. reflexivity.
Qed.

(** X1.  The friction index of a region is monotone in the region's
    profile: more inventory, more days on market, a higher tax rate, a
    longer permit delay or a lower list-to-sale ratio never lowers it. *)
Theorem headwind_index_monotone (region : string) (d1 d2 : Rings)
  (r1 r2 : Profile) :
  dict_get region d1 = Some r1 ->
  dict_get region d2 = Some r2 ->
  inventory_months r1 <= inventory_months r2 ->
  dom_days r1 <= dom_days r2 ->
  list_sale_ratio r2 <= list_sale_ratio r1 ->
  tax_rate r1 <= tax_rate r2 ->
  permit_delay_days r1 <= permit_delay_days r2 ->
  exists h1 h2,
    headwind_index region (mkRegionalMap (Some d1)) = Py.Ok h1
    /\ headwind_index region (mkRegionalMap (Some d2)) = Py.Ok h2
    /\ h1 <= h2.
Proof.
  intros H1 H2 Hinv Hdom Hls Htax Hpermit.
  exists (profile_score r1), (profile_score r2).
  split; [apply headwind_index_present; exact H1|].
  split; [apply headwind_index_present; exact H2|].
  apply profile_score_mono; assumption.
Qed.

Lemma headwind_index_monotone_witness :
  exists h1 h2,
    headwind_index "Urban Core" (mkRegionalMap (Some Example.rings2))
    = Py.Ok h1
    /\ headwind_index "Urban Core"
         (mkRegionalMap
            (Some [("Urban Core"%string, mkProfile 5.0 50 0.95 0.022 45)]))
       = Py.Ok h2
    /\ h1 <= h2.
Proof.
  apply (headwind_index_monotone "Urban Core" Example.rings2
           [("Urban Core"%string, mkProfile 5.0 50 0.95 0.022 45)]
           (mkProfile 3.0 45 0.97 0.021 40) (mkProfile 5.0 50 0.95 0.022 45));
    try reflexivity; unfold Qle; simpl; lia.
Defined.

Lemma clip_eq (x y lo hi : Q) :
  x == y -> Np.clip x (Some lo) (Some hi) == Np.clip y (Some lo) (Some hi).
Proof.
  intro Exy. apply Qle_antisym; apply clip_mono; rewrite Exy; apply Qle_refl.
Qed.

Lemma py_min_capped (x c : Q) : 0 < c -> c <= x -> Py.min (x / c) 1.0 == 1.
Proof.
  intros Hc Hx. unfold Py.min.
  assert (Hge : 1 <= x / c) by (apply Qle_shift_div_l; [exact Hc | lra]).
  destruct (Py.ltb 1.0 (x / c)) eqn:E; [reflexivity|].
  apply ltb_ge in E. apply Qle_antisym; [|exact Hge].
  apply (Qle_trans _ 1.0); [exact E | unfold Qle; simpl; lia].
Qed.

Lemma profile_score_saturated (r : Profile) :
  6 <= inventory_months r -> 60 <= dom_days r -> 0.025 <= tax_rate r ->
  60 <= permit_delay_days r ->
  profile_score r
  == Np.clip (100.0 * (0.30 * 1.0 + 0.25 * 1.0
                       + 0.20 * (1.0 - list_sale_ratio r)
                       + 0.15 * 1.0 + 0.10 * 1.0))
             (Some 0.0) (Some 100.0).
Proof.
  intros Hinv Hdom Htax Hpermit. unfold profile_score.
  apply clip_eq.
  rewrite (py_min_capped (inventory_months r) 6.0),
    (py_min_capped (dom_days r) 60.0), (py_min_capped (tax_rate r) 0.025),
    (py_min_capped (permit_delay_days r) 60.0);
    try reflexivity; try lra.
Qed.

(** X2.  At and beyond the caps the friction index stops responding: two
    profiles that both have at least 6 months of inventory, 60 days on
    market, a tax rate of 0.025 and a permit delay of 60 days, and the same
    list-to-sale ratio, get the same index. *)
Theorem headwind_index_saturates (region : string) (d1 d2 : Rings)
  (r1 r2 : Profile) :
  dict_get region d1 = Some r1 ->
  dict_get region d2 = Some r2 ->
  6 <= inventory_months r1 -> 60 <= dom_days r1 -> 0.025 <= tax_rate r1 ->
  60 <= permit_delay_days r1 ->
  6 <= inventory_months r2 -> 60 <= dom_days r2 -> 0.025 <= tax_rate r2 ->
  60 <= permit_delay_days r2 ->
  list_sale_ratio r1 == list_sale_ratio r2 ->
  exists h1 h2,
    headwind_index region (mkRegionalMap (Some d1)) = Py.Ok h1
    /\ headwind_index region (mkRegionalMap (Some d2)) = Py.Ok h2
    /\ h1 == h2.
Proof.
  intros H1 H2 Hi1 Hd1 Ht1 Hp1 Hi2 Hd2 Ht2 Hp2 Hls.
  exists (profile_score r1), (profile_score r2).
  split; [apply headwind_index_present; exact H1|].
  split; [apply headwind_index_present; exact H2|].
  rewrite (profile_score_saturated r1), (profile_score_saturated r2);
    try assumption.
  apply clip_eq. rewrite Hls. reflexivity.
Qed.

Lemma headwind_index_saturates_witness :
  exists h1 h2,
    headwind_index "Outer Collar"
      (mkRegionalMap
         (Some [("Outer Collar"%string, mkProfile 6 60 0.9 0.025 60)]))
    = Py.Ok h1
    /\ headwind_index "Outer Collar"
         (mkRegionalMap
            (Some [("Outer Collar"%string, mkProfile 12 200 0.9 0.05 120)]))
       = Py.Ok h2
    /\ h1 == h2.
Proof.
  apply (headwind_index_saturates "Outer Collar" _ _
           (mkProfile 6 60 0.9 0.025 60) (mkProfile 12 200 0.9 0.05 120));
    try reflexivity; unfold Qle; simpl; lia.
Defined.

(** ** Percentiles and the tail mean: bounds *)

Lemma sorted_nth_in (a : list Q) (i : nat) :
  (i < List.length a)%nat -> In (nth i (Np.sort a) 0) a.
Proof.
  intro Hi. eapply Permutation_in.
  - apply Permutation_sym. apply np_sort_perm.
  - apply nth_In. rewrite np_sort_length. exact Hi.
Qed.

(** A percentile lies between two order statistics of the array. *)
Lemma percentile_between (a : list Q) (q v : Q) :
  0 <= q -> q <= 100 ->
  Np.percentile a q = Py.Ok v ->
  exists x y, In x a /\ In y a /\ x <= v /\ v <= y.
Proof.
  intros H0 H100 E. destruct a as [|x0 t]; [discriminate E|].
  rewrite percentile_value in E. cbv zeta in E.
  set (n := List.length (x0 :: t)) in *.
  assert (Hn : (0 < n)%nat) by (unfold n; cbn; lia).
  destruct (virtual_index_bounds n q Hn H0 H100) as (Ha0 & Ha1 & Haf & Hal).
  set (h := inject_Z (Z.of_nat n - 1) * (q / 100)) in *.
  set (lo := Z.to_nat (Qfloor h)) in *.
  destruct (floor_frac h) as [Hg0 Hg1].
  assert (Hs : StronglySorted Qle (Np.sort (x0 :: t))) by apply np_sort_sorted.
  assert (Hlen : List.length (Np.sort (x0 :: t)) = n) by apply np_sort_length.
  assert (HA : nth lo (Np.sort (x0 :: t)) 0
               <= nth (Nat.min (lo + 1) (n - 1)) (Np.sort (x0 :: t)) 0).
  { apply strongly_sorted_nth; [exact Hs | lia | lia]. }
  destruct (lerp_between _ _ _ HA Hg0 Hg1) as [Hlow Hup].
  exists (nth lo (Np.sort (x0 :: t)) 0),
         (nth (Nat.min (lo + 1) (n - 1)) (Np.sort (x0 :: t)) 0).
  assert (Hv : v = Np.lerp (nth lo (Np.sort (x0 :: t)) 0)
                   (nth (Nat.min (lo + 1) (n - 1)) (Np.sort (x0 :: t)) 0)
                   (h - inject_Z (Qfloor h))) by congruence.
  split; [apply sorted_nth_in; fold n; lia|].
  split; [apply sorted_nth_in; fold n; lia|].
  rewrite Hv. split; assumption.
Qed.


Lemma percentile_le_bound (a : list Q) (q v m : Q) :
  0 <= q -> q <= 100 ->
  Np.percentile a q = Py.Ok v ->
  Forall (fun x => x <= m) a -> v <= m.
Proof.
  intros H0 H100 E Hall.
  destruct (percentile_between a q v H0 H100 E) as (x & y & _ & Hy & _ & Hvy).
  rewrite Forall_forall in Hall. specialize (Hall y Hy). lra.
Qed.



(** ** The rows of a simulated frame *)

(** A row of a frame the simulator returns is the rounding of the
    statistics of one deal. *)
Lemma row_of_run `{Runtime} (df : list Deal) (regional_map : RegionalMap)
  (sims : nat) (lens : string) (rng : option Generator) (w : World)
  (rows : list ResultRow) (row : ResultRow) :
  fst (simulate_once df regional_map sims lens rng w) = Py.Ok (Pd.Frame rows) ->
  In row rows ->
  exists (r : Deal) (trials : list Trial) (hi : Q) (s : Stats),
    In r df
    /\ headwind_index (d_region_ring r) regional_map = Py.Ok hi
    /\ roi_stats (map (roi lens r) trials) = Py.Ok s
    /\ row = result_row r (d_region_ring r) hi s.
Proof.
  intros Erun Hin.
  destruct (simulate_once_frame _ _ _ _ _ _ _ Erun) as [trials Erows].
  destruct (simulate_rows_In _ _ _ _ _ _ Erows Hin) as [r [Hr Erow]].
  unfold simulate_deal in Erow.
  destruct (headwind_index (d_region_ring r) regional_map) as [hi|] eqn:Ehi;
    cbn [Py.bind] in Erow; [|discriminate Erow].
  destruct (roi_stats (map (roi lens r) trials)) as [s|] eqn:Es;
    cbn [Py.bind] in Erow; [|discriminate Erow].
  exists r, trials, hi, s.
  repeat split; try assumption. congruence.
Qed.

Lemma roi_stats_nonempty (roi_arr : list Q) (s : Stats) :
  roi_stats roi_arr = Py.Ok s -> roi_arr <> [].
Proof.
  intros E Hnil. subst roi_arr. discriminate E.
Qed.

Lemma roi_stats_p_loss (roi_arr : list Q) (s : Stats) :
  roi_stats roi_arr = Py.Ok s ->
  st_p_loss s = Np.mean (map (fun x => if Py.ltb x 0 then 1 else 0) roi_arr).
Proof.
  intro E. unfold roi_stats in E.
  destruct (Np.percentile roi_arr 5); cbn [Py.bind] in E; [|discriminate E].
  destruct (Np.percentile roi_arr 10); cbn [Py.bind] in E; [|discriminate E].
  destruct (Np.percentile roi_arr 50); cbn [Py.bind] in E; [|discriminate E].
  destruct (Np.percentile roi_arr 90); cbn [Py.bind] in E; [|discriminate E].
  destruct (cvar5_empirical roi_arr); cbn [Py.bind] in E; [|discriminate E].
  assert (Hs : s = mkStats
                     (Np.mean (map (fun x => if Py.ltb x 0 then 1 else 0)
                                   roi_arr)) a a0 a1 a2 a3) by congruence.
  rewrite Hs. reflexivity.
Qed.

Lemma round_pct_zero : Py.round (100 * 0) 2 = 0.
Proof. reflexivity. Qed.

Lemma round_pct_one : Py.round (100 * 1) 2 = 100.
Proof. reflexivity. Qed.


(** X4.  In every row of a simulated frame the loss probability is a
    percentage between 0 and 100, and the 5th percentile of ROI is at
    most the 10th. *)
Theorem simulated_row_loss_and_var `{Runtime} (df : list Deal)
  (regional_map : RegionalMap) (sims : nat) (lens : string)
  (rng : option Generator) (w : World) (rows : list ResultRow)
  (row : ResultRow) :
  fst (simulate_once df regional_map sims lens rng w) = Py.Ok (Pd.Frame rows) ->
  In row rows ->
  0 <= P_loss row /\ P_loss row <= 100 /\ VaR5_ROI row <= P10_ROI row.
Proof.
  intros Erun Hin.
  destruct (row_of_run _ _ _ _ _ _ _ _ Erun Hin)
    as (r & trials & hi & s & _ & _ & Es & ->).
  pose proof (roi_stats_nonempty _ _ Es) as Hne.
  pose proof (roi_stats_p_loss _ _ Es) as Hp.
  destruct (roi_stats_order _ _ Es) as (E5 & E10 & _).
  unfold result_row. cbn [P_loss VaR5_ROI P10_ROI].
  assert (Hind : Forall (fun x => 0 <= x /\ x <= 1)
                   (map (fun x => if Py.ltb x 0 then 1 else 0)
                        (map (roi lens r) trials))).
  { apply Forall_forall. intros z Hz. apply in_map_iff in Hz.
    destruct Hz as [x [<- _]]. destruct (Py.ltb x 0); split; lra. }
  assert (Hne' : map (fun x => if Py.ltb x 0 then 1 else 0)
                     (map (roi lens r) trials) <> []).
  { destruct (map (roi lens r) trials); [congruence | discriminate]. }
  assert (H0 : 0 <= st_p_loss s).
  { rewrite Hp. apply mean_ge_bound; [exact Hne'|].
    eapply Forall_impl; [|exact Hind]. intros z Hz. apply Hz. }
  assert (H1 : st_p_loss s <= 1).
  { rewrite Hp. apply mean_le_bound; [exact Hne'|].
    eapply Forall_impl; [|exact Hind]. intros z Hz. apply Hz. }
  split; [rewrite <- round_pct_zero; apply round_pct_mono; exact H0|].
  split; [rewrite <- round_pct_one; apply round_pct_mono; exact H1|].
  apply round_pct_mono.
  apply (percentile_mono (map (roi lens r) trials) 5 10); try assumption; lra.
Qed.

Lemma simulated_row_loss_and_var_witness :
  exists rows row,
    fst (@simulate_once Example.runtime [Example.deal1] Example.regional 4
                        "Engineer" None Example.world0)
    = Py.Ok (Pd.Frame rows)
    /\ In row rows
    /\ 0 <= P_loss row /\ P_loss row <= 100 /\ VaR5_ROI row <= P10_ROI row.
Proof.
  pose proof engineer_run_eq as E. unfold Example.engineer_run in E.
  eexists. eexists. split; [exact E|].
  split; [left; reflexivity|].
  exact (@simulated_row_loss_and_var Example.runtime _ _ _ _ _ _ _ _
           E (or_introl eq_refl)).
Defined.

Lemma headwind_index_range (region : string) (regional_map : RegionalMap)
  (hi : Q) :
  headwind_index region regional_map = Py.Ok hi -> 0 <= hi /\ hi <= 100.
Proof.
  unfold headwind_index. intro E.
  destruct (get_rings regional_map) as [d|]; cbn [Py.bind] in E;
    [|discriminate E].
  destruct (first_value d) as [fallback|]; cbn [Py.bind] in E;
    [|discriminate E].
  assert (Hhi : hi = profile_score match dict_get region d with
                                   | Some v => v
                                   | None => fallback
                                   end) by congruence.
  rewrite Hhi. unfold profile_score.
  assert (H0 : 0.0 <= 100.0) by (unfold Qle; simpl; lia).
  match goal with
  | |- 0 <= Np.clip ?x _ _ /\ _ =>
      destruct (clip_range x 0.0 100.0 H0) as [Hlo Hup]
  end.
  split; lra.
Qed.

(** X5.  In every row of a simulated frame the risk-adjusted ROI lies
    between 0 and the median ROI: friction only ever shrinks the median
    towards 0, and never changes its sign. *)
Theorem simulated_row_risk_adjusted `{Runtime} (df : list Deal)
  (regional_map : RegionalMap) (sims : nat) (lens : string)
  (rng : option Generator) (w : World) (rows : list ResultRow)
  (row : ResultRow) :
  fst (simulate_once df regional_map sims lens rng w) = Py.Ok (Pd.Frame rows) ->
  In row rows ->
  (0 <= RiskAdj_ROI_P50 row /\ RiskAdj_ROI_P50 row <= P50_ROI row)
  \/ (P50_ROI row <= RiskAdj_ROI_P50 row /\ RiskAdj_ROI_P50 row <= 0).
Proof.
  intros Erun Hin.
  destruct (row_of_run _ _ _ _ _ _ _ _ Erun Hin)
    as (r & trials & hi & s & _ & Ehi & _ & ->).
  destruct (headwind_index_range _ _ _ Ehi) as [Hh0 Hh1].
  unfold result_row. cbn [RiskAdj_ROI_P50 P50_ROI].
  assert (Hf : 0 <= 1.0 - hi / 100.0 /\ 1.0 - hi / 100.0 <= 1).
  { assert (Hd0 : 0 <= hi / 100.0)
      by (apply Qle_shift_div_l; [reflexivity | lra]).
    assert (Hd1 : hi / 100.0 <= 1)
      by (apply Qle_shift_div_r; [reflexivity | lra]).
    split; lra. }
  destruct Hf as [Hf0 Hf1].
  destruct (Qlt_le_dec (st_p50 s) 0) as [Hneg|Hpos].
  - right. split.
    + apply round_pct_mono. nra.
    + rewrite <- round_pct_zero. apply round_pct_mono. nra.
  - left. split.
    + rewrite <- round_pct_zero. apply round_pct_mono. nra.
    + apply round_pct_mono. nra.
Qed.

Lemma simulated_row_risk_adjusted_witness :
  exists rows row,
    fst (@simulate_once Example.runtime [Example.deal1] Example.regional 4
                        "Engineer" None Example.world0)
    = Py.Ok (Pd.Frame rows)
    /\ In row rows
    /\ ((0 <= RiskAdj_ROI_P50 row /\ RiskAdj_ROI_P50 row <= P50_ROI row)
        \/ (P50_ROI row <= RiskAdj_ROI_P50 row /\ RiskAdj_ROI_P50 row <= 0)).
Proof.
  pose proof engineer_run_eq as E. unfold Example.engineer_run in E.
  eexists. eexists. split; [exact E|].
  split; [left; reflexivity|].
  exact (@simulated_row_risk_adjusted Example.runtime _ _ _ _ _ _ _ _
           E (or_introl eq_refl)).
Defined.

Lemma simulate_rows_columns `{Runtime} (regional_map : RegionalMap)
  (lens : string) (trials : list Trial) (df : list Deal)
  (rows : list ResultRow) :
  simulate_rows regional_map lens trials df = Py.Ok rows ->
  map address rows = map d_address df
  /\ map region_ring rows = map d_region_ring df.
Proof.
  revert rows. induction df as [|r rest IH]; intros rows E.
  - cbn in E. assert (rows = []) by congruence. subst. split; reflexivity.
  - cbn [simulate_rows] in E.
    destruct (simulate_deal regional_map lens trials r) as [row0|] eqn:E0;
      cbn [Py.bind] in E; [|discriminate E].
    destruct (simulate_rows regional_map lens trials rest) as [rows0|] eqn:E1;
      cbn [Py.bind] in E; [|discriminate E].
    assert (rows = row0 :: rows0) by congruence. subst rows.
    destruct (IH rows0 eq_refl) as [Ha Hr].
    unfold simulate_deal in E0.
    destruct (headwind_index (d_region_ring r) regional_map) as [hi|];
      cbn [Py.bind] in E0; [|discriminate E0].
    destruct (roi_stats (map (roi lens r) trials)) as [s|];
      cbn [Py.bind] in E0; [|discriminate E0].
    assert (Hrow : row0 = result_row r (d_region_ring r) hi s) by congruence.
    subst row0. cbn [map]. rewrite Ha, Hr. split; reflexivity.
Qed.

(** X6.  A frame the simulator returns has one row per deal, in the order
    of the deals, and each row carries the address and the region of its
    deal. *)
Theorem simulate_once_one_row_per_deal `{Runtime} (df : list Deal)
  (regional_map : RegionalMap) (sims : nat) (lens : string)
  (rng : option Generator) (w : World) (rows : list ResultRow) :
  fst (simulate_once df regional_map sims lens rng w) = Py.Ok (Pd.Frame rows) ->
  List.length rows = List.length df
  /\ map address rows = map d_address df
  /\ map region_ring rows = map d_region_ring df.
Proof.
  intro Erun.
  destruct (simulate_once_frame _ _ _ _ _ _ _ Erun) as [trials Erows].
  destruct (simulate_rows_columns _ _ _ _ _ Erows) as [Ha Hr].
  split; [|split; assumption].
  rewrite <- (length_map address rows), Ha. apply length_map.
Qed.

Lemma simulate_once_one_row_per_deal_witness :
  exists rows,
    fst (@simulate_once Example.runtime [Example.deal1] Example.regional 4
                        "Engineer" None Example.world0)
    = Py.Ok (Pd.Frame rows)
    /\ List.length rows = 1%nat
    /\ map address rows = ["1234 W Belmont Ave"%string]
    /\ map region_ring rows = ["Urban Core"%string].
Proof.
  pose proof engineer_run_eq as E. unfold Example.engineer_run in E.
  eexists. split; [exact E|].
  exact (@simulate_once_one_row_per_deal Example.runtime _ _ _ _ _ _ _ E).
Defined.

(** ** Every trial keeps part of its cost *)







(** ** The selling percentage is clamped *)

Lemma clip_above (x lo hi : Q) :
  lo <= hi -> hi < x -> Np.clip x (Some lo) (Some hi) = hi.
Proof.
  intros Hlh Hx. unfold Np.clip, Np.maximum, Np.minimum.
  assert (E0 : Py.leb lo x = true) by (apply leb_le; lra).
  rewrite E0.
  assert (E1 : Py.leb x hi = false) by (apply leb_gt; lra).
  rewrite E1. reflexivity.
Qed.

Lemma clip_below (x lo hi : Q) :
  lo <= hi -> x < lo -> Np.clip x (Some lo) (Some hi) = lo.
Proof.
  intros Hlh Hx. unfold Np.clip, Np.maximum, Np.minimum.
  assert (E0 : Py.leb lo x = false) by (apply leb_gt; lra).
  rewrite E0.
  assert (E1 : Py.leb lo hi = true) by (apply leb_le; lra).
  rewrite E1. reflexivity.
Qed.

(** X8.  A selling percentage outside [0, 0.12] is replaced by the nearer
    bound: a deal with [selling_pct] above 0.12 gets the ROI of every trial,
    and hence the row, of the same deal with [selling_pct] 0.12, and one
    with a negative [selling_pct] those of the deal with 0.0. *)
Theorem selling_pct_clamped `{Runtime} (regional_map : RegionalMap)
  (lens : string) (trials : list Trial) (r : Deal) (bound : Q) :
  (0.12 < d_selling_pct r /\ bound = 0.12)
  \/ (d_selling_pct r < 0 /\ bound = 0.0) ->
  let r' := mkDeal (d_address r) (d_region_ring r) (d_purchase r) (d_rehab r)
                   (d_carry r) bound (d_projected_sale r) (d_hold_months r)
                   (d_permit_delay_days r) (d_tax_drag r) (d_ltv r)
                   (d_loan_rate_annual r) in
  (forall t, roi lens r t = roi lens r' t)
  /\ simulate_deal regional_map lens trials r
     = simulate_deal regional_map lens trials r'.
Proof.
  intros Hsel r'.
  assert (Hclip : Np.clip (d_selling_pct r) (Some 0.0) (Some 0.12)
                  = Np.clip bound (Some 0.0) (Some 0.12)).
  { assert (H0 : 0.0 <= 0.12) by (unfold Qle; simpl; lia).
    destruct Hsel as [[Hs ->]|[Hs ->]].
    - rewrite clip_above; [reflexivity | exact H0 | exact Hs].
    - rewrite clip_below; [reflexivity | exact H0 | lra]. }
  assert (Hroi : forall t, roi lens r t = roi lens r' t).
  { intro t. unfold roi, tpc, sell_cost, carry_total, interest_cost,
      tax_drag_amt, rehab_draw, sale_draw, hold_draw, r'.
    cbn [d_address d_region_ring d_purchase d_rehab d_carry d_selling_pct
         d_projected_sale d_hold_months d_permit_delay_days d_tax_drag d_ltv
         d_loan_rate_annual].
    rewrite Hclip. reflexivity. }
  split; [exact Hroi|].
  unfold simulate_deal.
  rewrite (map_ext _ _ Hroi). reflexivity.
Qed.

Lemma selling_pct_clamped_witness :
  @simulate_deal Example.runtime Example.regional "Engineer"
    [mkTrial (1 # 2, 0, -1) 1]
    (mkDeal "1234 W Belmont Ave" "Urban Core" 300000 50000 8000 0.30 400000
            (Some 4) (Some 30) (Some 0.02) (Some 0.8) (Some 0.085))
  = @simulate_deal Example.runtime Example.regional "Engineer"
      [mkTrial (1 # 2, 0, -1) 1]
      (mkDeal "1234 W Belmont Ave" "Urban Core" 300000 50000 8000 0.12 400000
              (Some 4) (Some 30) (Some 0.02) (Some 0.8) (Some 0.085)).
Proof.
  apply (@selling_pct_clamped Example.runtime Example.regional "Engineer"
           [mkTrial (1 # 2, 0, -1) 1]
           (mkDeal "1234 W Belmont Ave" "Urban Core" 300000 50000 8000 0.30
                   400000 (Some 4) (Some 30) (Some 0.02) (Some 0.8)
                   (Some 0.085)) 0.12).
  left. split; reflexivity.
Defined.

(** ** The decision evaluator: loosening and unanimity *)

(** X9.  Loosening the bars never turns GO into CAUTION: if a frame is GO
    under some bars, it is GO, with the same three medians, under any bars
    with a lower or equal [risk_adj], a higher or equal [ploss] and a lower
    or equal [cvar]. *)
Theorem decide_loosening (df : Pd.DataFrame ResultRow) (b1 b2 : Bars)
  (s1 : Summary) :
  decide df (Some b1) = Py.Ok s1 ->
  s_Status s1 = GO ->
  risk_adj b2 <= risk_adj b1 ->
  ploss b1 <= ploss b2 ->
  cvar b2 <= cvar b1 ->
  decide df (Some b2) = Py.Ok s1.
Proof.
  intros E Hgo Hr Hp Hc. destruct df as [|rows]; [discriminate E|].
  unfold decide in *. cbn [Pd.column Py.bind] in *.
  set (r := Pd.median (map RiskAdj_ROI_P50 rows)) in *.
  set (p := Pd.median (map P_loss rows)) in *.
  set (c := Pd.median (map CVaR5_ROI rows)) in *.
  assert (Hs1 : s1 = mkSummary r p c
                       (if nan_ge r (risk_adj b1) && nan_le p (ploss b1)
                           && nan_gt c (cvar b1) then GO else CAUTION))
    by congruence.
  rewrite Hs1 in Hgo. cbn [s_Status] in Hgo.
  destruct (nan_ge r (risk_adj b1) && nan_le p (ploss b1)
            && nan_gt c (cvar b1)) eqn:E1; [|discriminate Hgo].
  apply andb_true_iff in E1. destruct E1 as [E1 Ec].
  apply andb_true_iff in E1. destruct E1 as [Er Ep].
  assert (E2 : nan_ge r (risk_adj b2) && nan_le p (ploss b2)
               && nan_gt c (cvar b2) = true).
  { destruct r as [rv|]; [|discriminate Er].
    destruct p as [pv|]; [|discriminate Ep].
    destruct c as [cv|]; [|discriminate Ec].
    cbn in *. apply leb_le in Er. apply leb_le in Ep. apply ltb_lt in Ec.
    rewrite !andb_true_iff, !leb_le, ltb_lt. repeat split; lra. }
  rewrite E2. rewrite Hs1. reflexivity.
Qed.

Lemma decide_loosening_witness :
  decide (Pd.Frame [Example.weak_row]) (Some (mkBars 6 15 (-20)))
  = Py.Ok (mkSummary (Some 7) (Some 12) (Some (-15)) GO).
Proof.
  apply (decide_loosening (Pd.Frame [Example.weak_row]) (mkBars 7 12 (-16))
           (mkBars 6 15 (-20)));
    try reflexivity; unfold Qle; simpl; lia.
Defined.

Lemma median_between (x : Q) (l : list Q) :
  exists a b,
    In a (x :: l) /\ In b (x :: l)
    /\ a <= Pd.median_ne x l /\ Pd.median_ne x l <= b.
Proof.
  unfold Pd.median_ne.
  set (n := List.length (x :: l)).
  assert (Hn : (0 < n)%nat) by (unfold n; cbn; lia).
  assert (Hhalf : (n / 2 < n)%nat) by (apply Nat.div_lt; lia).
  assert (Hs : StronglySorted Qle (Np.sort (x :: l))) by apply np_sort_sorted.
  assert (Hlen : List.length (Np.sort (x :: l)) = n) by apply np_sort_length.
  destruct (Nat.even n).
  - exists (nth (n / 2 - 1) (Np.sort (x :: l)) 0),
           (nth (n / 2) (Np.sort (x :: l)) 0).
    assert (Hord : nth (n / 2 - 1) (Np.sort (x :: l)) 0
                   <= nth (n / 2) (Np.sort (x :: l)) 0).
    { apply strongly_sorted_nth; [exact Hs | lia | lia]. }
    split; [apply sorted_nth_in; fold n; lia|].
    split; [apply sorted_nth_in; fold n; lia|].
    split.
    + apply Qle_shift_div_l; [reflexivity | lra].
    + apply Qle_shift_div_r; [reflexivity | lra].
  - exists (nth (n / 2) (Np.sort (x :: l)) 0),
           (nth (n / 2) (Np.sort (x :: l)) 0).
    split; [apply sorted_nth_in; fold n; lia|].
    split; [apply sorted_nth_in; fold n; lia|].
    split; apply Qle_refl.
Qed.

(** X10.  The verdict on a batch agrees with a unanimous batch: if every
    row of a batch with at least one row passes the three tests of the
    bars, the batch is GO, and if every row is below [bars.risk_adj], the
    batch is CAUTION. *)
Theorem decide_unanimous (rows : list ResultRow) (bars : Bars) :
  rows <> [] ->
  exists s,
    decide (Pd.Frame rows) (Some bars) = Py.Ok s
    /\ (Forall (fun row => passes bars row = true) rows -> s_Status s = GO)
    /\ (Forall (fun row => RiskAdj_ROI_P50 row < risk_adj bars) rows ->
        s_Status s = CAUTION).
Proof.
  intro Hne. destruct rows as [|x t]; [congruence|].
  unfold decide. cbn [Pd.column Py.bind map Pd.median].
  eexists. split; [reflexivity|]. cbn [s_Status nan_ge nan_le nan_gt].
  destruct (median_between (RiskAdj_ROI_P50 x) (map RiskAdj_ROI_P50 t))
    as (ra & rb & Hra & Hrb & Hra_le & Hrb_le).
  destruct (median_between (P_loss x) (map P_loss t))
    as (pa & pb & Hpa & Hpb & Hpa_le & Hpb_le).
  destruct (median_between (CVaR5_ROI x) (map CVaR5_ROI t))
    as (ca & cb & Hca & Hcb & Hca_le & Hcb_le).
  change (RiskAdj_ROI_P50 x :: map RiskAdj_ROI_P50 t)
    with (map RiskAdj_ROI_P50 (x :: t)) in Hra, Hrb.
  change (P_loss x :: map P_loss t) with (map P_loss (x :: t)) in Hpa, Hpb.
  change (CVaR5_ROI x :: map CVaR5_ROI t)
    with (map CVaR5_ROI (x :: t)) in Hca, Hcb.
  apply in_map_iff in Hra, Hrb, Hpa, Hpb, Hca, Hcb.
  destruct Hra as [r1 [<- Hr1]]. destruct Hrb as [r2 [<- Hr2]].
  destruct Hpa as [p1 [<- Hp1]]. destruct Hpb as [p2 [<- Hp2]].
  destruct Hca as [c1 [<- Hc1]]. destruct Hcb as [c2 [<- Hc2]].
  split.
  - intro Hall. rewrite Forall_forall in Hall.
    assert (Hpass : forall row, In row (x :: t) ->
              risk_adj bars <= RiskAdj_ROI_P50 row
              /\ P_loss row <= ploss bars /\ cvar bars < CVaR5_ROI row).
    { intros row Hrow. specialize (Hall row Hrow). unfold passes in Hall.
      rewrite !andb_true_iff, !leb_le, ltb_lt in Hall. tauto. }
    destruct (Hpass r1 Hr1) as (H1 & _ & _).
    destruct (Hpass p2 Hp2) as (_ & H2 & _).
    destruct (Hpass c1 Hc1) as (_ & _ & H3).
    assert (E : Py.leb (risk_adj bars)
                  (Pd.median_ne (RiskAdj_ROI_P50 x) (map RiskAdj_ROI_P50 t))
                && Py.leb (Pd.median_ne (P_loss x) (map P_loss t)) (ploss bars)
                && Py.ltb (cvar bars)
                     (Pd.median_ne (CVaR5_ROI x) (map CVaR5_ROI t)) = true).
    { rewrite !andb_true_iff, !leb_le, ltb_lt. repeat split; lra. }
    rewrite E. reflexivity.
  - intro Hall. rewrite Forall_forall in Hall.
    pose proof (Hall r2 Hr2) as H1.
    assert (E : Py.leb (risk_adj bars)
                  (Pd.median_ne (RiskAdj_ROI_P50 x) (map RiskAdj_ROI_P50 t))
                = false) by (apply leb_gt; lra).
    rewrite E. reflexivity.
Qed.

Lemma decide_unanimous_witness :
  exists s,
    decide (Pd.Frame [Example.strong_row; Example.weak_row])
           (Some (mkBars 6 15 (-20))) = Py.Ok s
    /\ (Forall (fun row => passes (mkBars 6 15 (-20)) row = true)
               [Example.strong_row; Example.weak_row] -> s_Status s = GO)
    /\ (Forall (fun row => RiskAdj_ROI_P50 row < 6)
               [Example.strong_row; Example.weak_row] ->
        s_Status s = CAUTION).
Proof.
  apply (decide_unanimous [Example.strong_row; Example.weak_row]
           (mkBars 6 15 (-20))).
  discriminate.
Defined.

(** ** The autotuner: when a candidate wins, and which *)

Lemma reward_lower (gc : Q) : 0 <= gc -> gc <= 1 -> 0.33 <= 1.0 - Qabs (gc - 0.33).
Proof.
  intros H0 H1.
  assert (Habs : Qabs (gc - 0.33) <= 0.67).
  { apply Qabs_Qle_condition. split; lra. }
  lra.
Qed.

(** X11.  The tuner falls back to the defaults only when the strict lens
    passes too often everywhere: on two batches with at least one row each,
    if at some candidate at most 40 percent of the Engineer rows pass, the
    result is a candidate of the grids, whatever the defaults. *)
Theorem autotune_bars_picks_candidate (eng con : list ResultRow)
  (eng_sum con_sum : Summary) (defaults b0 : Bars) (ge : Q) :
  eng <> [] -> con <> [] ->
  In b0 candidates ->
  go_rate (Pd.Frame eng) b0 = Py.Ok (Some ge) ->
  ge <= 0.4 ->
  exists best,
    autotune_bars (Pd.Frame eng) eng_sum (Pd.Frame con) con_sum defaults
    = Py.Ok best
    /\ In best candidates
    /\ on_grids best.
Proof.
  intros Heng Hcon Hb0 Hge Hle.
  destruct (tune_loop_spec eng con candidates (defaults, -1))
    as [st' [Erun Hcases]].
  cbv zeta in Hcases. cbn [snd] in Hcases.
  exists (fst st'). split; [rewrite autotune_bars_loop, Erun; reflexivity|].
  assert (Hin : In (fst st') candidates).
  { destruct Hcases as [[_ Hall]|(l1 & b & l2 & v & El & -> & _)].
    - exfalso.
      destruct (go_rate_bounds con b0 Hcon) as (gc & Hgc & Hgc0 & Hgc1).
      destruct (go_rate_bounds eng b0 Heng) as (ge' & Hge' & Hge0 & _).
      assert (ge' = ge) by congruence. subst ge'.
      destruct (candidates_cvar_range b0 Hb0) as (_ & Hc0 & _).
      pose proof (reward_lower gc Hgc0 Hgc1) as Hrew.
      assert (Hsafe : 0 <= (cvar b0 + 20.0) / 10.0)
        by (apply Qle_shift_div_l; [reflexivity | lra]).
      destruct (score_near_exact eng con b0 ge gc Hb0 Hge Hgc)
        as (v & Hs & Hlo & _).
      pose proof (Hall b0 Hb0 _ Hs) as Hbad.
      destruct (Py.leb ge 0.15); lra.
    - cbn [fst]. rewrite El. apply in_or_app. right. left. reflexivity. }
  split; [exact Hin | apply candidates_on_grids; exact Hin].
Qed.

Lemma autotune_bars_picks_candidate_witness :
  exists best,
    autotune_bars (Pd.Frame [Example.weak_row]) Example.no_summary
                  (Pd.Frame [Example.strong_row]) Example.no_summary
                  (mkBars 0 0 0)
    = Py.Ok best
    /\ In best candidates
    /\ on_grids best.
Proof.
  apply (autotune_bars_picks_candidate [Example.weak_row]
           [Example.strong_row] Example.no_summary Example.no_summary
           (mkBars 0 0 0) (mkBars 6 10 (-20)) 0).
  - discriminate.
  - discriminate.
  - vm_compute. left. reflexivity.
  - vm_compute. reflexivity.
  - unfold Qle; simpl; lia.
Defined.

(** X12.  On batches in which no row reaches a risk-adjusted ROI of 6, so
    that no row passes any candidate, the tuner returns the bars
    [(6.0, 10.0, -6.0)]: the first candidate in enumeration order that
    carries the least negative [cvar] of the grid. *)
Theorem autotune_bars_when_none_passes (eng con : list ResultRow)
  (eng_sum con_sum : Summary) (defaults : Bars) :
  eng <> [] -> con <> [] ->
  (forall row, In row (eng ++ con) -> RiskAdj_ROI_P50 row < 6) ->
  autotune_bars (Pd.Frame eng) eng_sum (Pd.Frame con) con_sum defaults
  = Py.Ok (mkBars 6 10 (-6)).
Proof.
  apply autotune_bars_none_passes.
Qed.

Lemma autotune_bars_when_none_passes_witness :
  autotune_bars
    (Pd.Frame [mkRow "2 Main St" "Urban Core" 20 (-5) 4 20 (-12) (-15) 12 4])
    Example.no_summary
    (Pd.Frame [mkRow "2 Main St" "Urban Core" 20 (-5) 5 20 (-12) (-15) 12 5])
    Example.no_summary default_bars
  = Py.Ok (mkBars 6 10 (-6)).
Proof.
  apply (autotune_bars_when_none_passes
           [mkRow "2 Main St" "Urban Core" 20 (-5) 4 20 (-12) (-15) 12 4]
           [mkRow "2 Main St" "Urban Core" 20 (-5) 5 20 (-12) (-15) 12 5]).
  - discriminate.
  - discriminate.
  - intros row [<-|[<-|[]]]; reflexivity.
Defined.

(** ** The orchestrator with autotuning *)

Lemma autotune_bars_summaries (cons_df opp_df : Pd.DataFrame ResultRow)
  (s1 s2 s1' s2' : Summary) (defaults : Bars) :
  autotune_bars cons_df s1 opp_df s2 defaults
  = autotune_bars cons_df s1' opp_df s2' defaults.
Proof. unfold autotune_bars. reflexivity. Qed.

Lemma decide_ok_any_bars (df : Pd.DataFrame ResultRow) (b1 b2 : option Bars) :
  (exists s1 s2, decide df b1 = Py.Ok s1 /\ decide df b2 = Py.Ok s2)
  \/ (exists e, decide df b1 = Py.Raise e /\ decide df b2 = Py.Raise e).
Proof.
  destruct df as [|rows].
  - right. eexists. split; reflexivity.
  - left. destruct (decide_frame_ok rows b1) as [s1 E1].
    destruct (decide_frame_ok rows b2) as [s2 E2].
    exists s1, s2. split; assumption.
Qed.

(** X13.  With autotuning enabled the [bars] argument has no effect: the
    tuner starts from the fixed defaults and the summaries it is handed are
    not read, so two runs that differ in [bars] only return the same
    frames, summaries and table and leave the same world. *)
Theorem run_all_autotune_ignores_bars `{Runtime} (df : list Deal)
  (regional_map : RegionalMap) (sims : nat) (bars1 bars2 : option Bars)
  (save_path : string) (w : World) :
  run_all df regional_map sims bars1 true save_path w
  = run_all df regional_map sims bars2 true save_path w.
Proof.
  unfold run_all.
  unfold mbind at 1. symmetry. unfold mbind at 1. symmetry.
  destruct (simulate_once df regional_map sims "Engineer" None w)
    as [[eng|e] w1]; [|reflexivity].
  unfold mbind at 1. symmetry. unfold mbind at 1. symmetry.
  destruct (simulate_once df regional_map sims "Consumer" None w1)
    as [[con|e] w2]; [|reflexivity].
  cbv zeta.
  set (b1 := match bars1 with
             | Some b => b
             | None => mkBars 8.5 15.0 (-10.0)
             end).
  set (b2 := match bars2 with
             | Some b => b
             | None => mkBars 8.5 15.0 (-10.0)
             end).
  unfold mbind at 1. symmetry. unfold mbind at 1. symmetry.
  unfold lift at 1. symmetry. unfold lift at 1. symmetry.
  destruct (decide_ok_any_bars eng (Some b1) (Some b2))
    as [(e1 & e2 & -> & ->)|(e & -> & ->)]; [|reflexivity].
  unfold mbind at 1. symmetry. unfold mbind at 1. symmetry.
  unfold lift at 1. symmetry. unfold lift at 1. symmetry.
  destruct (decide_ok_any_bars con (Some b1) (Some b2))
    as [(c1 & c2 & -> & ->)|(e & -> & ->)]; [|reflexivity].
  rewrite (autotune_bars_summaries eng con e1 c1 e2 c2).
  reflexivity.
Qed.

Lemma mbind_ok {A B : Type} (m : M A) (k : A -> M B) (w w' : World) (b : B) :
  mbind m k w = (Py.Ok b, w') ->
  exists a w1, m w = (Py.Ok a, w1) /\ k a w1 = (Py.Ok b, w').
Proof.
  unfold mbind. destruct (m w) as [[a|e] w1]; intro E.
  - exists a, w1. split; [reflexivity | exact E].
  - discriminate E.
Qed.

Lemma save_tuned_effect (save_path : string) (tuned : Bars) (w : World) :
  save_tuned save_path tuned w
  = (Py.Ok tt,
     mkWorld (os_entropy w) (entropy_used w) (fs_ok w)
             ((if fs_ok w (MkdirParents save_path)
               then [WriteText save_path tuned; MkdirParents save_path]
               else [MkdirParents save_path]) ++ fs_log w)).
Proof.
  unfold save_tuned, mbind, fs_attempt, ret. cbn beta iota.
  destruct (fs_ok w (MkdirParents save_path)); reflexivity.
Qed.

Lemma run_all_autotune_effect `{Runtime} (df : list Deal)
  (regional_map : RegionalMap) (sims : nat) (bars : option Bars)
  (save_path : string) (w w' : World) (both : Pd.DataFrame LensRow)
  (sums : Sums) (opps : list Opportunity) :
  run_all df regional_map sims bars true save_path w
  = (Py.Ok (both, sums, opps), w') ->
  sums_defaults sums = Some default_bars
  /\ fs_log w'
     = (if fs_ok w (MkdirParents save_path)
        then [WriteText save_path (sums_bars sums); MkdirParents save_path]
        else [MkdirParents save_path]) ++ fs_log w
  /\ entropy_used w' = S (S (entropy_used w))
  /\ os_entropy w' = os_entropy w
  /\ fs_ok w' = fs_ok w.
Proof.
  intro E. unfold run_all in E.
  apply mbind_ok in E. destruct E as (eng & w1 & E1 & E).
  rewrite simulate_once_fresh in E1.
  assert (Hw1 : w1 = mkWorld (os_entropy w) (S (entropy_used w)) (fs_ok w)
                             (fs_log w)) by congruence.
  clear E1.
  apply mbind_ok in E. destruct E as (con & w2 & E2 & E).
  rewrite simulate_once_fresh in E2.
  assert (Hw2 : w2 = mkWorld (os_entropy w1) (S (entropy_used w1)) (fs_ok w1)
                             (fs_log w1)) by congruence.
  clear E2. cbv zeta in E.
  apply mbind_ok in E. destruct E as (e0 & w3 & E3 & E).
  apply lift_fst_ok in E3. destruct E3 as [_ ->].
  apply mbind_ok in E. destruct E as (c0 & w4 & E4 & E).
  apply lift_fst_ok in E4. destruct E4 as [_ ->].
  apply mbind_ok in E. destruct E as (sums0 & w5 & Es & E).
  apply mbind_ok in E. destruct E as (grp & w6 & E6 & E).
  apply lift_fst_ok in E6. destruct E6 as [_ ->].
  apply mbind_ok in E. destruct E as (opps0 & w7 & E7 & E).
  apply lift_fst_ok in E7. destruct E7 as [_ ->].
  unfold ret in E.
  assert (Hsums : sums0 = sums) by congruence.
  assert (Hw' : w5 = w') by congruence.
  subst sums0 w5. clear E.
  apply mbind_ok in Es. destruct Es as (tuned & v1 & Et & Es).
  apply lift_fst_ok in Et. destruct Et as [_ ->].
  apply mbind_ok in Es. destruct Es as (e1 & v2 & Ee & Es).
  apply lift_fst_ok in Ee. destruct Ee as [_ ->].
  apply mbind_ok in Es. destruct Es as (c1 & v3 & Ec & Es).
  apply lift_fst_ok in Ec. destruct Ec as [_ ->].
  apply mbind_ok in Es. destruct Es as (u & v4 & Esave & Es).
  rewrite save_tuned_effect in Esave. unfold ret in Es.
  assert (Hs : sums = mkSums e1 c1 tuned (Some (mkBars 8.5 15.0 (-10.0))))
    by congruence.
  assert (Hv4 : v4 = w') by congruence.
  subst v4.
  assert (Hw : w' = mkWorld (os_entropy w2) (entropy_used w2) (fs_ok w2)
                 ((if fs_ok w2 (MkdirParents save_path)
                   then [WriteText save_path tuned; MkdirParents save_path]
                   else [MkdirParents save_path]) ++ fs_log w2))
    by congruence.
  rewrite Hw, Hw2, Hw1, Hs.
  cbn [sums_defaults sums_bars fs_log entropy_used os_entropy fs_ok].
  repeat split; reflexivity.
Qed.

(** X14.  A run with autotuning that returns has read two values of
    operating-system entropy and attempted the creation of the cache
    directory and then, if that went through, exactly one write of the bars
    it returns, to the path it was given; the summary carries the fixed
    defaults under ['defaults']. *)
Theorem run_all_autotune_cache_write `{Runtime} (df : list Deal)
  (regional_map : RegionalMap) (sims : nat) (bars : option Bars)
  (save_path : string) (w w' : World) (both : Pd.DataFrame LensRow)
  (sums : Sums) (opps : list Opportunity) :
  run_all df regional_map sims bars true save_path w
  = (Py.Ok (both, sums, opps), w') ->
  sums_defaults sums = Some default_bars
  /\ fs_log w'
     = (if fs_ok w (MkdirParents save_path)
        then [WriteText save_path (sums_bars sums); MkdirParents save_path]
        else [MkdirParents save_path]) ++ fs_log w
  /\ entropy_used w' = S (S (entropy_used w))
  /\ os_entropy w' = os_entropy w
  /\ fs_ok w' = fs_ok w.
Proof.
  apply run_all_autotune_effect.
Qed.

Lemma simulate_once_rows `{Runtime} (df : list Deal)
  (regional_map : RegionalMap) (d : Rings) (sims : nat) (lens : string)
  (w : World) :
  df <> [] -> rings regional_map = Some d -> d <> [] -> (0 < sims)%nat ->
  exists rows,
    simulate_once df regional_map sims lens None w
    = (Py.Ok (Pd.Frame rows),
       mkWorld (os_entropy w) (S (entropy_used w)) (fs_ok w) (fs_log w))
    /\ List.length rows = List.length df
    /\ map region_ring rows = map d_region_ring df.
Proof.
  intros Hdf Hr Hne Hs.
  destruct (simulate_once_ok df regional_map d sims lens None w Hdf Hr Hne Hs)
    as (rows & w' & _ & E).
  exists rows.
  assert (Efst : fst (simulate_once df regional_map sims lens None w)
                 = Py.Ok (Pd.Frame rows)) by (rewrite E; reflexivity).
  destruct (simulate_once_frame _ _ _ _ _ _ _ Efst) as [trials Erows].
  destruct (simulate_rows_columns _ _ _ _ _ Erows) as [Ha Hreg].
  split.
  - rewrite simulate_once_fresh in *. cbn [fst] in Efst. rewrite Efst.
    reflexivity.
  - split; [|exact Hreg].
    rewrite <- (length_map address rows), Ha. apply length_map.
Qed.

Lemma autotune_bars_frames_ok (eng con : list ResultRow) (s1 s2 : Summary)
  (defaults : Bars) :
  exists best,
    autotune_bars (Pd.Frame eng) s1 (Pd.Frame con) s2 defaults = Py.Ok best.
Proof.
  destruct (tune_loop_spec eng con candidates (defaults, -1))
    as [st' [Erun _]].
  exists (fst st'). rewrite autotune_bars_loop, Erun. reflexivity.
Qed.

(** The orchestrator returns on well-formed input. *)
Lemma run_all_ok `{Runtime} (df : list Deal) (regional_map : RegionalMap)
  (d : Rings) (sims : nat) (bars : option Bars) (autotune : bool)
  (save_path : string) (w : World) :
  df <> [] -> rings regional_map = Some d -> d <> [] -> (0 < sims)%nat ->
  exists er cr sums opps w',
    run_all df regional_map sims bars autotune save_path w
    = (Py.Ok (Pd.Frame (map (fun row => (row, "Engineer"%string)) er
                        ++ map (fun row => (row, "Consumer"%string)) cr),
              sums, opps), w')
    /\ List.length er = List.length df
    /\ List.length cr = List.length df
    /\ opps <> [].
Proof.
  intros Hdf Hr Hne Hs. unfold run_all.
  destruct (simulate_once_rows df regional_map d sims "Engineer" w
              Hdf Hr Hne Hs) as (er & E1 & Hler & _).
  set (w1 := mkWorld (os_entropy w) (S (entropy_used w)) (fs_ok w) (fs_log w))
    in *.
  destruct (simulate_once_rows df regional_map d sims "Consumer" w1
              Hdf Hr Hne Hs) as (cr & E2 & Hlcr & _).
  set (w2 := mkWorld (os_entropy w1) (S (entropy_used w1)) (fs_ok w1)
                     (fs_log w1)) in *.
  exists er, cr.
  unfold mbind at 1. rewrite E1.
  unfold mbind at 1. rewrite E2. cbv zeta.
  set (supplied := match bars with
                   | Some b => b
                   | None => mkBars 8.5 15.0 (-10.0)
                   end).
  destruct (decide_frame_ok er (Some supplied)) as [e0 Ee0].
  destruct (decide_frame_ok cr (Some supplied)) as [c0 Ec0].
  unfold mbind at 1. unfold lift at 1. rewrite Ee0.
  unfold mbind at 1. unfold lift at 1. rewrite Ec0.
  cbn [with_lens concat].
  assert (Htail : forall (sums : Sums) (w' : World),
            exists opps,
              (grp <~ lift (groupby_median
                              (Pd.Frame
                                 (map (fun row => (row, "Engineer"%string)) er
                                  ++ map (fun row => (row, "Consumer"%string))
                                         cr))) ;;
               opps <~ lift (sort_values
                               (map (opportunity (sums_bars sums)) grp)) ;;
               ret (Pd.Frame
                      (map (fun row => (row, "Engineer"%string)) er
                       ++ map (fun row => (row, "Consumer"%string)) cr),
                    sums, opps)) w'
              = (Py.Ok (Pd.Frame
                          (map (fun row => (row, "Engineer"%string)) er
                           ++ map (fun row => (row, "Consumer"%string)) cr),
                        sums, opps), w')
              /\ opps <> []).
  { intros sums w'.
    match goal with
    | |- context [groupby_median (Pd.Frame ?rows)] =>
        destruct (groupby_median_ok rows) as [grp [Egrp Hgrp]]
    end.
    { destruct er; [cbn in Hler; destruct df; [congruence | discriminate]
                   | discriminate]. }
    unfold LensRow in Egrp.
    assert (Hmap : map (opportunity (sums_bars sums)) grp <> []).
    { destruct grp; [congruence | discriminate]. }
    exists (isort opp_leb (map (opportunity (sums_bars sums)) grp)).
    split.
    - unfold mbind at 1. unfold lift at 1. rewrite Egrp.
      unfold mbind at 1. unfold lift at 1.
      rewrite (sort_values_ok _ Hmap). reflexivity.
    - intro Hnil. apply Hmap.
      apply length_zero_iff_nil.
      rewrite <- (isort_length opp_leb), Hnil. reflexivity. }
  destruct autotune.
  - destruct (autotune_bars_frames_ok er cr e0 c0 (mkBars 8.5 15.0 (-10.0)))
      as [tuned Et].
    destruct (decide_frame_ok er (Some tuned)) as [e1 Ee1].
    destruct (decide_frame_ok cr (Some tuned)) as [c1 Ec1].
    unfold mbind at 1. unfold mbind at 1. unfold lift at 1. rewrite Et.
    unfold mbind at 1. unfold lift at 1. rewrite Ee1.
    unfold mbind at 1. unfold lift at 1. rewrite Ec1.
    unfold mbind at 1. rewrite save_tuned_effect. unfold ret at 1.
    match goal with
    | |- context [(_ <~ _ ;; _) ?w'] =>
        destruct (Htail (mkSums e1 c1 tuned (Some (mkBars 8.5 15.0 (-10.0))))
                        w') as [opps [Eo Ho]]
    end.
    exists (mkSums e1 c1 tuned (Some (mkBars 8.5 15.0 (-10.0)))), opps.
    eexists. split; [exact Eo|]. repeat split; assumption.
  - unfold mbind at 1. unfold ret at 1.
    destruct (Htail (mkSums e0 c0 supplied None) w2) as [opps [Eo Ho]].
    exists (mkSums e0 c0 supplied None), opps, w2.
    split; [exact Eo|]. repeat split; assumption.
Qed.

(** X15.  On a batch with at least one deal, a table with at least one ring
    and a positive trial count the orchestrator returns, with or without
    autotuning; the combined frame holds the Engineer rows followed by the
    Consumer rows, one of each per deal, and the opportunity table has at
    least one row. *)
Theorem run_all_returns `{Runtime} (df : list Deal)
  (regional_map : RegionalMap) (d : Rings) (sims : nat) (bars : option Bars)
  (autotune : bool) (save_path : string) (w : World) :
  df <> [] -> rings regional_map = Some d -> d <> [] -> (0 < sims)%nat ->
  exists er cr sums opps w',
    run_all df regional_map sims bars autotune save_path w
    = (Py.Ok (Pd.Frame (map (fun row => (row, "Engineer"%string)) er
                        ++ map (fun row => (row, "Consumer"%string)) cr),
              sums, opps), w')
    /\ List.length er = List.length df
    /\ List.length cr = List.length df
    /\ opps <> [].
Proof.
  apply run_all_ok.
Qed.

Lemma run_all_returns_witness :
  exists er cr sums opps w',
    @run_all Example.runtime [Example.deal1] Example.regional 4 None true
             Example.save_path Example.world0
    = (Py.Ok (Pd.Frame (map (fun row => (row, "Engineer"%string)) er
                        ++ map (fun row => (row, "Consumer"%string)) cr),
              sums, opps), w')
    /\ List.length er = 1%nat
    /\ List.length cr = 1%nat
    /\ opps <> [].
Proof.
  apply (@run_all_returns Example.runtime [Example.deal1] Example.regional
           Example.rings2 4 None true Example.save_path Example.world0).
  - discriminate.
  - reflexivity.
  - discriminate.
  - lia.
Defined.

Lemma run_all_autotune_cache_write_witness :
  exists both sums opps w',
    @run_all Example.runtime [Example.deal1] Example.regional 4 None true
             Example.save_path Example.world0
    = (Py.Ok (both, sums, opps), w')
    /\ sums_defaults sums = Some default_bars
    /\ fs_log w'
       = [WriteText Example.save_path (sums_bars sums);
          MkdirParents Example.save_path]
    /\ entropy_used w' = 2%nat.
Proof.
  destruct (@run_all_ok Example.runtime [Example.deal1] Example.regional
              Example.rings2 4 None true Example.save_path Example.world0)
    as (er & cr & sums & opps & w' & E & _);
    [discriminate | reflexivity | discriminate | lia |].
  eexists. exists sums, opps, w'. split; [exact E|].
  destruct (@run_all_autotune_cache_write Example.runtime _ _ _ _ _ _ _ _ _ _ E)
    as (Hd & Hlog & Hent & _).
  split; [exact Hd|]. split; [exact Hlog | exact Hent].
Defined.

Lemma simulate_with_empty `{Runtime} (g : Generator)
  (regional_map : RegionalMap) (sims : nat) (lens : string) :
  fst (simulate_with g [] regional_map sims lens) = Py.Ok Pd.NoColumns.
Proof.
  unfold simulate_with. destruct (draw_trials g sims lens) as [trials g'].
  reflexivity.
Qed.

Lemma simulate_with_raises `{Runtime} (g : Generator) (r : Deal)
  (rest : list Deal) (regional_map : RegionalMap) (sims : nat)
  (lens : string) (e : Py.exn) :
  headwind_index (d_region_ring r) regional_map = Py.Raise e ->
  fst (simulate_with g (r :: rest) regional_map sims lens) = Py.Raise e.
Proof.
  intro Eh. unfold simulate_with.
  destruct (draw_trials g sims lens) as [trials g'].
  cbn [fst simulate_rows]. unfold simulate_deal. rewrite Eh. reflexivity.
Qed.

Lemma run_all_first_raise `{Runtime} (df : list Deal)
  (regional_map : RegionalMap) (sims : nat) (bars : option Bars)
  (autotune : bool) (save_path : string) (w : World) (e : Py.exn) :
  fst (simulate_with (default_rng (os_entropy w (entropy_used w)))
                     df regional_map sims "Engineer") = Py.Raise e ->
  run_all df regional_map sims bars autotune save_path w
  = (Py.Raise e,
     mkWorld (os_entropy w) (S (entropy_used w)) (fs_ok w) (fs_log w)).
Proof.
  intro E. unfold run_all. unfold mbind at 1.
  rewrite simulate_once_fresh, E. reflexivity.
Qed.

(** X16.  What makes the orchestrator raise, with or without autotuning,
    and always before any file-system operation: a batch without deals
    raises [KeyError] for the first result column, since the simulator's
    frame then has no columns; a batch with deals raises [KeyError('rings')]
    on a map without that key and [StopIteration] on a table without
    entries, after one read of entropy.  The log of file-system operations
    is as it was in all three cases. *)
Theorem run_all_raises `{Runtime} (r : Deal) (rest : list Deal)
  (regional_map : RegionalMap) (sims : nat) (bars : option Bars)
  (autotune : bool) (save_path : string) (w : World) :
  run_all [] regional_map sims bars autotune save_path w
  = (Py.Raise (Py.KeyError "Risk-Adj ROI P50%"),
     mkWorld (os_entropy w) (S (S (entropy_used w))) (fs_ok w) (fs_log w))
  /\ run_all (r :: rest) (mkRegionalMap None) sims bars autotune save_path w
     = (Py.Raise (Py.KeyError "rings"),
        mkWorld (os_entropy w) (S (entropy_used w)) (fs_ok w) (fs_log w))
  /\ run_all (r :: rest) (mkRegionalMap (Some [])) sims bars autotune
             save_path w
     = (Py.Raise Py.StopIteration,
        mkWorld (os_entropy w) (S (entropy_used w)) (fs_ok w) (fs_log w)).
Proof.
  split; [|split].
  - unfold run_all.
    unfold mbind at 1. rewrite simulate_once_fresh, simulate_with_empty.
    unfold mbind at 1. rewrite simulate_once_fresh, simulate_with_empty.
    reflexivity.
  - apply run_all_first_raise. apply simulate_with_raises. reflexivity.
  - apply run_all_first_raise. apply simulate_with_raises. reflexivity.
Qed.

(** ** The summaries and the table of a run *)

(** What a run that returns went through, with the frames and the
    verdicts. *)
Lemma run_all_inv_frames `{Runtime} (df : list Deal)
  (regional_map : RegionalMap) (sims : nat) (bars : option Bars)
  (autotune : bool) (save_path : string) (w : World)
  (both : Pd.DataFrame LensRow) (sums : Sums) (opps : list Opportunity) :
  fst (run_all df regional_map sims bars autotune save_path w)
  = Py.Ok (both, sums, opps) ->
  exists eng con w1 grp,
    fst (simulate_once df regional_map sims "Engineer" None w) = Py.Ok eng
    /\ fst (simulate_once df regional_map sims "Consumer" None w1) = Py.Ok con
    /\ both = concat (with_lens eng "Engineer") (with_lens con "Consumer")
    /\ decide eng (Some (sums_bars sums)) = Py.Ok (sums_Engineer sums)
    /\ decide con (Some (sums_bars sums)) = Py.Ok (sums_Consumer sums)
    /\ groupby_median both = Py.Ok grp
    /\ sort_values (map (opportunity (sums_bars sums)) grp) = Py.Ok opps.
Proof.
  intro E. unfold run_all in E.
  apply mbind_fst_ok in E. destruct E as (eng & w1 & E1 & E).
  apply mbind_fst_ok in E. destruct E as (con & w2 & E2 & E).
  cbv zeta in E.
  apply mbind_fst_ok in E. destruct E as (e0 & w3 & Ee0 & E).
  apply lift_fst_ok in Ee0. destruct Ee0 as [Ee0 ->].
  apply mbind_fst_ok in E. destruct E as (c0 & w4 & Ec0 & E).
  apply lift_fst_ok in Ec0. destruct Ec0 as [Ec0 ->].
  apply mbind_fst_ok in E. destruct E as (sums0 & w5 & Esums & E).
  apply mbind_fst_ok in E. destruct E as (grp & w6 & Egrp & E).
  apply lift_fst_ok in Egrp. destruct Egrp as [Egrp ->].
  apply mbind_fst_ok in E. destruct E as (opps0 & w7 & Eopps & E).
  apply lift_fst_ok in Eopps. destruct Eopps as [Eopps ->].
  cbn [ret fst] in E.
  assert (Hboth : both = concat (with_lens eng "Engineer")
                                (with_lens con "Consumer")) by congruence.
  assert (Hsums : sums = sums0) by congruence.
  assert (Hopps : opps = opps0) by congruence.
  subst sums0 opps0.
  exists eng, con, w1, grp.
  split; [rewrite E1; reflexivity|]. split; [rewrite E2; reflexivity|].
  split; [exact Hboth|].
  assert (Hdec : decide eng (Some (sums_bars sums)) = Py.Ok (sums_Engineer sums)
                 /\ decide con (Some (sums_bars sums))
                    = Py.Ok (sums_Consumer sums)).
  { destruct autotune.
    - assert (Es : fst ((tuned <~ lift (autotune_bars eng e0 con c0
                                          (mkBars 8.5 15.0 (-10.0))) ;;
                         e1 <~ lift (decide eng (Some tuned)) ;;
                         c1 <~ lift (decide con (Some tuned)) ;;
                         _ <~ save_tuned save_path tuned ;;
                         ret (mkSums e1 c1 tuned
                                (Some (mkBars 8.5 15.0 (-10.0))))) w2)
                   = Py.Ok sums) by (rewrite Esums; reflexivity).
      apply mbind_fst_ok in Es. destruct Es as (tuned & v1 & Et & Es).
      apply lift_fst_ok in Et. destruct Et as [Et ->].
      apply mbind_fst_ok in Es. destruct Es as (e1 & v2 & Ee1 & Es).
      apply lift_fst_ok in Ee1. destruct Ee1 as [Ee1 ->].
      apply mbind_fst_ok in Es. destruct Es as (c1 & v3 & Ec1 & Es).
      apply lift_fst_ok in Ec1. destruct Ec1 as [Ec1 ->].
      apply mbind_fst_ok in Es. destruct Es as (u & v4 & _ & Es).
      cbn [ret fst] in Es.
      assert (Hs : sums = mkSums e1 c1 tuned (Some (mkBars 8.5 15.0 (-10.0))))
        by congruence.
      rewrite Hs. cbn [sums_bars sums_Engineer sums_Consumer].
      split; assumption.
    - unfold ret in Esums.
      assert (Hs : sums = mkSums e0 c0
                            match bars with
                            | Some b => b
                            | None => mkBars 8.5 15.0 (-10.0)
                            end None) by congruence.
      rewrite Hs. cbn [sums_bars sums_Engineer sums_Consumer].
      split; assumption. }
  destruct Hdec as [Hde Hdc].
  split; [exact Hde|]. split; [exact Hdc|].
  split; [rewrite Hboth; exact Egrp | exact Eopps].
Qed.

(** X17.  In what a run returns, the two lens summaries are the
    evaluator's verdicts on the Engineer and the Consumer frame under the
    bars the summary itself reports: the tuned bars after autotuning, the
    caller's or the default bars otherwise. *)
Theorem run_all_summaries_under_reported_bars `{Runtime} (df : list Deal)
  (regional_map : RegionalMap) (sims : nat) (bars : option Bars)
  (autotune : bool) (save_path : string) (w : World)
  (both : Pd.DataFrame LensRow) (sums : Sums) (opps : list Opportunity) :
  fst (run_all df regional_map sims bars autotune save_path w)
  = Py.Ok (both, sums, opps) ->
  exists eng con,
    both = concat (with_lens eng "Engineer") (with_lens con "Consumer")
    /\ decide eng (Some (sums_bars sums)) = Py.Ok (sums_Engineer sums)
    /\ decide con (Some (sums_bars sums)) = Py.Ok (sums_Consumer sums).
Proof.
  intro E.
  destruct (run_all_inv_frames _ _ _ _ _ _ _ _ _ _ E)
    as (eng & con & w1 & grp & _ & _ & Hboth & Hde & Hdc & _).
  exists eng, con. repeat split; assumption.
Qed.

Lemma run_all_summaries_under_reported_bars_witness :
  exists both sums opps eng con,
    fst (@run_all Example.runtime [Example.deal1] Example.regional 4
                  (Some Example.loose_bars) false Example.save_path
                  Example.world0)
    = Py.Ok (both, sums, opps)
    /\ both = concat (with_lens eng "Engineer") (with_lens con "Consumer")
    /\ decide eng (Some (sums_bars sums)) = Py.Ok (sums_Engineer sums)
    /\ decide con (Some (sums_bars sums)) = Py.Ok (sums_Consumer sums).
Proof.
  pose proof ranked_run_eq as E. unfold Example.ranked_run in E.
  destruct (@run_all_summaries_under_reported_bars Example.runtime _ _ _ _ _ _
              _ _ _ _ E) as (eng & con & H1 & H2 & H3).
  eexists. eexists. eexists. exists eng, con.
  split; [exact E|]. repeat split; assumption.
Defined.

Lemma string_compare_refl (s : string) : String.compare s s = Eq.
Proof.
  induction s as [|a s IH]; cbn; [reflexivity|].
  unfold Ascii.compare. rewrite N.compare_refl. exact IH.
Qed.

Lemma median_ne_single (v : Q) : Pd.median_ne v [] = v.
Proof. reflexivity. Qed.

Lemma groupby_two_lenses (re rc : ResultRow) :
  region_ring re = region_ring rc ->
  groupby_median (Pd.Frame [(re, "Engineer"%string); (rc, "Consumer"%string)])
  = Py.Ok
      [mkGroupRow (region_ring rc) "Consumer" (HI rc) (P10_ROI rc)
                  (P50_ROI rc) (P90_ROI rc) (VaR5_ROI rc) (CVaR5_ROI rc)
                  (P_loss rc) (RiskAdj_ROI_P50 rc);
       mkGroupRow (region_ring re) "Engineer" (HI re) (P10_ROI re)
                  (P50_ROI re) (P90_ROI re) (VaR5_ROI re) (CVaR5_ROI re)
                  (P_loss re) (RiskAdj_ROI_P50 re)].
Proof.
  intro Hreg. unfold groupby_median. f_equal.
  assert (Hkeys : isort key_leb
                    (distinct (map key_of [(re, "Engineer"%string);
                                           (rc, "Consumer"%string)]))
                  = [(region_ring rc, "Consumer"%string);
                     (region_ring re, "Engineer"%string)]).
  { cbn [map]. unfold key_of. cbn [fst snd distinct filter].
    unfold key_eqb. cbn [fst snd].
    change (String.eqb "Engineer" "Consumer") with false.
    rewrite andb_false_r. cbn [negb isort insert].
    unfold key_leb. cbn [fst snd]. rewrite Hreg, string_compare_refl.
    reflexivity. }
  rewrite Hkeys. cbn [flat_map].
  unfold group_row, key_of. cbn [filter fst snd].
  unfold key_eqb. cbn [fst snd]. rewrite Hreg, !String.eqb_refl.
  change (String.eqb "Consumer" "Engineer") with false.
  change (String.eqb "Engineer" "Consumer") with false.
  change (String.eqb "Consumer" "Consumer") with true.
  change (String.eqb "Engineer" "Engineer") with true.
  cbn [andb map fst app]. rewrite !median_ne_single. reflexivity.
Qed.

Lemma single_row_frame `{Runtime} (r : Deal) (regional_map : RegionalMap)
  (sims : nat) (lens : string) (w : World) (frame : Pd.DataFrame ResultRow)
  (bars : Bars) (s : Summary) :
  fst (simulate_once [r] regional_map sims lens None w) = Py.Ok frame ->
  decide frame (Some bars) = Py.Ok s ->
  exists row, frame = Pd.Frame [row] /\ region_ring row = d_region_ring r.
Proof.
  intros Esim Edec. destruct frame as [|rows]; [discriminate Edec|].
  destruct (simulate_once_frame _ _ _ _ _ _ _ Esim) as [trials Erows].
  destruct (simulate_rows_columns _ _ _ _ _ Erows) as [_ Hreg].
  destruct rows as [|row [|row' rows']]; try discriminate Hreg.
  exists row. split; [reflexivity|]. cbn in Hreg. congruence.
Qed.

(** X18.  For a batch of one deal, which is what the form layer submits,
    the opportunity table holds exactly one Engineer row and one Consumer
    row for the deal's region, and each carries the status and the
    risk-adjusted ROI of the lens summary returned beside it. *)
Theorem run_all_single_deal `{Runtime} (r : Deal)
  (regional_map : RegionalMap) (sims : nat) (bars : option Bars)
  (autotune : bool) (save_path : string) (w : World)
  (both : Pd.DataFrame LensRow) (sums : Sums) (opps : list Opportunity) :
  fst (run_all [r] regional_map sims bars autotune save_path w)
  = Py.Ok (both, sums, opps) ->
  exists oe oc,
    Permutation [oc; oe] opps
    /\ o_lens oe = "Engineer"%string
    /\ o_region oe = d_region_ring r
    /\ o_status oe = s_Status (sums_Engineer sums)
    /\ s_RiskAdj (sums_Engineer sums) = Some (o_RiskAdj oe)
    /\ o_lens oc = "Consumer"%string
    /\ o_region oc = d_region_ring r
    /\ o_status oc = s_Status (sums_Consumer sums)
    /\ s_RiskAdj (sums_Consumer sums) = Some (o_RiskAdj oc).
Proof.
  intro E.
  destruct (run_all_inv_frames _ _ _ _ _ _ _ _ _ _ E)
    as (eng & con & w1 & grp & Ese & Esc & Hboth & Hde & Hdc & Egrp & Esort).
  destruct (single_row_frame _ _ _ _ _ _ _ _ Ese Hde) as (re & -> & Hre).
  destruct (single_row_frame _ _ _ _ _ _ _ _ Esc Hdc) as (rc & -> & Hrc).
  cbn [with_lens concat map app] in Hboth. subst both.
  rewrite groupby_two_lenses in Egrp by congruence.
  assert (Hgrp : grp = [mkGroupRow (region_ring rc) "Consumer" (HI rc)
                          (P10_ROI rc) (P50_ROI rc) (P90_ROI rc) (VaR5_ROI rc)
                          (CVaR5_ROI rc) (P_loss rc) (RiskAdj_ROI_P50 rc);
                        mkGroupRow (region_ring re) "Engineer" (HI re)
                          (P10_ROI re) (P50_ROI re) (P90_ROI re) (VaR5_ROI re)
                          (CVaR5_ROI re) (P_loss re) (RiskAdj_ROI_P50 re)])
    by congruence.
  subst grp. cbn [map] in Esort.
  set (b := sums_bars sums) in *.
  unfold decide in Hde, Hdc.
  cbn [Pd.column Py.bind map Pd.median] in Hde, Hdc.
  rewrite !median_ne_single in Hde, Hdc.
  assert (Hse : sums_Engineer sums
                = mkSummary (Some (RiskAdj_ROI_P50 re)) (Some (P_loss re))
                    (Some (CVaR5_ROI re))
                    (if nan_ge (Some (RiskAdj_ROI_P50 re)) (risk_adj b)
                        && nan_le (Some (P_loss re)) (ploss b)
                        && nan_gt (Some (CVaR5_ROI re)) (cvar b)
                     then GO else CAUTION)) by congruence.
  assert (Hsc : sums_Consumer sums
                = mkSummary (Some (RiskAdj_ROI_P50 rc)) (Some (P_loss rc))
                    (Some (CVaR5_ROI rc))
                    (if nan_ge (Some (RiskAdj_ROI_P50 rc)) (risk_adj b)
                        && nan_le (Some (P_loss rc)) (ploss b)
                        && nan_gt (Some (CVaR5_ROI rc)) (cvar b)
                     then GO else CAUTION)) by congruence.
  match type of Esort with
  | sort_values [?c; ?e] = _ => exists e, c
  end.
  split.
  - unfold sort_values in Esort.
    match type of Esort with
    | Py.Ok (isort opp_leb ?l) = _ =>
        assert (Ho : opps = isort opp_leb l) by congruence
    end.
    rewrite Ho. apply isort_perm.
  - rewrite Hse, Hsc. unfold opportunity.
    cbn [o_lens o_region o_status o_RiskAdj g_lens g_region_ring g_RiskAdj
         g_P_loss g_CVaR5 s_Status s_RiskAdj nan_ge nan_le nan_gt].
    repeat split; try reflexivity; assumption.
Qed.

Lemma run_all_single_deal_witness :
  exists both sums opps oe oc,
    fst (@run_all Example.runtime [Example.deal1] Example.regional 4
                  (Some Example.loose_bars) false Example.save_path
                  Example.world0)
    = Py.Ok (both, sums, opps)
    /\ Permutation [oc; oe] opps
    /\ o_status oe = s_Status (sums_Engineer sums)
    /\ o_status oc = s_Status (sums_Consumer sums).
Proof.
  pose proof ranked_run_eq as E. unfold Example.ranked_run in E.
  destruct (@run_all_single_deal Example.runtime _ _ _ _ _ _ _ _ _ _ E)
    as (oe & oc & Hp & _ & _ & He & _ & _ & _ & Hc & _).
  eexists. eexists. eexists. exists oe, oc.
  split; [exact E|]. repeat split; assumption.
Defined.

(** ** Deals of one batch *)

Lemma simulate_rows_nth `{Runtime} (regional_map : RegionalMap)
  (lens : string) (trials : list Trial) (df : list Deal)
  (rows : list ResultRow) (i : nat) (r : Deal) (row : ResultRow) :
  simulate_rows regional_map lens trials df = Py.Ok rows ->
  nth_error df i = Some r -> nth_error rows i = Some row ->
  simulate_deal regional_map lens trials r = Py.Ok row.
Proof.
  revert rows i. induction df as [|r0 rest IH]; intros rows i E Hr Hrow.
  - destruct i; discriminate Hr.
  - cbn [simulate_rows] in E.
    destruct (simulate_deal regional_map lens trials r0) as [row0|] eqn:E0;
      cbn [Py.bind] in E; [|discriminate E].
    destruct (simulate_rows regional_map lens trials rest) as [rows0|] eqn:E1;
      cbn [Py.bind] in E; [|discriminate E].
    assert (rows = row0 :: rows0) by congruence. subst rows.
    destruct i as [|i]; cbn [nth_error] in Hr, Hrow.
    + congruence.
    + exact (IH rows0 i eq_refl Hr Hrow).
Qed.

(** X19.  The shocks are drawn once per call and shared by the deals of the
    batch: two deals of one batch that agree on every column but the
    address get rows that agree on every column but the address. *)
Theorem simulate_once_shared_draws `{Runtime} (df : list Deal)
  (regional_map : RegionalMap) (sims : nat) (lens : string)
  (rng : option Generator) (w : World) (rows : list ResultRow)
  (i j : nat) (a1 a2 region : string)
  (purchase rehab carry selling arv : Q)
  (hold_m permit tax ltv rate : option Q) (row1 row2 : ResultRow) :
  fst (simulate_once df regional_map sims lens rng w)
  = Py.Ok (Pd.Frame rows) ->
  nth_error df i
  = Some (mkDeal a1 region purchase rehab carry selling arv hold_m permit
                 tax ltv rate) ->
  nth_error df j
  = Some (mkDeal a2 region purchase rehab carry selling arv hold_m permit
                 tax ltv rate) ->
  nth_error rows i = Some row1 ->
  nth_error rows j = Some row2 ->
  address row1 = a1
  /\ address row2 = a2
  /\ row2
     = mkRow a2 (region_ring row1) (HI row1) (P10_ROI row1) (P50_ROI row1)
             (P90_ROI row1) (VaR5_ROI row1) (CVaR5_ROI row1) (P_loss row1)
             (RiskAdj_ROI_P50 row1).
Proof.
  intros Erun H1 H2 Hr1 Hr2.
  destruct (simulate_once_frame _ _ _ _ _ _ _ Erun) as [trials Erows].
  pose proof (simulate_rows_nth _ _ _ _ _ _ _ _ Erows H1 Hr1) as E1.
  pose proof (simulate_rows_nth _ _ _ _ _ _ _ _ Erows H2 Hr2) as E2.
  unfold simulate_deal in E1, E2. cbn [d_region_ring] in E1, E2.
  destruct (headwind_index region regional_map) as [hi|];
    cbn [Py.bind] in E1, E2; [|discriminate E1].
  change (map (roi lens (mkDeal a2 region purchase rehab carry selling arv
                                hold_m permit tax ltv rate)) trials)
    with (map (roi lens (mkDeal a1 region purchase rehab carry selling arv
                                hold_m permit tax ltv rate)) trials) in E2.
  destruct (roi_stats _) as [s|]; cbn [Py.bind] in E1, E2; [|discriminate E1].
  assert (Hrow1 : row1 = result_row (mkDeal a1 region purchase rehab carry
                                       selling arv hold_m permit tax ltv rate)
                                    region hi s) by congruence.
  assert (Hrow2 : row2 = result_row (mkDeal a2 region purchase rehab carry
                                       selling arv hold_m permit tax ltv rate)
                                    region hi s) by congruence.
  subst row1 row2. repeat split.
Qed.

Lemma simulate_once_shared_draws_witness :
  exists row1 row2,
    fst (@simulate_once Example.runtime
           [Example.deal1;
            mkDeal "77 N Clark St" "Urban Core" 300000 50000 8000 0.05 400000
                   (Some 4) (Some 30) (Some 0.02) (Some 0.8) (Some 0.085)]
           Example.regional 4 "Engineer" None Example.world0)
    = Py.Ok (Pd.Frame [row1; row2])
    /\ address row1 = "1234 W Belmont Ave"%string
    /\ address row2 = "77 N Clark St"%string
    /\ row2
       = mkRow "77 N Clark St" (region_ring row1) (HI row1) (P10_ROI row1)
               (P50_ROI row1) (P90_ROI row1) (VaR5_ROI row1) (CVaR5_ROI row1)
               (P_loss row1) (RiskAdj_ROI_P50 row1).
Proof.
  destruct (@simulate_once_rows Example.runtime
              [Example.deal1;
               mkDeal "77 N Clark St" "Urban Core" 300000 50000 8000 0.05
                      400000 (Some 4) (Some 30) (Some 0.02) (Some 0.8)
                      (Some 0.085)]
              Example.regional Example.rings2 4 "Engineer" Example.world0)
    as (rows & E & Hlen & _);
    [discriminate | reflexivity | discriminate | lia |].
  destruct rows as [|row1 [|row2 [|? ?]]]; try discriminate Hlen.
  exists row1, row2.
  assert (Efst : fst (@simulate_once Example.runtime
           [Example.deal1;
            mkDeal "77 N Clark St" "Urban Core" 300000 50000 8000 0.05 400000
                   (Some 4) (Some 30) (Some 0.02) (Some 0.8) (Some 0.085)]
           Example.regional 4 "Engineer" None Example.world0)
          = Py.Ok (Pd.Frame [row1; row2])) by (rewrite E; reflexivity).
  split; [exact Efst|].
  exact (@simulate_once_shared_draws Example.runtime _ _ _ _ _ _ _ 0%nat 1%nat
           _ _ _ _ _ _ _ _ _ _ _ _ _ row1 row2 Efst eq_refl eq_refl eq_refl
           eq_refl).
Defined.

(** ** The form layer *)





Lemma sims_of_mode_pos (sims_mode : string) : (0 < sims_of_mode sims_mode)%nat.
Proof.
  unfold sims_of_mode.
  destruct (String.prefix "Quick" sims_mode); [lia|].
  destruct (String.prefix "Full" sims_mode); lia.
Qed.

(** X21.  A submitted form that passes validation, with a regional table of
    at least one ring, gets its results: the run returns, whatever the
    simulation size chosen, with one Engineer and one Consumer row in the
    combined frame, after an attempt to write the tuned bars to
    data/auto_tune.json.  A form that fails validation starts no run: the
    world is left as it was. *)
Theorem on_submit_outcome `{Runtime} (escape : string -> string)
  (regional_map : RegionalMap) (d : Rings) (f : Form) (sims_mode : string)
  (w : World) :
  rings regional_map = Some d -> d <> [] ->
  (validate (inp_of escape f) = true ->
   exists re rc sums opps w',
     on_submit escape regional_map f sims_mode w
     = (Py.Ok (Some (Pd.Frame [(re, "Engineer"%string);
                               (rc, "Consumer"%string)], sums, opps)), w')
     /\ In (MkdirParents "data/auto_tune.json") (fs_log w'))
  /\ (validate (inp_of escape f) = false ->
      on_submit escape regional_map f sims_mode w = (Py.Ok None, w)).
Proof.
  intros Hr Hne. split; intro Hv; unfold on_submit; cbv zeta; rewrite Hv;
    [|reflexivity].
  destruct (run_all_ok [inp_of escape f] regional_map d
              (sims_of_mode sims_mode) None true "data/auto_tune.json" w)
    as (er & cr & sums & opps & w' & E & Hle & Hlc & _);
    [discriminate | exact Hr | exact Hne | apply sims_of_mode_pos |].
  destruct er as [|re [|? ?]]; try discriminate Hle.
  destruct cr as [|rc [|? ?]]; try discriminate Hlc.
  cbn [map app] in E.
  exists re, rc, sums, opps, w'.
  unfold mbind. rewrite E. split; [reflexivity|].
  destruct (run_all_autotune_effect _ _ _ _ _ _ _ _ _ _ E) as (_ & Hlog & _).
  rewrite Hlog. apply in_or_app. left.
  destruct (fs_ok w (MkdirParents "data/auto_tune.json"));
    [right; left; reflexivity | left; reflexivity].
Qed.

Lemma on_submit_outcome_witness :
  exists re rc sums opps w',
    @on_submit Example.runtime (fun s => s) Example.regional
      (mkForm "1234 W Belmont Ave" "Urban Core" 310000 50000 0.05 410000
              8450 4 45 0.022)
      "Max (200k)" Example.world0
    = (Py.Ok (Some (Pd.Frame [(re, "Engineer"%string);
                              (rc, "Consumer"%string)], sums, opps)), w')
    /\ In (MkdirParents "data/auto_tune.json") (fs_log w').
Proof.
  refine (proj1 (@on_submit_outcome Example.runtime (fun s => s)
                   Example.regional Example.rings2 _ _ _ eq_refl _) _).
  - discriminate.
  - vm_compute. reflexivity.
Defined.

Lemma is_integer_inject_Z (n : Z) : is_integer (inject_Z n) = true.
Proof.
  unfold is_integer, inject_Z, Qred.
  pose proof (Z.ggcd_gcd n 1) as Hg.
  pose proof (Z.ggcd_correct_divisors n 1) as Hd.
  destruct (Z.ggcd n 1) as [g [a b]]. cbn [fst snd] in *.
  rewrite Z.gcd_1_r in Hg. subst g. destruct Hd as [_ Hb].
  assert (b = 1%Z) by lia. subst b. reflexivity.
Qed.

Lemma in_range_intro (x lo : Q) (hi : option Q) :
  lo <= x ->
  match hi with
  | Some h => x <= h
  | None => True
  end ->
  in_range x lo hi = true.
Proof.
  intros Hlo Hhi. unfold in_range. apply andb_true_iff. split.
  - apply leb_le. exact Hlo.
  - destruct hi as [h|]; [apply leb_le; exact Hhi | reflexivity].
Qed.

(** X22.  What the widgets of the form let through always passes the
    schema, whatever the escaped address: the bounds of the inputs and of
    the sliders lie within the schema's, and the two fixed loan terms
    (0.80 and 0.085) are within theirs, so the input-error branch is not
    reached from the form. *)
Theorem widget_form_validates (escape : string -> string) (f : Form) :
  widgets_allow f = true -> validate (inp_of escape f) = true.
Proof.
  unfold widgets_allow. rewrite !andb_true_iff.
  intros ((((((((Hreg & Hp) & Hr) & Hs1 & Hs2) & Ha) & Hc) & Hh) & Hd1 & Hd2)
          & Ht1 & Ht2).
  apply leb_le in Hp, Hr, Hs1, Hs2, Ha, Hc, Hh, Ht1, Ht2.
  apply Z.leb_le in Hd1, Hd2.
  unfold validate, inp_of, required, region_enum.
  cbn [d_region_ring d_purchase d_rehab d_carry d_selling_pct
       d_projected_sale d_hold_months d_permit_delay_days d_tax_drag d_ltv
       d_loan_rate_annual].
  rewrite Hreg, is_integer_inject_Z.
  rewrite !in_range_intro; try reflexivity; try exact I; try assumption;
    try lra.
  all: unfold Qle, inject_Z; cbn [Qnum Qden]; lia.
Qed.

Lemma widget_form_validates_witness :
  validate (inp_of (fun s => s)
              (mkForm "1234 W Belmont Ave" "Urban Core" 310000 50000 0.05
                      410000 8450 4 45 0.022)) = true.
Proof.
  apply (widget_form_validates (fun s => s)
           (mkForm "1234 W Belmont Ave" "Urban Core" 310000 50000 0.05
                   410000 8450 4 45 0.022)).
  vm_compute. reflexivity.
Defined.

(** X23.  When the regional file cannot be read, or its text is not JSON,
    the loader hands the form layer the empty object; every valid
    submission then raises [KeyError('rings')] from the first simulation,
    after one read of entropy and before anything is written. *)
Theorem on_submit_without_regional_file `{Runtime}
  (read_text : string -> option string)
  (loads : string -> option RegionalMap) (escape : string -> string)
  (f : Form) (sims_mode : string) (w : World) :
  (read_text "data/regional_headwinds.json"%string = None
   \/ exists text, read_text "data/regional_headwinds.json"%string = Some text
                   /\ loads text = None) ->
  validate (inp_of escape f) = true ->
  on_submit escape
            (load_json read_text loads "data/regional_headwinds.json"%string
                       empty_object)
            f sims_mode w
  = (Py.Raise (Py.KeyError "rings"),
     mkWorld (os_entropy w) (S (entropy_used w)) (fs_ok w) (fs_log w)).
Proof.
  intros Hfile Hv.
  assert (Hmap : load_json read_text loads
                           "data/regional_headwinds.json"%string empty_object
                  = mkRegionalMap None).
  { unfold load_json.
    destruct Hfile as [-> | (text & -> & ->)]; reflexivity. }
  rewrite Hmap. unfold on_submit. cbv zeta. rewrite Hv.
  unfold mbind.
  rewrite (run_all_first_raise [inp_of escape f] (mkRegionalMap None) _ None
             true "data/auto_tune.json" w (Py.KeyError "rings")).
  - reflexivity.
  - apply simulate_with_raises. reflexivity.
Qed.

Lemma on_submit_without_regional_file_witness :
  @on_submit Example.runtime (fun s => s)
    (load_json (fun _ => None) (fun _ => None)
               "data/regional_headwinds.json"%string empty_object)
    (mkForm "1234 W Belmont Ave" "Urban Core" 310000 50000 0.05 410000
            8450 4 45 0.022)
    "Quick (10k)" Example.world0
  = (Py.Raise (Py.KeyError "rings"),
     mkWorld (os_entropy Example.world0) 1 (fs_ok Example.world0) []).
Proof.
  apply (@on_submit_without_regional_file Example.runtime (fun _ => None)
           (fun _ => None) (fun s => s)).
  - left. reflexivity.
  - vm_compute. reflexivity.
Defined.
